(** * X-Booking: the vendor API clients and the snipe scheduler core

  A shallow embedding of [src/services/booking_client.py] (module [V1])
  and [src/services/booking_client_v2.py] (module [V2]), together with
  the consecutive-run finder and the dispatch protocol of the scheduler.

  Python values are dynamically typed: everything that comes out of a
  JSON document is kept as a [pyval] and every operation that Python
  would refuse at run time raises the corresponding exception.  Methods
  are computations in a state-and-exception monad whose state is the
  client object ([self]) and the list of HTTP exchanges made so far;
  mutations of [self] survive a raised exception, as they do in Python.

  The texts of the exceptions and of [repr] are those of CPython 3.11,
  the texts of [raise_for_status] those of requests 2. *)

From Stdlib Require Import ZArith List String Ascii Bool Lia DecimalString.
Import ListNotations.
Local Open Scope string_scope.
Local Open Scope Z_scope.
Set Warnings "-register-all".

(* ================================================================= *)
(** ** Texts *)

Module Unicode.

(** A Python [str] is a sequence of code points.  It is kept here as the
    bytes of its UTF-8 form; a lone surrogate, which a JSON escape can
    produce, takes the three bytes its range has.  Comparing two texts and
    searching one in the other can then go by bytes; counting characters,
    the classes of a regular expression and [repr] go by [chars].  The
    tables are those of Unicode 14.0.0, the database of CPython 3.11. *)
Record character : Type := mkChar { code : Z; bytes : string }.

Definition byte (a : ascii) : Z := Z.of_N (N_of_ascii a).

(** The six payload bits of a continuation byte *)
Definition continuation (a : ascii) : option Z :=
  if (128 <=? byte a) && (byte a <=? 191) then Some (byte a - 128) else None.

(** A byte that starts no well-formed sequence: it is kept as a character
    of its own, with the code point the [surrogateescape] handler gives
    it. *)
Definition stray (a : ascii) : character :=
  mkChar (56320 + byte a) (String a EmptyString).

(** The characters of a text, in order *)
Fixpoint chars (s : string) : list character :=
  match s with
  | EmptyString => []
  | String a s1 =>
      let x := byte a in
      let bad := stray a :: chars s1 in
      if x <? 128 then mkChar x (String a EmptyString) :: chars s1
      else
        match s1 with
        | EmptyString => bad
        | String b s2 =>
            match continuation b with
            | None => bad
            | Some y =>
                if (194 <=? x) && (x <=? 223) then
                  mkChar ((x - 192) * 64 + y) (String a (String b EmptyString))
                  :: chars s2
                else
                  match s2 with
                  | EmptyString => bad
                  | String c s3 =>
                      match continuation c with
                      | None => bad
                      | Some z =>
                          let three := ((x - 224) * 64 + y) * 64 + z in
                          if (224 <=? x) && (x <=? 239) && (2048 <=? three) then
                            mkChar three
                              (String a (String b (String c EmptyString)))
                            :: chars s3
                          else
                            match s3 with
                            | EmptyString => bad
                            | String d s4 =>
                                match continuation d with
                                | None => bad
                                | Some w =>
                                    let four :=
                                      (((x - 240) * 64 + y) * 64 + z) * 64 + w in
                                    if (240 <=? x) && (x <=? 244)
                                       && (65536 <=? four) && (four <=? 1114111)
                                    then
                                      mkChar four
                                        (String a (String b (String c
                                           (String d EmptyString))))
                                      :: chars s4
                                    else bad
                                end
                            end
                      end
                  end
            end
        end
  end.

(** The text a list of characters came from *)
Definition text_of (l : list character) : string :=
  String.concat EmptyString (map bytes l).

(** [len(s)] *)
Definition len (s : string) : Z := Z.of_nat (List.length (chars s)).

(** The digit zero of every script that has decimal digits; the other
    nine follow it. *)
Definition decimal_zeros : list Z :=
  [48; 1632; 1776; 1984; 2406; 2534; 2662; 2790; 2918; 3046; 3174; 3302;
   3430; 3558; 3664; 3792; 3872; 4160; 4240; 6112; 6160; 6470; 6608; 6784;
   6800; 6992; 7088; 7232; 7248; 42528; 43216; 43264; 43472; 43504; 43600;
   44016; 65296; 66720; 68912; 69734; 69872; 69942; 70096; 70384; 70736;
   70864; 71248; 71360; 71472; 71904; 72016; 72784; 73040; 73120; 92768;
   92864; 93008; 120782; 120792; 120802; 120812; 120822; 123200; 123632;
   125264; 130032].

(** The value of a character that [\d] matches and [int] reads: a decimal
    digit of any script *)
Definition decimal (cp : Z) : option Z :=
  match find (fun zero => (zero <=? cp) && (cp <? zero + 10)) decimal_zeros with
  | Some zero => Some (cp - zero)
  | None => None
  end.

(** The ranges of code points from 127 on that [str.isprintable] refuses:
    controls, format characters, surrogates, private use, unassigned
    code points and separators. *)
Definition unprintable : list (Z * Z) :=
  [(127, 160); (173, 173); (888, 889); (896, 899); (907, 907); (909, 909);
   (930, 930); (1328, 1328); (1367, 1368); (1419, 1420); (1424, 1424);
   (1480, 1487); (1515, 1518); (1525, 1541); (1564, 1564); (1757, 1757);
   (1806, 1807); (1867, 1868); (1970, 1983); (2043, 2044); (2094, 2095);
   (2111, 2111); (2140, 2141); (2143, 2143); (2155, 2159); (2191, 2199);
   (2274, 2274); (2436, 2436); (2445, 2446); (2449, 2450); (2473, 2473);
   (2481, 2481); (2483, 2485); (2490, 2491); (2501, 2502); (2505, 2506);
   (2511, 2518); (2520, 2523); (2526, 2526); (2532, 2533); (2559, 2560);
   (2564, 2564); (2571, 2574); (2577, 2578); (2601, 2601); (2609, 2609);
   (2612, 2612); (2615, 2615); (2618, 2619); (2621, 2621); (2627, 2630);
   (2633, 2634); (2638, 2640); (2642, 2648); (2653, 2653); (2655, 2661);
   (2679, 2688); (2692, 2692); (2702, 2702); (2706, 2706); (2729, 2729);
   (2737, 2737); (2740, 2740); (2746, 2747); (2758, 2758); (2762, 2762);
   (2766, 2767); (2769, 2783); (2788, 2789); (2802, 2808); (2816, 2816);
   (2820, 2820); (2829, 2830); (2833, 2834); (2857, 2857); (2865, 2865);
   (2868, 2868); (2874, 2875); (2885, 2886); (2889, 2890); (2894, 2900);
   (2904, 2907); (2910, 2910); (2916, 2917); (2936, 2945); (2948, 2948);
   (2955, 2957); (2961, 2961); (2966, 2968); (2971, 2971); (2973, 2973);
   (2976, 2978); (2981, 2983); (2987, 2989); (3002, 3005); (3011, 3013);
   (3017, 3017); (3022, 3023); (3025, 3030); (3032, 3045); (3067, 3071);
   (3085, 3085); (3089, 3089); (3113, 3113); (3130, 3131); (3141, 3141);
   (3145, 3145); (3150, 3156); (3159, 3159); (3163, 3164); (3166, 3167);
   (3172, 3173); (3184, 3190); (3213, 3213); (3217, 3217); (3241, 3241);
   (3252, 3252); (3258, 3259); (3269, 3269); (3273, 3273); (3278, 3284);
   (3287, 3292); (3295, 3295); (3300, 3301); (3312, 3312); (3315, 3327);
   (3341, 3341); (3345, 3345); (3397, 3397); (3401, 3401); (3408, 3411);
   (3428, 3429); (3456, 3456); (3460, 3460); (3479, 3481); (3506, 3506);
   (3516, 3516); (3518, 3519); (3527, 3529); (3531, 3534); (3541, 3541);
   (3543, 3543); (3552, 3557); (3568, 3569); (3573, 3584); (3643, 3646);
   (3676, 3712); (3715, 3715); (3717, 3717); (3723, 3723); (3748, 3748);
   (3750, 3750); (3774, 3775); (3781, 3781); (3783, 3783); (3790, 3791);
   (3802, 3803); (3808, 3839); (3912, 3912); (3949, 3952); (3992, 3992);
   (4029, 4029); (4045, 4045); (4059, 4095); (4294, 4294); (4296, 4300);
   (4302, 4303); (4681, 4681); (4686, 4687); (4695, 4695); (4697, 4697);
   (4702, 4703); (4745, 4745); (4750, 4751); (4785, 4785); (4790, 4791);
   (4799, 4799); (4801, 4801); (4806, 4807); (4823, 4823); (4881, 4881);
   (4886, 4887); (4955, 4956); (4989, 4991); (5018, 5023); (5110, 5111);
   (5118, 5119); (5760, 5760); (5789, 5791); (5881, 5887); (5910, 5918);
   (5943, 5951); (5972, 5983); (5997, 5997); (6001, 6001); (6004, 6015);
   (6110, 6111); (6122, 6127); (6138, 6143); (6158, 6158); (6170, 6175);
   (6265, 6271); (6315, 6319); (6390, 6399); (6431, 6431); (6444, 6447);
   (6460, 6463); (6465, 6467); (6510, 6511); (6517, 6527); (6572, 6575);
   (6602, 6607); (6619, 6621); (6684, 6685); (6751, 6751); (6781, 6782);
   (6794, 6799); (6810, 6815); (6830, 6831); (6863, 6911); (6989, 6991);
   (7039, 7039); (7156, 7163); (7224, 7226); (7242, 7244); (7305, 7311);
   (7355, 7356); (7368, 7375); (7419, 7423); (7958, 7959); (7966, 7967);
   (8006, 8007); (8014, 8015); (8024, 8024); (8026, 8026); (8028, 8028);
   (8030, 8030); (8062, 8063); (8117, 8117); (8133, 8133); (8148, 8149);
   (8156, 8156); (8176, 8177); (8181, 8181); (8191, 8207); (8232, 8239);
   (8287, 8303); (8306, 8307); (8335, 8335); (8349, 8351); (8385, 8399);
   (8433, 8447); (8588, 8591); (9255, 9279); (9291, 9311); (11124, 11125);
   (11158, 11158); (11508, 11512); (11558, 11558); (11560, 11564);
   (11566, 11567); (11624, 11630); (11633, 11646); (11671, 11679);
   (11687, 11687); (11695, 11695); (11703, 11703); (11711, 11711);
   (11719, 11719); (11727, 11727); (11735, 11735); (11743, 11743);
   (11870, 11903); (11930, 11930); (12020, 12031); (12246, 12271);
   (12284, 12288); (12352, 12352); (12439, 12440); (12544, 12548);
   (12592, 12592); (12687, 12687); (12772, 12783); (12831, 12831);
   (42125, 42127); (42183, 42191); (42540, 42559); (42744, 42751);
   (42955, 42959); (42962, 42962); (42964, 42964); (42970, 42993);
   (43053, 43055); (43066, 43071); (43128, 43135); (43206, 43213);
   (43226, 43231); (43348, 43358); (43389, 43391); (43470, 43470);
   (43482, 43485); (43519, 43519); (43575, 43583); (43598, 43599);
   (43610, 43611); (43715, 43738); (43767, 43776); (43783, 43784);
   (43791, 43792); (43799, 43807); (43815, 43815); (43823, 43823);
   (43884, 43887); (44014, 44015); (44026, 44031); (55204, 55215);
   (55239, 55242); (55292, 63743); (64110, 64111); (64218, 64255);
   (64263, 64274); (64280, 64284); (64311, 64311); (64317, 64317);
   (64319, 64319); (64322, 64322); (64325, 64325); (64451, 64466);
   (64912, 64913); (64968, 64974); (64976, 65007); (65050, 65055);
   (65107, 65107); (65127, 65127); (65132, 65135); (65141, 65141);
   (65277, 65280); (65471, 65473); (65480, 65481); (65488, 65489);
   (65496, 65497); (65501, 65503); (65511, 65511); (65519, 65531);
   (65534, 65535); (65548, 65548); (65575, 65575); (65595, 65595);
   (65598, 65598); (65614, 65615); (65630, 65663); (65787, 65791);
   (65795, 65798); (65844, 65846); (65935, 65935); (65949, 65951);
   (65953, 65999); (66046, 66175); (66205, 66207); (66257, 66271);
   (66300, 66303); (66340, 66348); (66379, 66383); (66427, 66431);
   (66462, 66462); (66500, 66503); (66518, 66559); (66718, 66719);
   (66730, 66735); (66772, 66775); (66812, 66815); (66856, 66863);
   (66916, 66926); (66939, 66939); (66955, 66955); (66963, 66963);
   (66966, 66966); (66978, 66978); (66994, 66994); (67002, 67002);
   (67005, 67071); (67383, 67391); (67414, 67423); (67432, 67455);
   (67462, 67462); (67505, 67505); (67515, 67583); (67590, 67591);
   (67593, 67593); (67638, 67638); (67641, 67643); (67645, 67646);
   (67670, 67670); (67743, 67750); (67760, 67807); (67827, 67827);
   (67830, 67834); (67868, 67870); (67898, 67902); (67904, 67967);
   (68024, 68027); (68048, 68049); (68100, 68100); (68103, 68107);
   (68116, 68116); (68120, 68120); (68150, 68151); (68155, 68158);
   (68169, 68175); (68185, 68191); (68256, 68287); (68327, 68330);
   (68343, 68351); (68406, 68408); (68438, 68439); (68467, 68471);
   (68498, 68504); (68509, 68520); (68528, 68607); (68681, 68735);
   (68787, 68799); (68851, 68857); (68904, 68911); (68922, 69215);
   (69247, 69247); (69290, 69290); (69294, 69295); (69298, 69375);
   (69416, 69423); (69466, 69487); (69514, 69551); (69580, 69599);
   (69623, 69631); (69710, 69713); (69750, 69758); (69821, 69821);
   (69827, 69839); (69865, 69871); (69882, 69887); (69941, 69941);
   (69960, 69967); (70007, 70015); (70112, 70112); (70133, 70143);
   (70162, 70162); (70207, 70271); (70279, 70279); (70281, 70281);
   (70286, 70286); (70302, 70302); (70314, 70319); (70379, 70383);
   (70394, 70399); (70404, 70404); (70413, 70414); (70417, 70418);
   (70441, 70441); (70449, 70449); (70452, 70452); (70458, 70458);
   (70469, 70470); (70473, 70474); (70478, 70479); (70481, 70486);
   (70488, 70492); (70500, 70501); (70509, 70511); (70517, 70655);
   (70748, 70748); (70754, 70783); (70856, 70863); (70874, 71039);
   (71094, 71095); (71134, 71167); (71237, 71247); (71258, 71263);
   (71277, 71295); (71354, 71359); (71370, 71423); (71451, 71452);
   (71468, 71471); (71495, 71679); (71740, 71839); (71923, 71934);
   (71943, 71944); (71946, 71947); (71956, 71956); (71959, 71959);
   (71990, 71990); (71993, 71994); (72007, 72015); (72026, 72095);
   (72104, 72105); (72152, 72153); (72165, 72191); (72264, 72271);
   (72355, 72367); (72441, 72703); (72713, 72713); (72759, 72759);
   (72774, 72783); (72813, 72815); (72848, 72849); (72872, 72872);
   (72887, 72959); (72967, 72967); (72970, 72970); (73015, 73017);
   (73019, 73019); (73022, 73022); (73032, 73039); (73050, 73055);
   (73062, 73062); (73065, 73065); (73103, 73103); (73106, 73106);
   (73113, 73119); (73130, 73439); (73465, 73647); (73649, 73663);
   (73714, 73726); (74650, 74751); (74863, 74863); (74869, 74879);
   (75076, 77711); (77811, 77823); (78895, 82943); (83527, 92159);
   (92729, 92735); (92767, 92767); (92778, 92781); (92863, 92863);
   (92874, 92879); (92910, 92911); (92918, 92927); (92998, 93007);
   (93018, 93018); (93026, 93026); (93048, 93052); (93072, 93759);
   (93851, 93951); (94027, 94030); (94088, 94094); (94112, 94175);
   (94181, 94191); (94194, 94207); (100344, 100351); (101590, 101631);
   (101641, 110575); (110580, 110580); (110588, 110588); (110591, 110591);
   (110883, 110927); (110931, 110947); (110952, 110959); (111356, 113663);
   (113771, 113775); (113789, 113791); (113801, 113807); (113818, 113819);
   (113824, 118527); (118574, 118575); (118599, 118607); (118724, 118783);
   (119030, 119039); (119079, 119080); (119155, 119162); (119275, 119295);
   (119366, 119519); (119540, 119551); (119639, 119647); (119673, 119807);
   (119893, 119893); (119965, 119965); (119968, 119969); (119971, 119972);
   (119975, 119976); (119981, 119981); (119994, 119994); (119996, 119996);
   (120004, 120004); (120070, 120070); (120075, 120076); (120085, 120085);
   (120093, 120093); (120122, 120122); (120127, 120127); (120133, 120133);
   (120135, 120137); (120145, 120145); (120486, 120487); (120780, 120781);
   (121484, 121498); (121504, 121504); (121520, 122623); (122655, 122879);
   (122887, 122887); (122905, 122906); (122914, 122914); (122917, 122917);
   (122923, 123135); (123181, 123183); (123198, 123199); (123210, 123213);
   (123216, 123535); (123567, 123583); (123642, 123646); (123648, 124895);
   (124903, 124903); (124908, 124908); (124911, 124911); (124927, 124927);
   (125125, 125126); (125143, 125183); (125260, 125263); (125274, 125277);
   (125280, 126064); (126133, 126208); (126270, 126463); (126468, 126468);
   (126496, 126496); (126499, 126499); (126501, 126502); (126504, 126504);
   (126515, 126515); (126520, 126520); (126522, 126522); (126524, 126529);
   (126531, 126534); (126536, 126536); (126538, 126538); (126540, 126540);
   (126544, 126544); (126547, 126547); (126549, 126550); (126552, 126552);
   (126554, 126554); (126556, 126556); (126558, 126558); (126560, 126560);
   (126563, 126563); (126565, 126566); (126571, 126571); (126579, 126579);
   (126584, 126584); (126589, 126589); (126591, 126591); (126602, 126602);
   (126620, 126624); (126628, 126628); (126634, 126634); (126652, 126703);
   (126706, 126975); (127020, 127023); (127124, 127135); (127151, 127152);
   (127168, 127168); (127184, 127184); (127222, 127231); (127406, 127461);
   (127491, 127503); (127548, 127551); (127561, 127567); (127570, 127583);
   (127590, 127743); (128728, 128732); (128749, 128751); (128765, 128767);
   (128884, 128895); (128985, 128991); (129004, 129007); (129009, 129023);
   (129036, 129039); (129096, 129103); (129114, 129119); (129160, 129167);
   (129198, 129199); (129202, 129279); (129620, 129631); (129646, 129647);
   (129653, 129655); (129661, 129663); (129671, 129679); (129709, 129711);
   (129723, 129727); (129734, 129743); (129754, 129759); (129768, 129775);
   (129783, 129791); (129939, 129939); (129995, 130031); (130042, 131071);
   (173792, 173823); (177977, 177983); (178206, 178207); (183970, 183983);
   (191457, 194559); (195102, 196607); (201547, 917759); (918000, 1114111)].

(** [chr(cp).isprintable()] *)
Definition isprintable (cp : Z) : bool :=
  (32 <=? cp)
  && negb (existsb (fun r => (fst r <=? cp) && (cp <=? snd r)) unprintable).

Definition hex_digit (n : Z) : string :=
  String (nth (Z.to_nat n) (list_ascii_of_string "0123456789abcdef") "0"%char)
    EmptyString.

(** [n] written with [width] hexadecimal digits *)
Fixpoint hex (width : nat) (n : Z) : string :=
  match width with
  | O => EmptyString
  | S w => hex w (n / 16) ++ hex_digit (n mod 16)
  end.

Definition backslash : string := String (ascii_of_nat 92) EmptyString.
Definition quote : string := String (ascii_of_nat 39) EmptyString.
Definition double_quote : string := String (ascii_of_nat 34) EmptyString.

(** How [repr] writes one character between quotes of code point [q] *)
Definition escaped (q : Z) (c : character) : string :=
  let cp := code c in
  if (cp =? q) || (cp =? 92) then backslash ++ bytes c
  else if cp =? 9 then backslash ++ "t"
  else if cp =? 10 then backslash ++ "n"
  else if cp =? 13 then backslash ++ "r"
  else if isprintable cp then bytes c
  else if cp <=? 255 then backslash ++ "x" ++ hex 2 cp
  else if cp <=? 65535 then backslash ++ "u" ++ hex 4 cp
  else backslash ++ "U" ++ hex 8 cp.

Definition has (cp : Z) (l : list character) : bool :=
  existsb (fun c => code c =? cp) l.

(** [repr(s)] of a text: between single quotes, or between double quotes
    when it holds a single quote and no double one *)
Definition repr (s : string) : string :=
  let l := chars s in
  if has 39 l && negb (has 34 l)
  then double_quote ++ String.concat EmptyString (map (escaped 34) l)
       ++ double_quote
  else quote ++ String.concat EmptyString (map (escaped 39) l) ++ quote.

End Unicode.

(* ================================================================= *)
(** ** Python values *)

Module Py.

(** JSON documents and the Python objects built from them.  Numbers are
    integers: the vendor's identifiers, counters and epoch seconds. *)
Inductive pyval : Type :=
| PNone
| PBool (b : bool)
| PInt (n : Z)
| PStr (s : string)
| PList (l : list pyval)
| PDict (kv : list (string * pyval)).

Inductive exn_kind : Type :=
| AttributeError
| TypeError
| ValueError
| KeyError
| JSONDecodeError
| RequestException
| WebDriverException.

(** An exception: its class and [str(e)].  [HTTPError] is the one raised
    by [raise_for_status]; it carries the status of [e.response]. *)
Inductive exn : Type :=
| Exn (k : exn_kind) (msg : string)
| HTTPError (status : Z) (msg : string).

Definition exn_str (e : exn) : string :=
  match e with
  | Exn _ m => m
  | HTTPError _ m => m
  end.

Inductive outcome (A : Type) : Type :=
| Returns (a : A)
| Raises (e : exn).
Arguments Returns {A} a.
Arguments Raises {A} e.

(** Sequencing of evaluations that may raise *)
Definition and_then {A B} (o : outcome A) (k : A -> outcome B) : outcome B :=
  match o with
  | Returns a => k a
  | Raises e => Raises e
  end.

(** A [for] loop that builds one element per item; the first exception
    ends it. *)
Fixpoint each {A B} (f : A -> outcome B) (l : list A) : outcome (list B) :=
  match l with
  | [] => Returns []
  | x :: rest =>
      and_then (f x) (fun y => and_then (each f rest) (fun ys => Returns (y :: ys)))
  end.

Definition string_of_Z (z : Z) : string :=
  NilZero.string_of_int (Z.to_int z).

(** [bool(v)] *)
Definition truthy (v : pyval) : bool :=
  match v with
  | PNone => false
  | PBool b => b
  | PInt n => negb (n =? 0)
  | PStr s => negb (String.eqb s EmptyString)
  | PList l => match l with [] => false | _ => true end
  | PDict kv => match kv with [] => false | _ => true end
  end.

Definition type_name (v : pyval) : string :=
  match v with
  | PNone => "NoneType"
  | PBool _ => "bool"
  | PInt _ => "int"
  | PStr _ => "str"
  | PList _ => "list"
  | PDict _ => "dict"
  end.

Fixpoint lookup (k : string) (kv : list (string * pyval)) : option pyval :=
  match kv with
  | [] => None
  | (k', v) :: rest => if String.eqb k k' then Some v else lookup k rest
  end.

(** [d[k] = v] on a dict under construction *)
Fixpoint store (k : string) (v : pyval) (kv : list (string * pyval))
  : list (string * pyval) :=
  match kv with
  | [] => [(k, v)]
  | (k', v') :: rest =>
      if String.eqb k k' then (k', v) :: rest else (k', v') :: store k v rest
  end.

Definition no_attribute (v : pyval) (attr : string) : exn :=
  Exn AttributeError
    ("'" ++ type_name v ++ "' object has no attribute '" ++ attr ++ "'").

(** [v.get(k, default)]: only a dict has the method. *)
Definition get_default (v : pyval) (k : string) (default : pyval)
  : outcome pyval :=
  match v with
  | PDict kv =>
      Returns (match lookup k kv with Some x => x | None => default end)
  | _ => Raises (no_attribute v "get")
  end.

(** [v.get(k)] *)
Definition get (v : pyval) (k : string) : outcome pyval :=
  get_default v k PNone.

Fixpoint prefix_of (p s : string) : bool :=
  match p, s with
  | EmptyString, _ => true
  | String a p', String b s' => Ascii.eqb a b && prefix_of p' s'
  | String _ _, EmptyString => false
  end.

Fixpoint substring_of (p s : string) : bool :=
  prefix_of p s ||
  match s with
  | EmptyString => false
  | String _ s' => substring_of p s'
  end.

(** [k in v] for a string [k] *)
Definition contains (k : string) (v : pyval) : outcome bool :=
  match v with
  | PDict kv => Returns (match lookup k kv with Some _ => true | None => false end)
  | PList l =>
      Returns (existsb (fun x => match x with
                                 | PStr s => String.eqb s k
                                 | _ => false
                                 end) l)
  | PStr s => Returns (substring_of k s)
  | _ => Raises (Exn TypeError
                   ("argument of type '" ++ type_name v ++ "' is not iterable"))
  end.

(** [v[k]] for a string [k] *)
Definition item (v : pyval) (k : string) : outcome pyval :=
  match v with
  | PDict kv =>
      match lookup k kv with
      | Some x => Returns x
      | None => Raises (Exn KeyError (Unicode.repr k))
      end
  | PList _ => Raises (Exn TypeError "list indices must be integers or slices, not str")
  | PStr _ => Raises (Exn TypeError "string indices must be integers, not 'str'")
  | _ => Raises (Exn TypeError ("'" ++ type_name v ++ "' object is not subscriptable"))
  end.

Definition as_number (v : pyval) : option Z :=
  match v with
  | PInt n => Some n
  | PBool b => Some (if b then 1 else 0)
  | _ => None
  end.

(** [a + b] *)
Definition add (a b : pyval) : outcome pyval :=
  match as_number a, as_number b with
  | Some x, Some y => Returns (PInt (x + y))
  | _, _ =>
      match a, b with
      | PStr x, PStr y => Returns (PStr (x ++ y))
      | PList x, PList y => Returns (PList (x ++ y)%list)
      | PStr _, _ | PList _, _ =>
          Raises (Exn TypeError
                    ("can only concatenate " ++ type_name a ++ " (not "
                     ++ Unicode.double_quote ++ type_name b
                     ++ Unicode.double_quote ++ ") to " ++ type_name a))
      | _, _ => Raises (Exn TypeError
                          ("unsupported operand type(s) for +: '" ++ type_name a
                           ++ "' and '" ++ type_name b ++ "'"))
      end
  end.

(** [repr(v)]: a text between quotes, a container as the [repr] of its
    elements between brackets *)
Fixpoint repr (v : pyval) : string :=
  match v with
  | PNone => "None"
  | PBool b => if b then "True" else "False"
  | PInt n => string_of_Z n
  | PStr s => Unicode.repr s
  | PList l =>
      "[" ++ (fix go (l : list pyval) : string :=
                match l with
                | [] => EmptyString
                | [x] => repr x
                | x :: rest => repr x ++ ", " ++ go rest
                end) l ++ "]"
  | PDict kv =>
      "{" ++ (fix go (kv : list (string * pyval)) : string :=
                match kv with
                | [] => EmptyString
                | [(k, x)] => Unicode.repr k ++ ": " ++ repr x
                | (k, x) :: rest =>
                    Unicode.repr k ++ ": " ++ repr x ++ ", " ++ go rest
                end) kv ++ "}"
  end.

(** [str(v)], which is also how an f-string writes [v]: a text as it is,
    anything else as its [repr] *)
Definition str (v : pyval) : string :=
  match v with
  | PStr s => s
  | _ => repr v
  end.

(** What iterating over [v] yields: the items of a list, the keys of a
    dict, the characters of a string. *)
Definition iterate (v : pyval) : outcome (list pyval) :=
  match v with
  | PList l => Returns l
  | PDict kv => Returns (map (fun p => PStr (fst p)) kv)
  | PStr s => Returns (map (fun c => PStr (Unicode.bytes c)) (Unicode.chars s))
  | _ => Raises (Exn TypeError ("'" ++ type_name v ++ "' object is not iterable"))
  end.

Definition opt_str (o : option string) : pyval :=
  match o with
  | Some s => PStr s
  | None => PNone
  end.

Definition is_true (v : pyval) : bool :=
  match v with
  | PBool true => true
  | _ => false
  end.

(** [r["success"]] of a result dict *)
Definition success_of (r : pyval) : option bool :=
  match r with
  | PDict kv => match lookup "success" kv with
                | Some (PBool b) => Some b
                | _ => None
                end
  | _ => None
  end.

Definition field (k : string) (r : pyval) : option pyval :=
  match r with
  | PDict kv => lookup k kv
  | _ => None
  end.

End Py.
Export Py.

Declare Scope eval_scope.
Delimit Scope eval_scope with eval.
Notation "x <~ o ;; k" := (and_then o (fun x => k))
  (at level 61, o at next level, right associativity) : eval_scope.

(* ================================================================= *)
(** ** The world outside the client: HTTP, clock and browser *)

Module Http.

Inductive method : Type := GET | POST | DELETE.

(** One call on [requests.Session]: the verb, the URL and what is sent
    with it ([params=] or [json=]). *)
Record request : Type := mkRequest {
  meth : method;
  url : string;
  payload : pyval
}.

(** What the client reads of a [requests.Response].  [response_url] is
    [response.url], the address the answer came from.  [json_body] is
    [None] when the body is not a JSON document, so that
    [response.json()] raises; [json_error] is then the text of the
    decoder's complaint. *)
Record response : Type := mkResponse {
  status_code : Z;
  reason : string;
  response_url : string;
  content_type : option string;
  json_body : option pyval;
  json_error : string
}.

Inductive http_outcome : Type :=
| Responds (r : response)
| Fails (msg : string).

(** A text read from the browser's [localStorage]: either the serialisation
    of a JSON value or a text [json.loads] rejects, with the text of the
    decoder's complaint. *)
Inductive js_text : Type :=
| JsonText (v : pyval)
| OtherText (s : string) (error : string).

(** How the Selenium part of a login runs, up to [execute_script]. *)
Inductive browser_outcome : Type :=
| ChromeUnavailable (msg : string)
| PageError (msg : string)
| NoInstitutionButton
| LocalStorage (item : option js_text).

(** Everything a method reads from outside [self].  [vendor n rq] is the
    answer to request [rq] when [n] exchanges were made before it.
    [timestamp] is [datetime.now().timestamp()] in whole seconds, which
    compares with an integer expiry as the fractional reading does; the
    other clock fields are the formatted readings the methods send:
    [datetime.now().strftime("%Y-%m-%d")], [datetime.utcnow().isoformat()]
    and the two ends of the 28-day range of [get_current_bookings].
    [browser] and [quit_error] say how Selenium behaves during a login. *)
Record env : Type := mkEnv {
  vendor : nat -> request -> http_outcome;
  timestamp : Z;
  today : string;
  utcnow_iso : string;
  range_start_iso : string;
  range_end_iso : string;
  browser : browser_outcome;
  quit_error : option string
}.

Definition trace : Type := list (request * http_outcome).

(** Computations over a client of type [S]. *)
Definition M (S A : Type) : Type :=
  env -> S * trace -> outcome A * (S * trace).

Definition ret {S A} (a : A) : M S A :=
  fun _ st => (Returns a, st).

Definition bind {S A B} (m : M S A) (k : A -> M S B) : M S B :=
  fun e st =>
    match m e st with
    | (Returns a, st') => k a e st'
    | (Raises x, st') => (Raises x, st')
    end.

Definition raise {S A} (x : exn) : M S A :=
  fun _ st => (Raises x, st).

(** [try: body except Exception as e: handler(e)] *)
Definition try_except {S A} (body : M S A) (handler : exn -> M S A) : M S A :=
  fun e st =>
    match body e st with
    | (Returns a, st') => (Returns a, st')
    | (Raises x, st') => handler x e st'
    end.

Definition lift {S A} (o : outcome A) : M S A :=
  fun _ st => (o, st).

Definition ask {S} : M S env :=
  fun e st => (Returns e, st).

Definition self {S} : M S S :=
  fun _ st => (Returns (fst st), st).

Definition update {S} (f : S -> S) : M S unit :=
  fun _ st => (Returns tt, (f (fst st), snd st)).

(** Sending a request: the exchange is recorded whether it is answered
    or fails in transport. *)
Definition send {S} (rq : request) : M S response :=
  fun e st =>
    let o := vendor e (List.length (snd st)) rq in
    let st' := (fst st, (snd st ++ [(rq, o)])%list) in
    match o with
    | Responds r => (Returns r, st')
    | Fails msg => (Raises (Exn RequestException msg), st')
    end.

(** [response.json()] *)
Definition json {S} (r : response) : M S pyval :=
  match json_body r with
  | Some v => ret v
  | None => raise (Exn JSONDecodeError (json_error r))
  end.

(** [response.raise_for_status()] of the requests library *)
Definition raise_for_status {S} (r : response) : M S unit :=
  if (400 <=? status_code r) && (status_code r <? 500) then
    raise (HTTPError (status_code r)
             (string_of_Z (status_code r) ++ " Client Error: " ++ reason r
              ++ " for url: " ++ response_url r))
  else if (500 <=? status_code r) && (status_code r <? 600) then
    raise (HTTPError (status_code r)
             (string_of_Z (status_code r) ++ " Server Error: " ++ reason r
              ++ " for url: " ++ response_url r))
  else ret tt.

(** Running a method on a client that has made no exchange yet. *)
Definition run {S A} (m : M S A) (e : env) (c : S) : outcome A * (S * trace) :=
  m e (c, []).

Definition result {S A} (r : outcome A * (S * trace)) : outcome A := fst r.
Definition client_after {S A} (r : outcome A * (S * trace)) : S := fst (snd r).
Definition exchanges {S A} (r : outcome A * (S * trace)) : trace := snd (snd r).

End Http.
Export Http.

Declare Scope py_scope.
Delimit Scope py_scope with py.
Notation "x <- m ;; k" := (bind m (fun x => k))
  (at level 61, m at next level, right associativity) : py_scope.
Notation "m ;;; k" := (bind m (fun _ => k))
  (at level 61, right associativity) : py_scope.

(* ================================================================= *)
(** ** booking_client.py *)

Module V1.
Local Open Scope py_scope.

Definition BASE_URL : string := "https://x.tudelft.nl".

(** The attributes of a [BookingClient] that its methods read or assign.
    The session headers are set once in [__init__] and never change. *)
Record client : Type := mkClient {
  is_authenticated : bool;
  current_account : pyval
}.

(** [__init__] *)
Definition init : client :=
  {| is_authenticated := false; current_account := PNone |}.

Definition set_is_authenticated (b : bool) (c : client) : client :=
  {| is_authenticated := b; current_account := current_account c |}.

Definition set_current_account (v : pyval) (c : client) : client :=
  {| is_authenticated := is_authenticated c; current_account := v |}.

(** [{"success": False, "error": msg}] *)
Definition failure (msg : pyval) : pyval :=
  PDict [("success", PBool false); ("error", msg)].

Definition not_authenticated : pyval :=
  failure (PStr "Not authenticated. Please login first.").

(** [response.json() if response.headers.get('content-type') ==
    'application/json' else {}] *)
Definition error_data_of (r : response) : M client pyval :=
  match content_type r with
  | Some ct => if String.eqb ct "application/json" then json r else ret (PDict [])
  | None => ret (PDict [])
  end.

Definition login (username password : string) : M client pyval :=
  try_except
    (login_page <- send (mkRequest GET (BASE_URL ++ "/login") PNone) ;;
     if negb (status_code login_page =? 200) then
       ret (failure (PStr ("Failed to access login page: "
                           ++ string_of_Z (status_code login_page))))
     else
       let login_data :=
         PDict [("username", PStr username); ("password", PStr password)] in
       response <- send (mkRequest POST (BASE_URL ++ "/api/auth/login") login_data) ;;
       if status_code response =? 200 then
         data <- json response ;;
         update (set_is_authenticated true) ;;;
         user_id <- lift (get data "userId") ;;
         name <- lift (get data "name") ;;
         update (set_current_account
                   (PDict [("username", PStr username);
                           ("user_id", user_id);
                           ("name", name)])) ;;;
         c <- self ;;
         ret (PDict [("success", PBool true);
                     ("user", current_account c);
                     ("message", PStr "Login successful")])
       else
         error_data <- error_data_of response ;;
         msg <- lift (get_default error_data "message" (PStr "Invalid credentials")) ;;
         ret (failure msg))
    (fun e => ret (failure (PStr ("Login failed: " ++ exn_str e)))).

Definition logout : M client bool :=
  try_except
    (send (mkRequest GET (BASE_URL ++ "/api/auth/logout") PNone) ;;;
     update (set_is_authenticated false) ;;;
     update (set_current_account PNone) ;;;
     ret true)
    (fun _ => ret false).

(** [location_map.get(location)] *)
Definition location_map (location : string) : option string :=
  if String.eqb location "Fitness" then Some "20061"
  else if String.eqb location "X1" then Some "20045"
  else if String.eqb location "X3" then Some "20047"
  else None.

(** [sub_location and location in ["X1", "X3"]], then
    [resource_map[location].get(sub_location)] *)
Definition resource_map (location sub_location : string) : option string :=
  if String.eqb location "X1" then
    if String.eqb sub_location "A" then Some "4"
    else if String.eqb sub_location "B" then Some "5"
    else None
  else if String.eqb location "X3" then
    if String.eqb sub_location "A" then Some "16534"
    else if String.eqb sub_location "B" then Some "16535"
    else None
  else None.

(** Truth value of an [Optional[str]] argument *)
Definition given (o : option string) : bool :=
  match o with
  | Some s => negb (String.eqb s EmptyString)
  | None => false
  end.

Definition slots_params (product_id date : string) (location : string)
  (sub_location : option string) : pyval :=
  let params := [("productId", PStr product_id); ("date", PStr date)] in
  PDict
    (match sub_location with
     | Some sub =>
         if given sub_location
            && (String.eqb location "X1" || String.eqb location "X3")
         then match resource_map location sub with
              | Some resource_id => store "resourceId" (PStr resource_id) params
              | None => params
              end
         else params
     | None => params
     end).

(** The request [get_available_slots] sends for a known location. *)
Definition slots_request (product_id date : string) (location : string)
  (sub_location : option string) : request :=
  mkRequest GET (BASE_URL ++ "/api/bookings/available")
    (slots_params product_id date location sub_location).

(** One iteration of the loop over [data.get("slots", [])] *)
Definition parse_slot (slot : pyval) : outcome pyval :=
  (time <~ get slot "startTime" ;;
   end_time <~ get slot "endTime" ;;
   available <~ get_default slot "availableSpots" (PInt 0) ;;
   total <~ get_default slot "totalSpots" (PInt 0) ;;
   slot_id <~ get slot "id" ;;
   resource_id <~ get slot "resourceId" ;;
   Returns (PDict [("time", time); ("end_time", end_time);
                   ("available", available); ("total", total);
                   ("slot_id", slot_id); ("resource_id", resource_id)]))%eval.

Definition get_available_slots (location date : string)
  (sub_location : option string) : M client pyval :=
  c <- self ;;
  if negb (is_authenticated c) then ret not_authenticated
  else
    try_except
      (match location_map location with
       | None => ret (failure (PStr ("Invalid location: " ++ location)))
       | Some product_id =>
           response <- send (slots_request product_id date location sub_location) ;;
           if status_code response =? 200 then
             data <- json response ;;
             listed <- lift (get_default data "slots" (PList [])) ;;
             items <- lift (iterate listed) ;;
             available_slots <- lift (each parse_slot items) ;;
             ret (PDict [("success", PBool true);
                         ("location", PStr location);
                         ("sub_location", opt_str sub_location);
                         ("date", PStr date);
                         ("slots", PList available_slots);
                         ("count", PInt (Z.of_nat (List.length available_slots)))])
           else
             ret (failure (PStr ("Failed to fetch available slots: "
                                 ++ string_of_Z (status_code response))))
       end)
      (fun e => ret (failure (PStr ("Error fetching slots: " ++ exn_str e)))).

Definition _parse_sub_location (product_description : pyval) : outcome pyval :=
  if negb (truthy product_description) then Returns PNone
  else
    (has_a <~ contains " A" product_description ;;
     if has_a then Returns (PStr "A")
     else
       has_b <~ contains " B" product_description ;;
       if has_b then Returns (PStr "B") else Returns PNone)%eval.

(** One iteration of the loop over [data.get("bookings", [])] *)
Definition parse_booking (booking : pyval) : outcome pyval :=
  (id <~ get booking "id" ;;
   booking_id <~ get booking "id" ;;
   date <~ get booking "startDate" ;;
   start_time <~ get booking "startTime" ;;
   end_time <~ get booking "endTime" ;;
   location <~ get booking "productDescription" ;;
   description <~ get booking "productDescription" ;;
   sub_location <~ _parse_sub_location description ;;
   resource_id <~ get booking "resourceId" ;;
   can_cancel <~ get_default booking "canCancel" (PBool false) ;;
   participants <~ get_default booking "participantAmount" (PInt 1) ;;
   Returns (PDict [("id", id); ("booking_id", booking_id); ("date", date);
                   ("start_time", start_time); ("end_time", end_time);
                   ("location", location); ("sub_location", sub_location);
                   ("resource_id", resource_id); ("status", PStr "confirmed");
                   ("can_cancel", can_cancel); ("participants", participants)]))%eval.

Definition get_current_bookings (include_past : bool) : M client pyval :=
  c <- self ;;
  if negb (is_authenticated c) then ret not_authenticated
  else
    try_except
      (e <- ask ;;
       let params := if negb include_past then [("from", PStr (today e))] else [] in
       response <- send (mkRequest GET (BASE_URL ++ "/api/bookings/my-bookings")
                           (PDict params)) ;;
       if status_code response =? 200 then
         data <- json response ;;
         listed <- lift (get_default data "bookings" (PList [])) ;;
         items <- lift (iterate listed) ;;
         bookings <- lift (each parse_booking items) ;;
         ret (PDict [("success", PBool true);
                     ("bookings", PList bookings);
                     ("count", PInt (Z.of_nat (List.length bookings)))])
       else
         ret (failure (PStr ("Failed to fetch bookings: "
                             ++ string_of_Z (status_code response)))))
      (fun e => ret (failure (PStr ("Error fetching bookings: " ++ exn_str e)))).

Definition cancel_booking (booking_id : string) : M client pyval :=
  c <- self ;;
  if negb (is_authenticated c) then ret not_authenticated
  else
    try_except
      (response <- send (mkRequest DELETE (BASE_URL ++ "/api/bookings/" ++ booking_id)
                           PNone) ;;
       if status_code response =? 200 then
         ret (PDict [("success", PBool true);
                     ("message", PStr "Booking cancelled successfully");
                     ("booking_id", PStr booking_id)])
       else if status_code response =? 404 then
         ret (failure (PStr "Booking not found"))
       else if status_code response =? 400 then
         error_data <- error_data_of response ;;
         msg <- lift (get_default error_data "message"
                        (PStr "Cannot cancel this booking")) ;;
         ret (failure msg)
       else
         ret (failure (PStr ("Failed to cancel booking: "
                             ++ string_of_Z (status_code response)))))
      (fun e => ret (failure (PStr ("Error cancelling booking: " ++ exn_str e)))).

Definition booking_data (product_id date time_slot : string)
  (slot_id resource_id : option string) : pyval :=
  let d0 := [("productId", PStr product_id); ("date", PStr date);
             ("startTime", PStr time_slot); ("participantAmount", PInt 1)] in
  let d1 := if given slot_id then store "slotId" (opt_str slot_id) d0 else d0 in
  let d2 := if given resource_id then store "resourceId" (opt_str resource_id) d1 else d1 in
  PDict d2.

Definition create_booking (location date time_slot : string)
  (sub_location slot_id resource_id : option string) : M client pyval :=
  c <- self ;;
  if negb (is_authenticated c) then ret not_authenticated
  else
    try_except
      (match location_map location with
       | None => ret (failure (PStr ("Invalid location: " ++ location)))
       | Some product_id =>
           response <- send (mkRequest POST (BASE_URL ++ "/api/bookings")
                               (booking_data product_id date time_slot
                                  slot_id resource_id)) ;;
           if (status_code response =? 201) || (status_code response =? 200) then
             data <- json response ;;
             id <- lift (get data "id") ;;
             booking_id <- lift (get data "id") ;;
             ret (PDict [("success", PBool true);
                         ("message", PStr "Booking created successfully");
                         ("booking",
                          PDict [("id", id); ("booking_id", booking_id);
                                 ("date", PStr date); ("time", PStr time_slot);
                                 ("location", PStr location);
                                 ("sub_location", opt_str sub_location)])])
           else if status_code response =? 409 then
             ret (failure (PStr "Slot already booked or no longer available"))
           else
             error_data <- error_data_of response ;;
             msg <- lift (get_default error_data "message"
                            (PStr ("Booking failed: "
                                   ++ string_of_Z (status_code response)))) ;;
             ret (failure msg)
       end)
      (fun e => ret (failure (PStr ("Error creating booking: " ++ exn_str e)))).

Definition is_logged_in : M client bool :=
  c <- self ;; ret (is_authenticated c).

Definition get_current_user : M client pyval :=
  c <- self ;; ret (current_account c).

End V1.

(* ================================================================= *)
(** ** The [datetime] calls of booking_client_v2.py *)

Module Datetime.
Import Unicode.

(** A group of the pattern: the number it reads at the head of the text
    and what it leaves. *)
Definition group : Type := list character -> option (Z * list character).

(** A character of the class [[lo-hi]] of ASCII digits, and its value *)
Definition within (lo hi : Z) (c : character) : option Z :=
  if (48 + lo <=? code c) && (code c <=? 48 + hi) then Some (code c - 48)
  else None.

(** [\d]: a decimal digit of any script, and its value *)
Definition any_digit (c : character) : option Z := decimal (code c).

(** The blank that may stand for the first digit of a day; [int] skips
    it. *)
Definition blank (c : character) : option Z :=
  if code c =? 32 then Some 0 else None.

(** A group of one character *)
Definition one (first : character -> option Z) : group :=
  fun l =>
    match l with
    | a :: rest =>
        match first a with
        | Some x => Some (x, rest)
        | None => None
        end
    | [] => None
    end.

(** A group of two characters, read as [int] reads them *)
Definition two (first second : character -> option Z) : group :=
  fun l =>
    match l with
    | a :: b :: rest =>
        match first a, second b with
        | Some x, Some y => Some (10 * x + y, rest)
        | _, _ => None
        end
    | _ => None
    end.

(** The alternatives of a group are tried from left to right; the first
    one after which the rest of the pattern, [k], matches is taken. *)
Fixpoint first_match {A} (alternatives : list group) (l : list character)
  (k : Z -> list character -> option A) : option A :=
  match alternatives with
  | [] => None
  | alternative :: others =>
      match alternative l with
      | Some (v, rest) =>
          match k v rest with
          | Some r => Some r
          | None => first_match others l k
          end
      | None => first_match others l k
      end
  end.

(** The [-] of the format *)
Definition dash (l : list character) : option (list character) :=
  match l with
  | c :: rest => if code c =? 45 then Some rest else None
  | [] => None
  end.

(** [%Y]: [\d\d\d\d] *)
Definition year_group : group :=
  fun l =>
    match l with
    | a :: b :: c :: d :: rest =>
        match any_digit a, any_digit b, any_digit c, any_digit d with
        | Some y1, Some y2, Some y3, Some y4 =>
            Some (1000 * y1 + 100 * y2 + 10 * y3 + y4, rest)
        | _, _, _, _ => None
        end
    | _ => None
    end.

(** [%m]: [1[0-2]|0[1-9]|[1-9]] *)
Definition month_group : list group :=
  [two (within 1 1) (within 0 2); two (within 0 0) (within 1 9);
   one (within 1 9)].

(** [%d]: [3[0-1]|[1-2]\d|0[1-9]|[1-9]| [1-9]] *)
Definition day_group : list group :=
  [two (within 3 3) (within 0 1); two (within 1 2) any_digit;
   two (within 0 0) (within 1 9); one (within 1 9); two blank (within 1 9)].

(** The month, the [-] and the day: the month, the day and what the
    pattern leaves of the text *)
Definition month_and_day (l : list character)
  : option (Z * Z * list character) :=
  first_match month_group l
    (fun m l1 =>
       match dash l1 with
       | Some l2 => first_match day_group l2 (fun d l3 => Some (m, d, l3))
       | None => None
       end).

(** [format_regex.match(data_string)] for the format ['%Y-%m-%d'] *)
Definition regex_match (l : list character)
  : option (Z * Z * Z * list character) :=
  match year_group l with
  | Some (y, l1) =>
      match dash l1 with
      | Some l2 =>
          match month_and_day l2 with
          | Some (m, d, rest) => Some (y, m, d, rest)
          | None => None
          end
      | None => None
      end
  | None => None
  end.

Definition is_leap (y : Z) : bool :=
  ((y mod 4 =? 0) && negb (y mod 100 =? 0)) || (y mod 400 =? 0).

Definition days_in_month (y m : Z) : Z :=
  if m =? 2 then (if is_leap y then 29 else 28)
  else if (m =? 4) || (m =? 6) || (m =? 9) || (m =? 11) then 30
  else 31.

Record date : Type := mkDate { year : Z; month : Z; day : Z }.

(** [datetime.strptime(data_string, '%Y-%m-%d')]: the pattern must match
    at the head of the text and leave nothing of it, then the three
    numbers must name a day, which the [date] constructor checks, the
    year first. *)
Definition strptime (data_string : string) : outcome date :=
  match regex_match (chars data_string) with
  | None =>
      Raises (Exn ValueError
                ("time data " ++ Unicode.repr data_string
                 ++ " does not match format '%Y-%m-%d'"))
  | Some (y, m, d, rest) =>
      match rest with
      | _ :: _ =>
          Raises (Exn ValueError ("unconverted data remains: " ++ text_of rest))
      | [] =>
          if y <? 1 then
            Raises (Exn ValueError ("year " ++ string_of_Z y ++ " is out of range"))
          else if days_in_month y m <? d then
            Raises (Exn ValueError "day is out of range for month")
          else Returns (mkDate y m d)
      end
  end.

Definition pad2 (n : Z) : string :=
  if n <? 10 then "0" ++ string_of_Z n else string_of_Z n.

Definition pad4 (n : Z) : string :=
  if n <? 10 then "000" ++ string_of_Z n
  else if n <? 100 then "00" ++ string_of_Z n
  else if n <? 1000 then "0" ++ string_of_Z n
  else string_of_Z n.

Definition isoformat_day (d : date) : string :=
  pad4 (year d) ++ "-" ++ pad2 (month d) ++ "-" ++ pad2 (day d).

(** [target_date.replace(hour=0, minute=0, second=0, microsecond=0).isoformat()] *)
Definition start_of_day (d : date) : string :=
  isoformat_day d ++ "T00:00:00".

(** [target_date.replace(hour=23, minute=59, second=59,
    microsecond=999999).isoformat()] *)
Definition end_of_day (d : date) : string :=
  isoformat_day d ++ "T23:59:59.999999".

End Datetime.

(* ================================================================= *)
(** ** booking_client_v2.py *)

Module V2.
Local Open Scope py_scope.

Definition BASE_URL : string := "https://x.tudelft.nl".
Definition API_BASE_URL : string := "https://backbone-web-api.production.delft.delcom.nl".

(** [INSTITUTIONS[institution]['name']] *)
Definition institution_name (institution : string) : string :=
  if String.eqb institution "inholland" then "Inholland University of Applied Sciences"
  else if String.eqb institution "thuas" then "The Hague University of Applied Sciences (THUAS)"
  else "Delft University of Technology".

(** [LOCATIONS[location]['product_id']], [None] outside [LOCATIONS] *)
Definition product_id_of (location : string) : option Z :=
  if String.eqb location "Fitness" then Some 20061
  else if String.eqb location "X1" then Some 20045
  else if String.eqb location "X3" then Some 20047
  else None.

(** [LOCATIONS[location]['resources']] where the key exists *)
Definition resources_of (location : string) : option (list (string * pyval)) :=
  if String.eqb location "X1" then Some [("A", PInt 4); ("B", PInt 5)]
  else if String.eqb location "X3" then Some [("A", PInt 16534); ("B", PInt 16535)]
  else None.

(** The attributes of a [BookingClient]; [authorization] is the
    [Authorization] entry of [session.headers]. *)
Record client : Type := mkClient {
  institution : string;
  access_token : pyval;
  token_expires_at : pyval;
  user_data : pyval;
  authorization : option string
}.

(** The client [__init__] leaves behind *)
Definition init (institution : string) : client :=
  {| institution := institution;
     access_token := PNone;
     token_expires_at := PNone;
     user_data := PNone;
     authorization := None |}.

(** [institution in INSTITUTIONS] *)
Definition known_institution (institution : string) : bool :=
  String.eqb institution "tudelft" || String.eqb institution "inholland"
  || String.eqb institution "thuas".

(** [BookingClient(institution)] *)
Definition new (institution : string) : outcome client :=
  if known_institution institution then Returns (init institution)
  else Raises (Exn ValueError
                 "Institution must be one of: tudelft, inholland, thuas").

Definition set_access_token (v : pyval) (c : client) : client :=
  {| institution := institution c; access_token := v;
     token_expires_at := token_expires_at c; user_data := user_data c;
     authorization := authorization c |}.

Definition set_token_expires_at (v : pyval) (c : client) : client :=
  {| institution := institution c; access_token := access_token c;
     token_expires_at := v; user_data := user_data c;
     authorization := authorization c |}.

Definition set_user_data (v : pyval) (c : client) : client :=
  {| institution := institution c; access_token := access_token c;
     token_expires_at := token_expires_at c; user_data := v;
     authorization := authorization c |}.

Definition set_authorization (h : option string) (c : client) : client :=
  {| institution := institution c; access_token := access_token c;
     token_expires_at := token_expires_at c; user_data := user_data c;
     authorization := h |}.

(** [{'success': False, 'message': msg}] *)
Definition failure (msg : string) : pyval :=
  PDict [("success", PBool false); ("message", PStr msg)].

Definition not_logged_in : pyval := failure "Not logged in".

(** [print(...)]: the arguments are evaluated, the text goes to stdout,
    which is taken to accept it. *)
Definition print {A} (_ : A) : M client unit := ret tt.

(** [json.loads(auth_data_str)] *)
Definition loads (t : js_text) : M client pyval :=
  match t with
  | JsonText v => ret v
  | OtherText _ error => raise (Exn JSONDecodeError error)
  end.

(** [not auth_data_str] *)
Definition no_text (item : option js_text) : bool :=
  match item with
  | None => true
  | Some (OtherText s _) => String.eqb s EmptyString
  | Some (JsonText _) => false
  end.

(** ['tokenResponse' in auth_data and 'accessToken' in auth_data['tokenResponse']] *)
Definition has_token (auth_data : pyval) : M client bool :=
  outer <- lift (contains "tokenResponse" auth_data) ;;
  if outer then
    token_response <- lift (item auth_data "tokenResponse") ;;
    lift (contains "accessToken" token_response)
  else ret false.

(** The body of the [try] of [login_and_get_token] from the point where
    the browser has been driven to the vendor's page. *)
Definition read_token (auth_data_str : option js_text) : M client pyval :=
  if no_text auth_data_str then
    ret (failure "No auth data found in localStorage")
  else
    auth_data <- match auth_data_str with
                 | Some t => loads t
                 | None => ret PNone
                 end ;;
    found <- has_token auth_data ;;
    if found then
      token_response <- lift (item auth_data "tokenResponse") ;;
      token <- lift (item token_response "accessToken") ;;
      update (set_access_token token) ;;;
      issued_at <- lift (get_default token_response "issuedAt" (PInt 0)) ;;
      expires_in <- lift (get_default token_response "expiresIn" (PInt 86400)) ;;
      expires_at <- lift (add issued_at expires_in) ;;
      update (set_token_expires_at expires_at) ;;;
      member <- lift (get_default auth_data "member" (PDict [])) ;;
      update (set_user_data member) ;;;
      c <- self ;;
      update (set_authorization (Some ("Bearer " ++ str (access_token c)))) ;;;
      shown <- lift (get_default token_response "expiresIn" (PInt 0)) ;;
      print shown ;;;
      c <- self ;;
      first_name <- lift (get (user_data c) "firstName") ;;
      last_name <- lift (get (user_data c) "lastName") ;;
      print (first_name, last_name) ;;;
      c <- self ;;
      ret (PDict [("success", PBool true);
                  ("message", PStr "Successfully authenticated");
                  ("token", access_token c);
                  ("user", user_data c)])
    else
      ret (failure "Token not found in auth data").

(** [finally: if driver: driver.quit()]; an exception raised by
    [quit] replaces the pending result. *)
Definition finally_quit (driver_started : bool) (body : M client pyval)
  : M client pyval :=
  fun e st =>
    let r := body e st in
    if driver_started then
      match quit_error e with
      | Some msg => (Raises (Exn WebDriverException msg), snd r)
      | None => r
      end
    else r.

Definition login_and_get_token (username password : string) : M client pyval :=
  e <- ask ;;
  let driver_started :=
    match browser e with ChromeUnavailable _ => false | _ => true end in
  finally_quit driver_started
    (try_except
       (match browser e with
        | ChromeUnavailable msg => raise (Exn WebDriverException msg)
        | PageError msg => raise (Exn WebDriverException msg)
        | NoInstitutionButton =>
            c <- self ;;
            ret (failure ("Could not find " ++ institution_name (institution c)
                          ++ " button"))
        | LocalStorage auth_data_str => read_token auth_data_str
        end)
       (fun x => ret (failure ("Login failed: " ++ exn_str x)))).

Definition is_logged_in : M client bool :=
  c <- self ;;
  if negb (truthy (access_token c)) then ret false
  else if truthy (token_expires_at c) then
    e <- ask ;;
    match as_number (token_expires_at c) with
    | Some expires_at =>
        if timestamp e >=? expires_at then ret false else ret true
    | None =>
        raise (Exn TypeError
                 ("'>=' not supported between instances of 'float' and '"
                  ++ type_name (token_expires_at c) ++ "'"))
    end
  else ret true.

Definition get_current_user : M client pyval :=
  logged <- is_logged_in ;;
  c <- self ;;
  ret (if logged then user_data c else PNone).

(** The two [except] clauses shared by the four data methods *)
Definition api_errors (x : exn) : M client pyval :=
  match x with
  | HTTPError status msg =>
      ret (PDict [("success", PBool false);
                  ("message", PStr ("API error: " ++ string_of_Z status));
                  ("error", PStr msg)])
  | Exn _ msg => ret (failure ("Request failed: " ++ msg))
  end.

Definition truthy_opt (o : option string) : bool :=
  match o with
  | Some s => negb (String.eqb s EmptyString)
  | None => false
  end.

(** [search_query]; the request carries its [json.dumps] text under [s]. *)
Definition search_query (e : env) (product_id : Z) (d : Datetime.date)
  (location : string) (sub_location : option string) : pyval :=
  let start_date := Datetime.start_of_day d ++ "Z" in
  let q := [("startDate", PStr start_date);
            ("endDate", PStr (Datetime.end_of_day d ++ "Z"));
            ("productIds", PDict [("$in", PList [PInt product_id])]);
            ("availableFromDate", PDict [("$gt", PStr (utcnow_iso e ++ "Z"))]);
            ("availableTillDate", PDict [("$gte", PStr start_date)])] in
  PDict
    (match sub_location, resources_of location with
     | Some sub, Some resources =>
         if truthy_opt sub_location then
           match lookup sub resources with
           | Some resource_id =>
               if truthy resource_id
               then store "resourceIds" (PDict [("$in", PList [resource_id])]) q
               else q
           | None => q
           end
         else q
     | _, _ => q
     end).

Definition slots_request (e : env) (product_id : Z) (d : Datetime.date)
  (location : string) (sub_location : option string) : request :=
  mkRequest GET (API_BASE_URL ++ "/bookable-slots")
    (PDict [("s", search_query e product_id d location sub_location);
            ("join", PList [PStr "linkedProduct"; PStr "linkedProduct.translations";
                            PStr "product"; PStr "product.translations"])]).

(** [data['data']] of a paginated answer, the answer itself when it is a
    list, [[]] otherwise *)
Definition slots_of (data : pyval) : pyval :=
  match data with
  | PDict kv => match lookup "data" kv with
                | Some v => v
                | None => PList []
                end
  | PList _ => data
  | _ => PList []
  end.

(** [len(v) if isinstance(v, list) else 0] *)
Definition len_if_list (v : pyval) : Z :=
  match v with
  | PList l => Z.of_nat (List.length l)
  | _ => 0
  end.

Definition get_available_slots (location date : string)
  (sub_location : option string) : M client pyval :=
  logged <- is_logged_in ;;
  if negb logged then ret not_logged_in
  else
    match product_id_of location with
    | None => ret (failure ("Unknown location: " ++ location))
    | Some product_id =>
        target_date <- lift (Datetime.strptime date) ;;
        e <- ask ;;
        let rq := slots_request e product_id target_date location sub_location in
        try_except
          (response <- send rq ;;
           raise_for_status response ;;;
           data <- json response ;;
           let slots := slots_of data in
           ret (PDict [("success", PBool true);
                       ("slots", slots);
                       ("count", PInt (len_if_list slots));
                       ("message", PStr "Retrieved available slots")]))
          api_errors
    end.

(** [data.get('bookings')] of the nested answer, with the fallbacks of the
    older answer shapes *)
Definition bookings_of (result : pyval) : pyval :=
  match result with
  | PDict kv =>
      match lookup "data" kv with
      | Some data =>
          match data with
          | PDict inner =>
              match lookup "bookings" inner with
              | Some b => b
              | None => PList []
              end
          | PList _ => data
          | _ => PList []
          end
      | None => PList []
      end
  | PList _ => result
  | _ => PList []
  end.

(** [len(bookings)] *)
Definition len (v : pyval) : M client Z :=
  match v with
  | PList l => ret (Z.of_nat (List.length l))
  | PDict kv => ret (Z.of_nat (List.length kv))
  | PStr s => ret (Unicode.len s)
  | _ => raise (Exn TypeError
                  ("object of type '" ++ type_name v ++ "' has no len()"))
  end.

Definition get_current_bookings (include_past : bool) : M client pyval :=
  logged <- is_logged_in ;;
  if negb logged then ret not_logged_in
  else
    c <- self ;;
    user_id <- lift (get (user_data c) "id") ;;
    if negb (truthy user_id) then ret (failure "User ID not available")
    else
      e <- ask ;;
      let filter_query :=
        PDict [("$or", PList [PDict [("memberId", user_id)];
                              PDict [("invitedMemberId", user_id)]]);
               ("booking.startDate", PDict [("$gte", PStr (range_start_iso e))]);
               ("booking.endDate", PDict [("$lte", PStr (range_end_iso e))])] in
      let rq :=
        mkRequest GET (API_BASE_URL ++ "/participations")
          (PDict [("s", filter_query);
                  ("join", PStr "booking");
                  ("sort", PStr "booking.startDate,ASC");
                  ("fetchOptimizedCustomerDashboard", PStr "true");
                  ("fetchTicket", PStr "false")]) in
      try_except
        (response <- send rq ;;
         raise_for_status response ;;;
         result <- json response ;;
         let bookings := bookings_of result in
         count <- len bookings ;;
         ret (PDict [("success", PBool true);
                     ("bookings", bookings);
                     ("count", PInt count);
                     ("message", PStr "Retrieved bookings")]))
        api_errors.

Definition booking_payload (user_id slot_id product_id start_time end_time
  linked_product_id : pyval) : pyval :=
  let params := [("startDate", start_time);
                 ("endDate", end_time);
                 ("bookableProductId", product_id);
                 ("invitedMemberEmails", PList []);
                 ("invitedGuests", PList []);
                 ("invitedOthers", PList []);
                 ("primaryPurchaseMessage", PNone);
                 ("secondaryPurchaseMessage", PNone);
                 ("clickedOnBook", PBool true)] in
  let params := if truthy linked_product_id
                then store "bookableLinkedProductId" linked_product_id params
                else params in
  PDict [("organizationId", PNone);
         ("memberId", user_id);
         ("bookingId", slot_id);
         ("primaryPurchaseMessage", PNone);
         ("secondaryPurchaseMessage", PNone);
         ("params", PDict params);
         ("dateOfRegistration", PNone)].

Definition create_booking (slot_id product_id resource_id start_time end_time
  linked_product_id : pyval) : M client pyval :=
  logged <- is_logged_in ;;
  if negb logged then ret not_logged_in
  else
    c <- self ;;
    user_id <- lift (get (user_data c) "id") ;;
    if negb (truthy user_id) then ret (failure "User ID not available")
    else
      let rq :=
        mkRequest POST (API_BASE_URL ++ "/participations")
          (booking_payload user_id slot_id product_id start_time end_time
             linked_product_id) in
      try_except
        (response <- send rq ;;
         raise_for_status response ;;;
         result <- json response ;;
         booking_id <- lift (get result "id") ;;
         ret (PDict [("success", PBool true);
                     ("booking_id", booking_id);
                     ("message", PStr "Booking created successfully");
                     ("data", result)]))
        (fun x =>
           match x with
           | HTTPError status msg =>
               if status =? 409 then ret (failure "Slot already booked")
               else api_errors x
           | Exn _ _ => api_errors x
           end).

Definition cancel_booking (booking_id : pyval) : M client pyval :=
  logged <- is_logged_in ;;
  if negb logged then ret not_logged_in
  else
    let rq := mkRequest DELETE (API_BASE_URL ++ "/participations/" ++ str booking_id)
                PNone in
    try_except
      (response <- send rq ;;
       raise_for_status response ;;;
       ret (PDict [("success", PBool true);
                   ("message", PStr "Booking cancelled successfully")]))
      api_errors.

Definition logout : M client pyval :=
  update (set_access_token PNone) ;;;
  update (set_token_expires_at PNone) ;;;
  update (set_user_data PNone) ;;;
  update (set_authorization None) ;;;
  ret PNone.

End V2.

(* ================================================================= *)
(** ** The consecutive-run finder

    [services/slot_monitor.py] is not among the sources; its caller
    [test_slot_monitor] of test_multibooking.py caches hourly slots and
    asks for the sequences of three consecutive hours.  The finder is
    modelled from section 4.2 of the specification. *)

Module Finder.

(** Modelled from the spec: the cache entry of the slot monitor, whose
    source file is not part of the sources at hand.  A slot is one hour
    long; [time_slot] is its start in minutes after midnight. *)
Record SlotAvailability : Type := mkSlot {
  location : string;
  sub_location : string;
  date : string;
  time_slot : Z;
  is_available : bool;
  total_capacity : Z;
  remaining_capacity : Z;
  observed_at : Z
}.

(** Modelled from the spec: the end of an hourly slot, which the finder
    compares with the start of the next one. *)
Definition end_time (s : SlotAvailability) : Z := time_slot s + 60.

(** Modelled from the spec: a slot is available when its remaining
    capacity is positive. *)
Definition available (s : SlotAvailability) : bool :=
  0 <? remaining_capacity s.

(** Modelled from the spec: the end of each slot of a window is the start
    of the next one. *)
Fixpoint back_to_back (w : list SlotAvailability) : bool :=
  match w with
  | a :: rest =>
      match rest with
      | b :: _ => (end_time a =? time_slot b) && back_to_back rest
      | [] => true
      end
  | [] => true
  end.

(** Modelled from the spec: the finder of the slot monitor, as a scan of
    the day's slots that keeps, at each position, the window of [n] slots
    starting there when all of them are available and back to back, so
    that the windows inside a longer run are all returned.  Windows come
    out by start position, earliest first. *)
Fixpoint find_consecutive_runs (n : nat) (slots : list SlotAvailability)
  : list (list SlotAvailability) :=
  match slots with
  | [] => []
  | _ :: rest =>
      let window := firstn n slots in
      ((if (List.length window =? n)%nat && forallb available window
           && back_to_back window
        then [window] else [])
       ++ find_consecutive_runs n rest)%list
  end.

(** Modelled from the spec: what the finder is asked for.  [w] is a stretch of [n] neighbouring
    entries of the day, every one available, each ending where the next
    starts. *)
Definition is_run (n : nat) (slots w : list SlotAvailability) : Prop :=
  List.length w = n
  /\ (exists before after, slots = (before ++ w ++ after)%list)
  /\ (forall s, In s w -> 0 < remaining_capacity s)
  /\ (forall i a b, nth_error w i = Some a -> nth_error w (S i) = Some b ->
                    end_time a = time_slot b).

(** The hourly slot of sub-location X3 A that [test_slot_monitor] caches,
    with [remaining] places left of ten *)
Definition hourly (hour : Z) (remaining : Z) : SlotAvailability :=
  {| location := "X3"; sub_location := "X3 A"; date := "2025-11-19";
     time_slot := 60 * hour; is_available := 0 <? remaining;
     total_capacity := 10; remaining_capacity := remaining; observed_at := 0 |}.

(** The afternoon of the example: 13:00, 14:00, 16:00 and 17:00 are
    available, 15:00 is missing from the day. *)
Definition afternoon_with_gap : list SlotAvailability :=
  [hourly 13 10; hourly 14 10; hourly 16 10; hourly 17 10].

(** The same afternoon with the 15:00 slot listed as full. *)
Definition afternoon_with_full_slot : list SlotAvailability :=
  [hourly 13 10; hourly 14 10; hourly 15 0; hourly 16 10; hourly 17 10].

End Finder.

(* ================================================================= *)
(** ** Dispatch of a due job by concurrent scans

    The scheduler is not among the sources.  Its job states, its scan of
    due jobs and its atomic claim are modelled from section 4.3 of the
    specification, as a transition system in which two scans take their
    steps in any order against one shared store. *)

Module Scheduler.

(** Modelled from the spec: the three terminal results of an execution. *)
Inductive verdict : Type := Succeeded | Failed | PartiallySucceeded.

(** Modelled from the spec: the states of a snipe job. *)
Inductive job_state : Type :=
| Pending
| Armed
| Executing
| Finished (v : verdict)
| Archived.

Inductive scanner : Type := ScanA | ScanB.

(** Modelled from the spec: what the job store holds of one job, with the
    attempt log reduced to one entry per set of attempts, tagged with the
    scan that dispatched it, and a count of the armed-to-executing
    transitions made. *)
Record store : Type := mkStore {
  state : job_state;
  scheduled_execution : Z;
  executing_transitions : nat;
  attempt_sets : list scanner
}.

(** Modelled from the spec: where a scan of the dispatch loop stands.  It
    has yet to read the store, it has seen the
    job due and armed, it holds the claim, or it is over. *)
Inductive progress : Type :=
| Scanning
| Observed
| Claimed
| Over.

Record system : Type := mkSystem {
  jobs : store;
  scan_a : progress;
  scan_b : progress
}.

Definition progress_of (who : scanner) (s : system) : progress :=
  match who with ScanA => scan_a s | ScanB => scan_b s end.

Definition at_progress (who : scanner) (p : progress) (s : system) : system :=
  match who with
  | ScanA => {| jobs := jobs s; scan_a := p; scan_b := scan_b s |}
  | ScanB => {| jobs := jobs s; scan_a := scan_a s; scan_b := p |}
  end.

Definition with_store (j : store) (s : system) : system :=
  {| jobs := j; scan_a := scan_a s; scan_b := scan_b s |}.

Definition is_armed (j : store) : bool :=
  match state j with Armed => true | _ => false end.

(** Modelled from the spec: the atomic claim.  The job leaves [armed] only
    through the scan that marks it [executing]; the test and the write
    are one step. *)
Definition claim (j : store) : option store :=
  if is_armed j then
    Some {| state := Executing;
            scheduled_execution := scheduled_execution j;
            executing_transitions := S (executing_transitions j);
            attempt_sets := attempt_sets j |}
  else None.

(** Modelled from the spec: the executor logs its attempts, then the job
    takes its terminal state. *)
Definition execute (who : scanner) (v : verdict) (j : store) : store :=
  {| state := Finished v;
     scheduled_execution := scheduled_execution j;
     executing_transitions := executing_transitions j;
     attempt_sets := (attempt_sets j ++ [who])%list |}.

(** Modelled from the spec: one atomic step of scan [who] at time [now].
    A scan first reads the store for a job that is due and armed, then
    claims it, then hands it to the executor; [v] is what the executor
    reports if this step runs it.  A scan that is over takes no step. *)
Definition step (now : Z) (v : verdict) (who : scanner) (s : system)
  : option system :=
  match progress_of who s with
  | Scanning =>
      if (scheduled_execution (jobs s) <=? now) && is_armed (jobs s)
      then Some (at_progress who Observed s)
      else Some (at_progress who Over s)
  | Observed =>
      match claim (jobs s) with
      | Some j => Some (at_progress who Claimed (with_store j s))
      | None => Some (at_progress who Over s)
      end
  | Claimed =>
      Some (at_progress who Over (with_store (execute who v (jobs s)) s))
  | Over => None
  end.

(** Modelled from the spec: concurrent scans as an interleaving.  The
    schedule says which scan moves next, and the executor's verdict
    should that step run it.  Steps asked of a scan that is over are
    skipped. *)
Fixpoint interleave (now : Z) (schedule : list (scanner * verdict)) (s : system)
  : system :=
  match schedule with
  | [] => s
  | (who, v) :: rest =>
      match step now v who s with
      | Some s' => interleave now rest s'
      | None => interleave now rest s
      end
  end.

(** Two scans about to start on a store holding one armed job *)
Definition two_scans (due_at : Z) : system :=
  {| jobs := {| state := Armed; scheduled_execution := due_at;
                executing_transitions := 0; attempt_sets := [] |};
     scan_a := Scanning;
     scan_b := Scanning |}.

Definition both_over (s : system) : Prop :=
  scan_a s = Over /\ scan_b s = Over.

Definition both_observed (s : system) : Prop :=
  scan_a s = Observed /\ scan_b s = Observed.

Fixpoint steps_of (who : scanner) (schedule : list (scanner * verdict)) : nat :=
  match schedule with
  | [] => 0
  | (w, _) :: rest =>
      match who, w with
      | ScanA, ScanA => S (steps_of who rest)
      | ScanB, ScanB => S (steps_of who rest)
      | _, _ => steps_of who rest
      end
  end.

(** How many steps a scan can still take *)
Definition remaining (p : progress) : nat :=
  match p with
  | Scanning => 3
  | Observed => 2
  | Claimed => 1
  | Over => 0
  end.

(** What holds of the store and the two scans at every point of every
    interleaving that starts from [two_scans due_at] once the job is due:
    while the job is armed nothing was dispatched and no scan is past its
    observation; while it is executing exactly one scan holds the claim
    and nothing is logged yet; once it is finished one transition and one
    set of attempts are on record and no scan holds a claim. *)
Definition dispatch_invariant (due_at : Z) (s : system) : Prop :=
  scheduled_execution (jobs s) = due_at
  /\ match state (jobs s) with
     | Armed =>
         executing_transitions (jobs s) = 0%nat
         /\ attempt_sets (jobs s) = []
         /\ (scan_a s = Scanning \/ scan_a s = Observed)
         /\ (scan_b s = Scanning \/ scan_b s = Observed)
     | Executing =>
         executing_transitions (jobs s) = 1%nat
         /\ attempt_sets (jobs s) = []
         /\ ((scan_a s = Claimed /\ scan_b s <> Claimed)
             \/ (scan_b s = Claimed /\ scan_a s <> Claimed))
     | Finished _ =>
         executing_transitions (jobs s) = 1%nat
         /\ List.length (attempt_sets (jobs s)) = 1%nat
         /\ scan_a s <> Claimed
         /\ scan_b s <> Claimed
     | Pending | Archived => False
     end.

End Scheduler.

(* ================================================================= *)
(** ** Sample worlds and clients *)

Module Sample.

Definition answer (status : Z) (body : option pyval) : response :=
  {| status_code := status; reason := "Reason";
     response_url := "https://x.tudelft.nl/";
     content_type := Some "application/json"; json_body := body;
     json_error := "Expecting value: line 1 column 1 (char 0)" |}.

(** A world whose vendor gives the same answer to every request; the
    clock reads 1000 seconds. *)
Definition world (o : http_outcome) : env :=
  {| vendor := fun _ _ => o;
     timestamp := 1000;
     today := "2025-11-14";
     utcnow_iso := "2025-11-14T10:00:00";
     range_start_iso := "2025-11-14T00:00:00+00:00";
     range_end_iso := "2025-12-12T23:59:59.999999+00:00";
     browser := PageError "no browser";
     quit_error := None |}.

(** The same world with a given answer of the browser to a login. *)
Definition login_world (o : http_outcome) (b : browser_outcome) : env :=
  {| vendor := fun _ _ => o;
     timestamp := 1000;
     today := "2025-11-14";
     utcnow_iso := "2025-11-14T10:00:00";
     range_start_iso := "2025-11-14T00:00:00+00:00";
     range_end_iso := "2025-12-12T23:59:59.999999+00:00";
     browser := b;
     quit_error := None |}.

Definition member1 : V1.client :=
  {| V1.is_authenticated := true;
     V1.current_account := PDict [("username", PStr "u"); ("user_id", PInt 7);
                                  ("name", PStr "U")] |}.

Definition member2 (expires_at : pyval) : V2.client :=
  {| V2.institution := "tudelft";
     V2.access_token := PStr "T";
     V2.token_expires_at := expires_at;
     V2.user_data := PDict [("id", PInt 7)];
     V2.authorization := Some "Bearer T" |}.

(** One slot as the v1 endpoint lists it *)
Definition listed_slot : pyval :=
  PDict [("startTime", PStr "06:00"); ("endTime", PStr "07:00");
         ("availableSpots", PInt 3); ("totalSpots", PInt 20);
         ("id", PInt 9); ("resourceId", PInt 4)].


(** A [delcom_auth] item whose token is a JSON array *)
Definition list_token_item : js_text :=
  JsonText (PDict [("tokenResponse",
                    PDict [("accessToken", PList [PStr "a"; PInt 1]);
                           ("issuedAt", PInt 1000); ("expiresIn", PInt 86400)]);
                   ("member", PDict [("id", PInt 7)])]).

(** A [delcom_auth] item with a well-formed token response and [null]
    for the member. *)
Definition no_member_item : js_text :=
  JsonText (PDict [("tokenResponse",
                    PDict [("accessToken", PStr "T"); ("issuedAt", PInt 1000);
                           ("expiresIn", PInt 86400)]);
                   ("member", PNone)]).

(** Both scans read the store and see the job armed, then scan B claims
    first, scan A fails its claim, and B executes. *)
Definition race : list (Scheduler.scanner * Scheduler.verdict) :=
  [(Scheduler.ScanA, Scheduler.Failed);
   (Scheduler.ScanB, Scheduler.Succeeded);
   (Scheduler.ScanB, Scheduler.Succeeded);
   (Scheduler.ScanA, Scheduler.Failed);
   (Scheduler.ScanB, Scheduler.Succeeded);
   (Scheduler.ScanA, Scheduler.Failed)].

Definition free_afternoon : list Finder.SlotAvailability :=
  [Finder.hourly 13 10; Finder.hourly 14 10; Finder.hourly 15 10;
   Finder.hourly 16 10; Finder.hourly 17 10].

End Sample.


(* ================================================================= *)
(** ** Vocabulary of the statements *)

Module Outcome.

(** A call that was refused on the spot: it returns a result with
    [success] false and a text under [key], leaves the client as it was
    and makes no exchange with the vendor. *)
Definition refused {S : Type} (key : string) (c : S)
  (out : outcome pyval * (S * trace)) : Prop :=
  exists res msg,
    result out = Returns res
    /\ success_of res = Some false
    /\ field key res = Some (PStr msg)
    /\ client_after out = c
    /\ exchanges out = [].

(** A result that reports a failure: [success] is false and a text says
    why under [key]. *)
Definition reports_failure (key : string) (res : pyval) : Prop :=
  success_of res = Some false /\ exists msg, field key res = Some (PStr msg).

(** The call made exactly one exchange, which the vendor answered. *)
Definition answered (t : trace) (rq : request) (r : response) : Prop :=
  t = [(rq, Responds r)].

(** [raise_for_status] raises on this status. *)
Definition http_error (status : Z) : Prop := 400 <= status < 600.

End Outcome.

(* ================================================================= *)
(** ** Shapes of values and inputs *)

Module Shape.

(** A JSON object, a [dict] once parsed *)
Definition is_object (v : pyval) : Prop := exists kv, v = PDict kv.

(** A location neither client has in its table *)
Definition unknown_location (location : string) : Prop :=
  location <> "Fitness" /\ location <> "X1" /\ location <> "X3".

(** [d.get(k)] on the entries of a dict *)
Definition entry (k : string) (kv : list (string * pyval)) : pyval :=
  match lookup k kv with
  | Some v => v
  | None => PNone
  end.

(** A day of the calendar with a four-digit year *)
Definition calendar_day (d : Datetime.date) : Prop :=
  1 <= Datetime.year d <= 9999
  /\ 1 <= Datetime.month d <= 12
  /\ 1 <= Datetime.day d <= Datetime.days_in_month (Datetime.year d) (Datetime.month d).

(** A text of ASCII characters only *)
Definition is_ascii (s : string) : bool :=
  forallb (fun a => Unicode.byte a <? 128) (list_ascii_of_string s).

(** The year as [isoformat] writes it is ASCII and [%Y] reads it back as
    that year. *)
Definition year_reads_back (y : Z) : bool :=
  is_ascii (Datetime.pad4 y)
  && match Datetime.year_group (Unicode.chars (Datetime.pad4 y)) with
     | Some (y', []) => y' =? y
     | _ => false
     end.

(** The month and the day as [isoformat] writes them are read back by
    [%m-%d], which leaves nothing of the text. *)
Definition month_day_read_back (m dd : Z) : bool :=
  match Datetime.month_and_day
          (Unicode.chars (Datetime.pad2 m ++ "-" ++ Datetime.pad2 dd)) with
  | Some (m', dd', []) => (m' =? m) && (dd' =? dd)
  | _ => false
  end.

(** The integers from [lo] on, [n] of them *)
Definition upto (lo : Z) (n : nat) : list Z :=
  map (fun k => lo + Z.of_nat k) (seq 0 n).

(** A default for a key the vendor left out *)
Definition entry_or (k : string) (default : pyval) (kv : list (string * pyval))
  : pyval :=
  match lookup k kv with
  | Some v => v
  | None => default
  end.

(** What [get_available_slots] of v1 returns for one slot the vendor
    listed as the object [kv] *)
Definition slot_view (kv : list (string * pyval)) : pyval :=
  PDict [("time", entry "startTime" kv);
         ("end_time", entry "endTime" kv);
         ("available", entry_or "availableSpots" (PInt 0) kv);
         ("total", entry_or "totalSpots" (PInt 0) kv);
         ("slot_id", entry "id" kv);
         ("resource_id", entry "resourceId" kv)].

(** The sub-locations [_parse_sub_location] can report *)
Definition sub_location_value (v : pyval) : Prop :=
  v = PNone \/ v = PStr "A" \/ v = PStr "B".

(** [error_data.get("message", default)] for the answer [r] of the vendor:
    [error_data] is the body when the content type is exactly
    [application/json], an empty dict otherwise. *)
Definition relayed (r : response) (default : string) (msg : pyval) : Prop :=
  (content_type r <> Some "application/json" /\ msg = PStr default)
  \/ (content_type r = Some "application/json"
      /\ exists kv,
          json_body r = Some (PDict kv)
          /\ msg = match lookup "message" kv with
                   | Some m => m
                   | None => PStr default
                   end).

End Shape.

(* ================================================================= *)
(** ** Reasoning about runs *)

Ltac unfold_monad :=
  unfold run, result, client_after, exchanges, bind, ret, raise, lift, self,
    ask, update, send, try_except, json, raise_for_status in *.

(** Case analysis on every test a run goes through. *)
Ltac split_run :=
  repeat (cbn in *;
          match goal with
          | |- context [match ?x with _ => _ end] =>
              lazymatch x with
              | context [match _ with _ => _ end] => fail
              | _ => let E := fresh "E" in destruct x eqn:E
              end
          end).


(** Reading hypotheses about the exchanges of a run that made at most
    one. *)
Ltac one_exchange :=
  cbn in *; intros;
  repeat match goal with
         | H : ex _ |- _ => destruct H
         | H : _ /\ _ |- _ => destruct H
         | H : In _ [] |- _ => destruct H
         | H : _ \/ _ |- _ => destruct H
         | H : In _ (_ :: _) |- _ => destruct H as [H | H]
         | H : False |- _ => destruct H
         | H : (_, _) = (_, _) |- _ => inversion H; subst; clear H
         | H : Responds _ = Responds _ |- _ => inversion H; subst; clear H
         | H : Fails _ = Fails _ |- _ => inversion H; subst; clear H
         | H : _ :: _ = _ :: _ |- _ => inversion H; subst; clear H
         | H : Outcome.answered _ _ _ |- _ => unfold Outcome.answered in H
         | H : [] = _ :: _ |- _ => discriminate H
         | H : Responds _ = Fails _ |- _ => discriminate H
         | H : Fails _ = Responds _ |- _ => discriminate H
         | H : Some _ = Some _ |- _ => inversion H; subst; clear H
         | H : Some _ = None |- _ => discriminate H
         | H : None = Some _ |- _ => discriminate H
         end.

Ltac by_status :=
  repeat match goal with
         | H : (_ =? _) = true |- _ => apply Z.eqb_eq in H
         | H : (_ =? _) = false |- _ => apply Z.eqb_neq in H
         | H : (_ <=? _) = true |- _ => apply Z.leb_le in H
         | H : (_ <=? _) = false |- _ => apply Z.leb_gt in H
         | H : (_ <? _) = true |- _ => apply Z.ltb_lt in H
         | H : (_ <? _) = false |- _ => apply Z.ltb_ge in H
         | H : (_ >=? _) = true |- _ => rewrite Z.geb_leb in H
         | H : (_ >=? _) = false |- _ => rewrite Z.geb_leb in H
         | H : (_ || _) = true |- _ => apply orb_true_iff in H; destruct H
         | H : (_ || _) = false |- _ => apply orb_false_iff in H; destruct H
         | H : (_ && _) = true |- _ => apply andb_true_iff in H; destruct H
         | H : (_ && _) = false |- _ => apply andb_false_iff in H; destruct H
         end;
  try lia; try (exfalso; lia).

(* ================================================================= *)
(** ** Creating a booking against a conflict *)

Section Conflict.
Variable e : env.
Variables (rq : request) (r : response).
Hypothesis conflict : status_code r = 409.



End Conflict.



(* ================================================================= *)
(** ** The finder returns the runs, all of them and nothing else *)

Section FinderFacts.
Import Finder.

Lemma back_to_back_spec (w : list SlotAvailability) :
  back_to_back w = true <->
  (forall i a b, nth_error w i = Some a -> nth_error w (S i) = Some b ->
                 end_time a = time_slot b).
Proof.
  induction w as [| a rest IH].
  - split; [| reflexivity]. intros _ [| i] x y H; discriminate H.
  - destruct rest as [| b rest'].
    + split; [| reflexivity]. intros _ [| i] x y H1 H2.
      * discriminate H2.
      * destruct i; discriminate H1.
    + change (back_to_back (a :: b :: rest'))
        with ((end_time a =? time_slot b) && back_to_back (b :: rest')).
      rewrite andb_true_iff, Z.eqb_eq, IH. split.
      * intros [Hab Hrest] [| i] x y H1 H2.
        -- cbn in H1, H2. congruence.
        -- exact (Hrest i x y H1 H2).
      * intros H. split.
        -- exact (H 0%nat a b eq_refl eq_refl).
        -- intros i x y H1 H2. exact (H (S i) x y H1 H2).
Qed.

Lemma all_available_spec (w : list SlotAvailability) :
  forallb available w = true <-> (forall s, In s w -> 0 < remaining_capacity s).
Proof.
  rewrite forallb_forall. unfold available.
  split; intros H s Hs; specialize (H s Hs); now apply Z.ltb_lt.
Qed.

(** The window kept at the head of the scan is a run, and the only run
    that starts there. *)
Lemma head_window_spec (n : nat) (slots w : list SlotAvailability) :
  ((List.length (firstn n slots) =? n)%nat && forallb available (firstn n slots)
   && back_to_back (firstn n slots) = true /\ w = firstn n slots)
  <-> (List.length w = n
       /\ (exists after, slots = (w ++ after)%list)
       /\ (forall s, In s w -> 0 < remaining_capacity s)
       /\ (forall i a b, nth_error w i = Some a -> nth_error w (S i) = Some b ->
                         end_time a = time_slot b)).
Proof.
  rewrite !andb_true_iff, Nat.eqb_eq, all_available_spec, back_to_back_spec.
  split.
  - intros [[[Hlen Hav] Hbb] ->]. repeat split; try assumption.
    exists (skipn n slots). symmetry. apply firstn_skipn.
  - intros (Hlen & [after ->] & Hav & Hbb).
    assert (Hw : firstn n (w ++ after) = w).
    { rewrite <- Hlen. rewrite firstn_app, Nat.sub_diag, firstn_all.
      cbn. apply app_nil_r. }
    rewrite Hw. repeat split; assumption.
Qed.

Lemma find_consecutive_runs_spec (n : nat) (slots w : list SlotAvailability) :
  (0 < n)%nat ->
  In w (find_consecutive_runs n slots) <-> is_run n slots w.
Proof.
  intros Hn. unfold is_run. induction slots as [| s rest IH].
  - cbn. split; [tauto |].
    intros (Hlen & (before & after & Heq) & _).
    symmetry in Heq. apply app_eq_nil in Heq as [_ Heq].
    apply app_eq_nil in Heq as [-> _]. cbn in Hlen. lia.
  - change (find_consecutive_runs n (s :: rest))
      with (((if (List.length (firstn n (s :: rest)) =? n)%nat
                 && forallb available (firstn n (s :: rest))
                 && back_to_back (firstn n (s :: rest))
              then [firstn n (s :: rest)] else [])
             ++ find_consecutive_runs n rest)%list).
    rewrite in_app_iff, IH. split.
    + intros [Hhead | (Hlen & (before & after & ->) & Hav & Hbb)].
      * assert (Hw : (List.length (firstn n (s :: rest)) =? n)%nat
                     && forallb available (firstn n (s :: rest))
                     && back_to_back (firstn n (s :: rest)) = true
                     /\ w = firstn n (s :: rest)).
        { destruct ((List.length (firstn n (s :: rest)) =? n)%nat
                    && forallb available (firstn n (s :: rest))
                    && back_to_back (firstn n (s :: rest))).
          - destruct Hhead as [<- | []]. split; reflexivity.
          - destruct Hhead. }
        apply head_window_spec in Hw as (Hlen & [after Heq] & Hav & Hbb).
        repeat split; try assumption. exists [], after. exact Heq.
      * repeat split; try assumption. exists (s :: before), after. reflexivity.
    + intros (Hlen & (before & after & Heq) & Hav & Hbb).
      destruct before as [| s' before'].
      * left.
        assert (Hw : (List.length (firstn n (s :: rest)) =? n)%nat
                     && forallb available (firstn n (s :: rest))
                     && back_to_back (firstn n (s :: rest)) = true
                     /\ w = firstn n (s :: rest)).
        { apply head_window_spec. repeat split; try assumption.
          exists after. exact Heq. }
        destruct Hw as [-> ->]. left. reflexivity.
      * right. cbn in Heq. injection Heq as _ Heq.
        repeat split; try assumption. exists before', after. exact Heq.
Qed.

End FinderFacts.

(** C2: for a required length [n] of at least one slot, the finder returns
    exactly the windows of [n] neighbouring slots of the day that are all
    available and back to back, so every such window inside a longer run
    is returned; on the afternoon with 13:00, 14:00, 16:00 and 17:00
    available and 15:00 missing or full, it returns no window of three. *)
Theorem C2_finder_returns_exactly_the_runs :
  (forall (n : nat) (slots w : list Finder.SlotAvailability),
      (0 < n)%nat ->
      In w (Finder.find_consecutive_runs n slots) <-> Finder.is_run n slots w)
  /\ (forall (n m : nat) (slots run w before after : list Finder.SlotAvailability),
         (0 < n)%nat ->
         Finder.is_run m slots run ->
         run = (before ++ w ++ after)%list ->
         List.length w = n ->
         In w (Finder.find_consecutive_runs n slots))
  /\ Finder.find_consecutive_runs 3 Finder.afternoon_with_gap = []
  /\ Finder.find_consecutive_runs 3 Finder.afternoon_with_full_slot = [].
Proof.
  split; [| split; [| split; reflexivity]].
  - exact find_consecutive_runs_spec.
  - intros n m slots run w before after Hn (Hm & (b0 & a0 & ->) & Hav & Hbb) -> Hlen.
    apply find_consecutive_runs_spec; [assumption |].
    repeat split.
    + exact Hlen.
    + exists (b0 ++ before)%list, (after ++ a0)%list.
      now rewrite <- !app_assoc.
    + intros s Hs. apply Hav. rewrite !in_app_iff. tauto.
    + intros i a b Ha Hb.
      apply (Hbb (List.length before + i)%nat a b).
      * rewrite nth_error_app2 by lia.
        replace (List.length before + i - List.length before)%nat with i by lia.
        rewrite nth_error_app1; [exact Ha |].
        apply nth_error_Some. congruence.
      * rewrite nth_error_app2 by lia.
        replace (S (List.length before + i) - List.length before)%nat with (S i) by lia.
        rewrite nth_error_app1; [exact Hb |].
        apply nth_error_Some. congruence.
Qed.

(** The theorem at work on a free afternoon from 13:00 to 17:00: the
    window 14:00, 15:00, 16:00 inside the run of five is returned. *)
Lemma C2_witness :
  In [Finder.hourly 14 10; Finder.hourly 15 10; Finder.hourly 16 10]
    (Finder.find_consecutive_runs 3 Sample.free_afternoon).
Proof.
  apply (proj1 (proj2 C2_finder_returns_exactly_the_runs) 3%nat 5%nat
           Sample.free_afternoon Sample.free_afternoon
           [Finder.hourly 14 10; Finder.hourly 15 10; Finder.hourly 16 10]
           [Finder.hourly 13 10] [Finder.hourly 17 10]).
  - lia.
  - apply (proj1 C2_finder_returns_exactly_the_runs 5%nat); [lia |].
    cbn. left. reflexivity.
  - reflexivity.
  - reflexivity.
Defined.

(* ================================================================= *)
(** ** Two scans dispatch a due job once *)

Section DispatchFacts.
Import Scheduler.
Variables (now due_at : Z).
Hypothesis due : due_at <= now.

Lemma invariant_at_start : dispatch_invariant due_at (two_scans due_at).
Proof. cbn. repeat split; left; reflexivity. Qed.

Lemma step_keeps_invariant (v : verdict) (who : scanner) (s s' : system) :
  dispatch_invariant due_at s ->
  step now v who s = Some s' ->
  dispatch_invariant due_at s'.
Proof.
  destruct s as [[st sched n log] pa pb]. unfold dispatch_invariant, step.
  cbn. intros [Hdue Hinv]. subst sched.
  assert (Hnow : (due_at <=? now) = true) by now apply Z.leb_le.
  destruct who, st; try contradiction; cbn;
    destruct pa, pb; cbn; rewrite ?Hnow; cbn;
    intros Hs; inversion Hs; subst; clear Hs; cbn;
    repeat match goal with
           | H : _ /\ _ |- _ => destruct H
           | H : _ \/ _ |- _ => destruct H
           end;
    subst; cbn; try congruence; try discriminate;
    repeat split; auto; try (left; split; congruence); try (right; split; congruence);
    try congruence.
Qed.

Lemma interleave_keeps_invariant (schedule : list (scanner * verdict)) :
  forall s, dispatch_invariant due_at s ->
            dispatch_invariant due_at (interleave now schedule s).
Proof.
  induction schedule as [| [who v] rest IH]; intros s Hs; [exact Hs |].
  cbn. destruct (step now v who s) as [s' |] eqn:E.
  - apply IH. exact (step_keeps_invariant v who s s' Hs E).
  - apply IH. exact Hs.
Qed.

(** A step of one scan leaves the other where it was, and brings the
    stepping scan closer to its end. *)
Lemma step_progress (v : verdict) (who other : scanner) (s s' : system) :
  step now v who s = Some s' ->
  (remaining (progress_of other s') <= remaining (progress_of other s))%nat
  /\ (remaining (progress_of who s') < remaining (progress_of who s))%nat.
Proof.
  destruct s as [j pa pb]. unfold step.
  destruct who, other; cbn;
    destruct pa, pb; cbn;
    repeat match goal with
           | |- context [if ?b then _ else _] => destruct b
           | |- context [match claim ?x with _ => _ end] => destruct (claim x)
           end;
    intros Hs; inversion Hs; subst; cbn; lia.
Qed.

Lemma step_none (v : verdict) (who : scanner) (s : system) :
  step now v who s = None -> progress_of who s = Over.
Proof.
  unfold step. destruct (progress_of who s); try reflexivity;
    repeat match goal with
           | |- context [if ?b then _ else _] => destruct b
           | |- context [match claim ?x with _ => _ end] => destruct (claim x)
           end; discriminate.
Qed.

Lemma interleave_progress (who : scanner) (schedule : list (scanner * verdict)) :
  forall s,
    (remaining (progress_of who (interleave now schedule s))
     <= remaining (progress_of who s) - steps_of who schedule)%nat.
Proof.
  induction schedule as [| [w v] rest IH]; intros s; cbn; [lia |].
  destruct (step now v w s) as [s' |] eqn:E.
  - specialize (IH s').
    pose proof (step_progress v w who s s' E) as [Hother Hself].
    destruct who, w; cbn in *; lia.
  - specialize (IH s). apply step_none in E.
    destruct who, w; cbn in *; try rewrite E in *; cbn in *; lia.
Qed.

Lemma enough_steps_end_both (schedule : list (scanner * verdict)) :
  (3 <= steps_of ScanA schedule)%nat ->
  (3 <= steps_of ScanB schedule)%nat ->
  both_over (interleave now schedule (two_scans due_at)).
Proof.
  intros Ha Hb.
  pose proof (interleave_progress ScanA schedule (two_scans due_at)) as Pa.
  pose proof (interleave_progress ScanB schedule (two_scans due_at)) as Pb.
  change (remaining (progress_of ScanA (two_scans due_at))) with 3%nat in Pa.
  change (remaining (progress_of ScanB (two_scans due_at))) with 3%nat in Pb.
  unfold progress_of in Pa, Pb. split.
  - destruct (scan_a (interleave now schedule (two_scans due_at)));
      unfold remaining in Pa; try reflexivity; lia.
  - destruct (scan_b (interleave now schedule (two_scans due_at)));
      unfold remaining in Pb; try reflexivity; lia.
Qed.

Lemma dispatched_once_when_over (s : system) :
  dispatch_invariant due_at s ->
  both_over s ->
  executing_transitions (jobs s) = 1%nat
  /\ List.length (attempt_sets (jobs s)) = 1%nat.
Proof.
  intros [_ Hinv] [Ha Hb]. destruct (state (jobs s)); try contradiction.
  - destruct Hinv as (_ & _ & [H | H] & _); congruence.
  - destruct Hinv as (_ & _ & [[H _] | [H _]]); congruence.
  - destruct Hinv as (H1 & H2 & _). split; assumption.
Qed.

Lemma dispatched_at_most_once (s : system) :
  dispatch_invariant due_at s ->
  (executing_transitions (jobs s) <= 1)%nat
  /\ (List.length (attempt_sets (jobs s)) <= 1)%nat.
Proof.
  intros [_ Hinv]. destruct (state (jobs s)); try contradiction.
  - destruct Hinv as (-> & -> & _). cbn. lia.
  - destruct Hinv as (-> & -> & _). cbn. lia.
  - destruct Hinv as (-> & -> & _). lia.
Qed.

End DispatchFacts.

(** C7: two scans run against a store that holds one due job in state
    armed, their steps interleaved in any order.  At every point at most
    one armed-to-executing transition was made and at most one set of
    attempts logged; once each scan has had its three steps both are
    over, and then exactly one transition and exactly one set of attempts
    are on record.  This covers the interleavings in which both scans
    observe the job armed before either claims it. *)
Theorem C7_exactly_one_dispatch :
  forall (now due_at : Z) (schedule : list (Scheduler.scanner * Scheduler.verdict)),
    due_at <= now ->
    let s := Scheduler.interleave now schedule (Scheduler.two_scans due_at) in
    ((Scheduler.executing_transitions (Scheduler.jobs s) <= 1)%nat
     /\ (List.length (Scheduler.attempt_sets (Scheduler.jobs s)) <= 1)%nat)
    /\ (Scheduler.both_over s ->
        Scheduler.executing_transitions (Scheduler.jobs s) = 1%nat
        /\ List.length (Scheduler.attempt_sets (Scheduler.jobs s)) = 1%nat)
    /\ ((3 <= Scheduler.steps_of Scheduler.ScanA schedule)%nat ->
        (3 <= Scheduler.steps_of Scheduler.ScanB schedule)%nat ->
        Scheduler.both_over s).
Proof.
  intros now due_at schedule Hdue s.
  assert (Hinv : Scheduler.dispatch_invariant due_at s).
  { apply interleave_keeps_invariant; [exact Hdue | apply invariant_at_start]. }
  split; [| split].
  - exact (dispatched_at_most_once due_at s Hinv).
  - exact (dispatched_once_when_over due_at s Hinv).
  - apply enough_steps_end_both.
Qed.

(** The theorem at work on [Sample.race], with the job due at 90 and the
    clock at 100. *)
Lemma C7_witness :
  Scheduler.both_observed
    (Scheduler.interleave 100 (firstn 2 Sample.race) (Scheduler.two_scans 90))
  /\ Scheduler.executing_transitions
       (Scheduler.jobs (Scheduler.interleave 100 Sample.race (Scheduler.two_scans 90)))
     = 1%nat
  /\ Scheduler.attempt_sets
       (Scheduler.jobs (Scheduler.interleave 100 Sample.race (Scheduler.two_scans 90)))
     = [Scheduler.ScanB].
Proof.
  pose proof (C7_exactly_one_dispatch 100 90 Sample.race ltac:(lia)) as (_ & Hone & Hover).
  split; [split; reflexivity |].
  split.
  - apply Hone. apply Hover; cbn; lia.
  - reflexivity.
Defined.

(* ================================================================= *)
(** ** Calls made while logged out *)

Section LoggedOut.
Import Outcome.
Variable e : env.

Lemma v1_refused (c : V1.client) : refused "error" c (Returns V1.not_authenticated, (c, [])).
Proof.
  exists V1.not_authenticated, "Not authenticated. Please login first.".
  repeat split.
Qed.

Lemma v1_logged_out (c : V1.client) :
  V1.is_authenticated c = false ->
  (forall location date sub_location,
      refused "error" c (run (V1.get_available_slots location date sub_location) e c))
  /\ (forall include_past,
         refused "error" c (run (V1.get_current_bookings include_past) e c))
  /\ (forall location date time_slot sub_location slot_id resource_id,
         refused "error" c
           (run (V1.create_booking location date time_slot sub_location slot_id
                   resource_id) e c))
  /\ (forall booking_id,
         refused "error" c (run (V1.cancel_booking booking_id) e c)).
Proof.
  intros H. repeat split; intros;
    unfold V1.get_available_slots, V1.get_current_bookings, V1.create_booking,
      V1.cancel_booking; unfold_monad; cbn; rewrite H; cbn; apply v1_refused.
Qed.

(** [is_logged_in] reads the client and the clock and changes nothing. *)
Lemma v2_is_logged_in_silent (c : V2.client) (t : trace) :
  V2.is_logged_in e (c, t) = (result (run V2.is_logged_in e c), (c, t)).
Proof.
  unfold V2.is_logged_in. unfold_monad. split_run; reflexivity.
Qed.

Lemma v2_refused (c : V2.client) : refused "message" c (Returns V2.not_logged_in, (c, [])).
Proof.
  exists V2.not_logged_in, "Not logged in". repeat split.
Qed.

Lemma v2_logged_out (c : V2.client) :
  result (run V2.is_logged_in e c) = Returns false ->
  (forall location date sub_location,
      refused "message" c (run (V2.get_available_slots location date sub_location) e c))
  /\ (forall include_past,
         refused "message" c (run (V2.get_current_bookings include_past) e c))
  /\ (forall slot_id product_id resource_id start_time end_time linked_product_id,
         refused "message" c
           (run (V2.create_booking slot_id product_id resource_id start_time end_time
                   linked_product_id) e c))
  /\ (forall booking_id,
         refused "message" c (run (V2.cancel_booking booking_id) e c)).
Proof.
  intros H. repeat split; intros;
    unfold V2.get_available_slots, V2.get_current_bookings, V2.create_booking,
      V2.cancel_booking; unfold run, bind;
    rewrite v2_is_logged_in_silent, H; cbn; apply v2_refused.
Qed.

End LoggedOut.

(** C8: a data call made on a client that is not logged in (v1:
    [is_authenticated] is false; v2: [is_logged_in()] is false) returns a
    failure result with a message, and no request goes to the vendor.
    This holds of [get_available_slots], [get_current_bookings],
    [create_booking] and [cancel_booking] of both clients. *)
Theorem C8_logged_out_calls_send_nothing :
  (forall (e : env) (c : V1.client),
      V1.is_authenticated c = false ->
      (forall location date sub_location,
          Outcome.refused "error" c
            (run (V1.get_available_slots location date sub_location) e c))
      /\ (forall include_past,
             Outcome.refused "error" c (run (V1.get_current_bookings include_past) e c))
      /\ (forall location date time_slot sub_location slot_id resource_id,
             Outcome.refused "error" c
               (run (V1.create_booking location date time_slot sub_location slot_id
                       resource_id) e c))
      /\ (forall booking_id,
             Outcome.refused "error" c (run (V1.cancel_booking booking_id) e c)))
  /\ (forall (e : env) (c : V2.client),
         result (run V2.is_logged_in e c) = Returns false ->
         (forall location date sub_location,
             Outcome.refused "message" c
               (run (V2.get_available_slots location date sub_location) e c))
         /\ (forall include_past,
                Outcome.refused "message" c
                  (run (V2.get_current_bookings include_past) e c))
         /\ (forall slot_id product_id resource_id start_time end_time
                    linked_product_id,
                Outcome.refused "message" c
                  (run (V2.create_booking slot_id product_id resource_id start_time
                          end_time linked_product_id) e c))
         /\ (forall booking_id,
                Outcome.refused "message" c (run (V2.cancel_booking booking_id) e c))).
Proof.
  split.
  - intros e c. apply v1_logged_out.
  - intros e c. apply v2_logged_out.
Qed.

(** The theorem at work: a fresh v1 client, and a v2 client whose token
    expired at second 500 of a clock that reads 1000. *)
Lemma C8_witness :
  Outcome.refused "error" V1.init
    (run (V1.create_booking "Fitness" "2025-11-17" "06:00" None None None)
       (Sample.world (Responds (Sample.answer 201 None))) V1.init)
  /\ Outcome.refused "message" (Sample.member2 (PInt 500))
       (run (V2.cancel_booking (PInt 5))
          (Sample.world (Responds (Sample.answer 200 None)))
          (Sample.member2 (PInt 500))).
Proof.
  split.
  - apply (proj1 C8_logged_out_calls_send_nothing
             (Sample.world (Responds (Sample.answer 201 None))) V1.init eq_refl).
  - apply (proj2 C8_logged_out_calls_send_nothing
             (Sample.world (Responds (Sample.answer 200 None)))
             (Sample.member2 (PInt 500)) eq_refl).
Defined.

(* ================================================================= *)
(** ** When the v2 client counts as logged in *)

Section TokenExpiry.
Import Outcome.
Variable e : env.




End TokenExpiry.




(* ================================================================= *)
(** ** Cancelling a booking *)

Section Cancel.
Import Outcome.
Variable e : env.

Lemma v1_cancel_booking_spec (c : V1.client) (booking_id : string) :
  V1.is_authenticated c = true ->
  exists res,
    result (run (V1.cancel_booking booking_id) e c) = Returns res
    /\ (success_of res = Some true <->
        exists rq r, answered (exchanges (run (V1.cancel_booking booking_id) e c)) rq r
                     /\ status_code r = 200)
    /\ (forall rq r,
           In (rq, Responds r) (exchanges (run (V1.cancel_booking booking_id) e c)) ->
           status_code r = 404 ->
           res = V1.failure (PStr "Booking not found"))
    /\ (forall rq msg,
           In (rq, Fails msg) (exchanges (run (V1.cancel_booking booking_id) e c)) ->
           res = V1.failure (PStr ("Error cancelling booking: " ++ msg))).
Proof.
  intros Hauth. unfold V1.cancel_booking, V1.error_data_of, answered. unfold_monad.
  cbn. rewrite Hauth. split_run; by_status;
    (eexists; split; [reflexivity |]; split; [| split]);
    try (split; one_exchange; by_status; try reflexivity;
         try (do 2 eexists; split; [reflexivity | assumption]));
    one_exchange; by_status; try reflexivity.
Qed.

Lemma v2_cancel_booking_spec (c : V2.client) (booking_id : pyval) :
  result (run V2.is_logged_in e c) = Returns true ->
  exists res,
    result (run (V2.cancel_booking booking_id) e c) = Returns res
    /\ (success_of res = Some true <->
        exists rq r, answered (exchanges (run (V2.cancel_booking booking_id) e c)) rq r
                     /\ ~ http_error (status_code r))
    /\ (forall rq r,
           In (rq, Responds r) (exchanges (run (V2.cancel_booking booking_id) e c)) ->
           status_code r = 404 ->
           success_of res = Some false
           /\ field "message" res = Some (PStr "API error: 404"))
    /\ (forall rq msg,
           In (rq, Fails msg) (exchanges (run (V2.cancel_booking booking_id) e c)) ->
           res = V2.failure ("Request failed: " ++ msg)).
Proof.
  intros Hin. unfold V2.cancel_booking, answered, http_error. unfold run, bind.
  rewrite v2_is_logged_in_silent, Hin. unfold V2.api_errors. unfold_monad.
  split_run; by_status;
    (eexists; split; [reflexivity |]; split; [| split]);
    try (split; one_exchange; by_status; try reflexivity;
         try (do 2 eexists; split; [reflexivity | lia]));
    one_exchange; by_status; try (split; reflexivity); try reflexivity;
    match goal with H : status_code _ = _ |- _ => rewrite H; reflexivity end.
Qed.

Lemma not_found_is_no_transport_error (msg : string) :
  PStr "Booking not found" <> PStr ("Error cancelling booking: " ++ msg)
  /\ PStr "API error: 404" <> PStr ("Request failed: " ++ msg).
Proof. split; cbn; discriminate. Qed.

End Cancel.

(** C4, as amended: on an authenticated client, [cancel_booking] of v1
    succeeds exactly when the vendor answers 200, and answers a 404 with
    the failure [Booking not found]; [cancel_booking] of v2 succeeds
    exactly when the vendor answers with a status outside 400-599, and
    answers a 404 with the failure [API error: 404].  Neither text is the
    one a transport error gets. *)
Theorem C4_cancel_booking_outcomes :
  (forall (e : env) (c : V1.client) (booking_id : string),
      V1.is_authenticated c = true ->
      exists res,
        result (run (V1.cancel_booking booking_id) e c) = Returns res
        /\ (success_of res = Some true <->
            exists rq r,
              Outcome.answered (exchanges (run (V1.cancel_booking booking_id) e c)) rq r
              /\ status_code r = 200)
        /\ (forall rq r,
               In (rq, Responds r) (exchanges (run (V1.cancel_booking booking_id) e c)) ->
               status_code r = 404 ->
               res = V1.failure (PStr "Booking not found"))
        /\ (forall rq msg,
               In (rq, Fails msg) (exchanges (run (V1.cancel_booking booking_id) e c)) ->
               res = V1.failure (PStr ("Error cancelling booking: " ++ msg))))
  /\ (forall (e : env) (c : V2.client) (booking_id : pyval),
         result (run V2.is_logged_in e c) = Returns true ->
         exists res,
           result (run (V2.cancel_booking booking_id) e c) = Returns res
           /\ (success_of res = Some true <->
               exists rq r,
                 Outcome.answered (exchanges (run (V2.cancel_booking booking_id) e c)) rq r
                 /\ ~ Outcome.http_error (status_code r))
           /\ (forall rq r,
                  In (rq, Responds r) (exchanges (run (V2.cancel_booking booking_id) e c)) ->
                  status_code r = 404 ->
                  success_of res = Some false
                  /\ field "message" res = Some (PStr "API error: 404"))
           /\ (forall rq msg,
                  In (rq, Fails msg) (exchanges (run (V2.cancel_booking booking_id) e c)) ->
                  res = V2.failure ("Request failed: " ++ msg)))
  /\ (forall msg : string,
         PStr "Booking not found" <> PStr ("Error cancelling booking: " ++ msg)
         /\ PStr "API error: 404" <> PStr ("Request failed: " ++ msg)).
Proof.
  split; [| split].
  - exact v1_cancel_booking_spec.
  - exact v2_cancel_booking_spec.
  - exact not_found_is_no_transport_error.
Qed.

(** The theorem at work: the vendor answers 404 to the cancellation of
    booking 5, asked by either client. *)
Lemma C4_witness :
  (exists res,
      result (run (V1.cancel_booking "5")
                (Sample.world (Responds (Sample.answer 404 None))) Sample.member1)
      = Returns res
      /\ res = V1.failure (PStr "Booking not found"))
  /\ (exists res,
         result (run (V2.cancel_booking (PInt 5))
                   (Sample.world (Responds (Sample.answer 404 None)))
                   (Sample.member2 (PInt 2000)))
         = Returns res
         /\ field "message" res = Some (PStr "API error: 404")).
Proof.
  split.
  - destruct (proj1 C4_cancel_booking_outcomes
                (Sample.world (Responds (Sample.answer 404 None))) Sample.member1 "5"
                eq_refl) as (res & Hres & _ & H404 & _).
    exists res. split; [exact Hres |].
    apply (H404 (mkRequest DELETE (V1.BASE_URL ++ "/api/bookings/5") PNone)
             (Sample.answer 404 None)); [left; reflexivity | reflexivity].
  - destruct (proj1 (proj2 C4_cancel_booking_outcomes)
                (Sample.world (Responds (Sample.answer 404 None)))
                (Sample.member2 (PInt 2000)) (PInt 5) eq_refl)
      as (res & Hres & _ & H404 & _).
    exists res. split; [exact Hres |].
    apply (H404 (mkRequest DELETE (V2.API_BASE_URL ++ "/participations/5") PNone)
             (Sample.answer 404 None)); [left; reflexivity | reflexivity].
Defined.

(** C4 as stated fails on the v2 client: the vendor answers the
    cancellation with 204, which is not 200, and the call reports
    success. *)
Lemma C4_counterexample :
  result (run V2.is_logged_in (Sample.world (Responds (Sample.answer 204 None)))
            (Sample.member2 (PInt 2000)))
  = Returns true
  /\ exchanges (run (V2.cancel_booking (PInt 5))
                  (Sample.world (Responds (Sample.answer 204 None)))
                  (Sample.member2 (PInt 2000)))
     = [(mkRequest DELETE (V2.API_BASE_URL ++ "/participations/5") PNone,
         Responds (Sample.answer 204 None))]
  /\ status_code (Sample.answer 204 None) <> 200
  /\ result (run (V2.cancel_booking (PInt 5))
               (Sample.world (Responds (Sample.answer 204 None)))
               (Sample.member2 (PInt 2000)))
     = Returns (PDict [("success", PBool true);
                       ("message", PStr "Booking cancelled successfully")]).
Proof.
  repeat split. cbn. lia.
Qed.

(* ================================================================= *)
(** ** Fetching the slots of a day *)

Section Slots.
Import Outcome.
Variable e : env.

Local Opaque each V1.parse_slot iterate get_default.

Lemma v1_get_available_slots_spec (c : V1.client) (location date : string)
  (sub_location : option string) :
  exists res,
    result (run (V1.get_available_slots location date sub_location) e c) = Returns res
    /\ (reports_failure "error" res
        \/ (success_of res = Some true
            /\ exists rq r data listed items slots,
                answered (exchanges (run (V1.get_available_slots location date
                                            sub_location) e c)) rq r
                /\ status_code r = 200
                /\ json_body r = Some data
                /\ get_default data "slots" (PList []) = Returns listed
                /\ iterate listed = Returns items
                /\ each V1.parse_slot items = Returns slots
                /\ field "slots" res = Some (PList slots)
                /\ field "count" res = Some (PInt (Z.of_nat (List.length slots)))))
    /\ (forall rq r,
           In (rq, Responds r)
             (exchanges (run (V1.get_available_slots location date sub_location) e c)) ->
           status_code r <> 200 ->
           reports_failure "error" res)
    /\ (forall rq msg,
           In (rq, Fails msg)
             (exchanges (run (V1.get_available_slots location date sub_location) e c)) ->
           reports_failure "error" res).
Proof.
  unfold V1.get_available_slots, answered, reports_failure. unfold_monad.
  split_run; by_status;
    (eexists; split; [reflexivity |]; split; [| split]);
    try (left; split; [reflexivity | eexists; reflexivity]);
    try (right; split; [reflexivity |];
         do 6 eexists; repeat split; try eassumption; reflexivity);
    one_exchange; by_status; try (split; [reflexivity | eexists; reflexivity]).
Qed.

Lemma v2_get_available_slots_spec (c : V2.client) (location date : string)
  (sub_location : option string) (logged : bool) (d : Datetime.date) :
  result (run V2.is_logged_in e c) = Returns logged ->
  Datetime.strptime date = Returns d ->
  exists res,
    result (run (V2.get_available_slots location date sub_location) e c) = Returns res
    /\ (reports_failure "message" res
        \/ (success_of res = Some true
            /\ exists rq r data,
                answered (exchanges (run (V2.get_available_slots location date
                                            sub_location) e c)) rq r
                /\ ~ http_error (status_code r)
                /\ json_body r = Some data
                /\ field "slots" res = Some (V2.slots_of data)
                /\ field "count" res = Some (PInt (V2.len_if_list (V2.slots_of data)))))
    /\ (forall rq r,
           In (rq, Responds r)
             (exchanges (run (V2.get_available_slots location date sub_location) e c)) ->
           http_error (status_code r) ->
           reports_failure "message" res)
    /\ (forall rq msg,
           In (rq, Fails msg)
             (exchanges (run (V2.get_available_slots location date sub_location) e c)) ->
           reports_failure "message" res).
Proof.
  intros Hlog Hdate.
  unfold V2.get_available_slots, answered, reports_failure, http_error.
  unfold run, bind. rewrite v2_is_logged_in_silent, Hlog, Hdate.
  unfold V2.api_errors. unfold_monad.
  split_run; by_status;
    (eexists; split; [reflexivity |]; split; [| split]);
    try (left; split; [reflexivity | eexists; reflexivity]);
    try (right; split; [reflexivity |];
         do 3 eexists; repeat split; try eassumption; try reflexivity; lia);
    one_exchange; by_status; try (split; [reflexivity | eexists; reflexivity]).
Qed.

Lemma v2_refused_date_raises (c : V2.client) (location date : string)
  (sub_location : option string) (x : exn) :
  result (run V2.is_logged_in e c) = Returns true ->
  V2.product_id_of location <> None ->
  Datetime.strptime date = Raises x ->
  run (V2.get_available_slots location date sub_location) e c = (Raises x, (c, [])).
Proof.
  intros Hlog Hprod Hdate.
  unfold V2.get_available_slots. unfold run, bind.
  rewrite v2_is_logged_in_silent, Hlog. cbn.
  destruct (V2.product_id_of location); [| contradiction Hprod; reflexivity].
  unfold lift. rewrite Hdate. reflexivity.
Qed.

Lemma v2_refused_date_unread (c : V2.client) (location date : string)
  (sub_location : option string) (logged : bool) :
  result (run V2.is_logged_in e c) = Returns logged ->
  logged = false \/ V2.product_id_of location = None ->
  refused "message" c (run (V2.get_available_slots location date sub_location) e c).
Proof.
  intros Hlog Hcase.
  unfold V2.get_available_slots, refused. unfold run, bind.
  rewrite v2_is_logged_in_silent, Hlog.
  destruct logged; cbn.
  - destruct Hcase as [Hcase | Hcase]; [discriminate Hcase |].
    rewrite Hcase. cbn. do 2 eexists. repeat split; reflexivity.
  - do 2 eexists. repeat split; reflexivity.
Qed.

End Slots.

(** C5, as amended: [get_available_slots] of v1 always returns a value.
    When [is_logged_in] returns, [get_available_slots] of v2 returns a
    value for every date that [strptime] accepts under [%Y-%m-%d]; for a
    date it refuses (such as [tomorrow] or [2025-02-30]) a logged-in
    client asked for a known location lets the [ValueError] of the parse
    through to its caller before any request, and otherwise the call is
    refused without reading the date.  A value that is returned either
    reports a failure ([success] false and a message), or reports success
    after exactly one exchange that the vendor answered (v1: with status
    200; v2: with a status outside 400-599) with a JSON body, and then the
    slots are those of that body.  A status other than 200 (v1), an HTTP
    error status 400-599 (v2) and a request that raises are all reported
    as failures. *)
Theorem C5_slot_fetch_failures_are_returned :
  (forall (e : env) (c : V1.client) (location date : string)
          (sub_location : option string),
      exists res,
        result (run (V1.get_available_slots location date sub_location) e c)
        = Returns res
        /\ (Outcome.reports_failure "error" res
            \/ (success_of res = Some true
                /\ exists rq r data listed items slots,
                    Outcome.answered
                      (exchanges (run (V1.get_available_slots location date
                                         sub_location) e c)) rq r
                    /\ status_code r = 200
                    /\ json_body r = Some data
                    /\ get_default data "slots" (PList []) = Returns listed
                    /\ iterate listed = Returns items
                    /\ each V1.parse_slot items = Returns slots
                    /\ field "slots" res = Some (PList slots)
                    /\ field "count" res = Some (PInt (Z.of_nat (List.length slots)))))
        /\ (forall rq r,
               In (rq, Responds r)
                 (exchanges (run (V1.get_available_slots location date sub_location)
                               e c)) ->
               status_code r <> 200 ->
               Outcome.reports_failure "error" res)
        /\ (forall rq msg,
               In (rq, Fails msg)
                 (exchanges (run (V1.get_available_slots location date sub_location)
                               e c)) ->
               Outcome.reports_failure "error" res))
  /\ (forall (e : env) (c : V2.client) (location date : string)
             (sub_location : option string) (logged : bool) (d : Datetime.date),
         result (run V2.is_logged_in e c) = Returns logged ->
         Datetime.strptime date = Returns d ->
         exists res,
           result (run (V2.get_available_slots location date sub_location) e c)
           = Returns res
           /\ (Outcome.reports_failure "message" res
               \/ (success_of res = Some true
                   /\ exists rq r data,
                       Outcome.answered
                         (exchanges (run (V2.get_available_slots location date
                                            sub_location) e c)) rq r
                       /\ ~ Outcome.http_error (status_code r)
                       /\ json_body r = Some data
                       /\ field "slots" res = Some (V2.slots_of data)
                       /\ field "count" res
                          = Some (PInt (V2.len_if_list (V2.slots_of data)))))
           /\ (forall rq r,
                  In (rq, Responds r)
                    (exchanges (run (V2.get_available_slots location date
                                       sub_location) e c)) ->
                  Outcome.http_error (status_code r) ->
                  Outcome.reports_failure "message" res)
           /\ (forall rq msg,
                  In (rq, Fails msg)
                    (exchanges (run (V2.get_available_slots location date
                                       sub_location) e c)) ->
                  Outcome.reports_failure "message" res))
  /\ (forall (e : env) (c : V2.client) (location date : string)
             (sub_location : option string) (logged : bool) (x : exn),
         result (run V2.is_logged_in e c) = Returns logged ->
         Datetime.strptime date = Raises x ->
         (logged = true ->
          V2.product_id_of location <> None ->
          run (V2.get_available_slots location date sub_location) e c
          = (Raises x, (c, [])))
         /\ (logged = false \/ V2.product_id_of location = None ->
             Outcome.refused "message" c
               (run (V2.get_available_slots location date sub_location) e c))).
Proof.
  split; [| split].
  - exact v1_get_available_slots_spec.
  - exact v2_get_available_slots_spec.
  - intros e c location date sub_location logged x Hlog Hdate. split.
    + intros -> Hprod.
      exact (v2_refused_date_raises e c location date sub_location x Hlog Hprod
               Hdate).
    + exact (v2_refused_date_unread e c location date sub_location logged Hlog).
Qed.

(** The theorem at work: the vendor is out of reach when the v2 client
    asks for the Fitness slots of 17 November 2025. *)
Lemma C5_witness :
  exists res,
    result (run (V2.get_available_slots "Fitness" "2025-11-17" None)
              (Sample.world (Fails "connection refused"))
              (Sample.member2 (PInt 2000)))
    = Returns res
    /\ Outcome.reports_failure "message" res.
Proof.
  destruct (proj1 (proj2 C5_slot_fetch_failures_are_returned)
              (Sample.world (Fails "connection refused"))
              (Sample.member2 (PInt 2000)) "Fitness" "2025-11-17" None true
              (Datetime.mkDate 2025 11 17) eq_refl eq_refl)
    as (res & Hres & _ & _ & Hfails).
  exists res. split; [exact Hres |].
  apply (Hfails (V2.slots_request (Sample.world (Fails "connection refused")) 20061
                   (Datetime.mkDate 2025 11 17) "Fitness" None)
           "connection refused").
  left. reflexivity.
Defined.

(** C5 as stated fails on the v2 client.  Asked for the slots of
    [tomorrow], a logged-in client lets the [ValueError] of the date
    parsing through to its caller, and so it does for 30 February, which
    is written as a date but is no day; and when the vendor answers with
    status 201 and an empty list, the call reports success although the
    status is not 200. *)
Lemma C5_counterexample :
  result (run (V2.get_available_slots "Fitness" "tomorrow" None)
            (Sample.world (Responds (Sample.answer 200 (Some (PList [])))))
            (Sample.member2 (PInt 2000)))
  = Raises (Exn ValueError "time data 'tomorrow' does not match format '%Y-%m-%d'")
  /\ result (run (V2.get_available_slots "Fitness" "2025-11-17" None)
               (Sample.world (Responds (Sample.answer 201 (Some (PList [])))))
               (Sample.member2 (PInt 2000)))
     = Returns (PDict [("success", PBool true);
                       ("slots", PList []);
                       ("count", PInt 0);
                       ("message", PStr "Retrieved available slots")])
  /\ run (V2.get_available_slots "Fitness" "2025-02-30" None)
         (Sample.world (Responds (Sample.answer 200 (Some (PList [])))))
         (Sample.member2 (PInt 2000))
     = (Raises (Exn ValueError "day is out of range for month"),
        (Sample.member2 (PInt 2000), [])).
Proof.
  repeat split; vm_compute; reflexivity.
Qed.

(* ================================================================= *)
(** ** The two clients on the same day and the same answer *)

Section Interchange.
Import Outcome.
Variables (e : env) (o : http_outcome).
Hypothesis same_answer : forall n rq, vendor e n rq = o.

Lemma known_to_both (location product : string) :
  V1.location_map location = Some product ->
  exists product_id, V2.product_id_of location = Some product_id.
Proof.
  unfold V1.location_map, V2.product_id_of.
  destruct (String.eqb location "Fitness"); [eexists; reflexivity |].
  destruct (String.eqb location "X1"); [eexists; reflexivity |].
  destruct (String.eqb location "X3"); [eexists; reflexivity | discriminate].
Qed.

Local Opaque each V1.parse_slot iterate get_default V1.location_map
  V2.product_id_of V2.slots_request V1.slots_request.

Lemma v1_success_means_answer_200 (c : V1.client) (location date : string)
  (sub_location : option string) (res : pyval) :
  result (run (V1.get_available_slots location date sub_location) e c) = Returns res ->
  success_of res = Some true ->
  exists product r data,
    V1.location_map location = Some product
    /\ o = Responds r /\ status_code r = 200 /\ json_body r = Some data.
Proof.
  unfold V1.get_available_slots. unfold_monad. cbn.
  destruct (V1.is_authenticated c); cbn;
    [| intros H; inversion H; subst; discriminate].
  destruct (V1.location_map location) as [product |]; cbn;
    [| intros H; inversion H; subst; discriminate].
  rewrite same_answer. destruct o as [r | msg]; cbn;
    [| intros H; inversion H; subst; discriminate].
  destruct (status_code r =? 200) eqn:Es; cbn;
    [| intros H; inversion H; subst; discriminate].
  destruct (json_body r) as [data |] eqn:Eb; cbn;
    [| intros H; inversion H; subst; discriminate].
  intros _ _. exists product, r, data. apply Z.eqb_eq in Es. repeat split; assumption.
Qed.

Lemma v2_succeeds_on_answer_200 (c : V2.client) (location date : string)
  (sub_location : option string) (d : Datetime.date) (product_id : Z)
  (r : response) (data : pyval) :
  result (run V2.is_logged_in e c) = Returns true ->
  Datetime.strptime date = Returns d ->
  V2.product_id_of location = Some product_id ->
  o = Responds r -> status_code r = 200 -> json_body r = Some data ->
  exists res,
    result (run (V2.get_available_slots location date sub_location) e c) = Returns res
    /\ success_of res = Some true.
Proof.
  intros Hlog Hdate Hprod Ho Hs Hbody.
  unfold V2.get_available_slots. unfold run, bind.
  rewrite v2_is_logged_in_silent, Hlog, Hprod. unfold_monad. cbn.
  rewrite Hdate. cbn.
  rewrite same_answer, Ho, Hs, Hbody. cbn. eexists. split; reflexivity.
Qed.

Lemma v2_raises_on_refused_date (c : V2.client) (location date : string)
  (sub_location : option string) (x : exn) (product_id : Z) :
  result (run V2.is_logged_in e c) = Returns true ->
  Datetime.strptime date = Raises x ->
  V2.product_id_of location = Some product_id ->
  run (V2.get_available_slots location date sub_location) e c = (Raises x, (c, [])).
Proof.
  intros Hlog Hdate Hprod.
  unfold V2.get_available_slots. unfold run, bind.
  rewrite v2_is_logged_in_silent, Hlog, Hprod. unfold_monad. cbn.
  rewrite Hdate. reflexivity.
Qed.

End Interchange.

(** C6, as amended: the two clients are given the same location, date and
    sub-location and the vendor gives the same answer to both; the v2
    client is logged in.  Whenever [get_available_slots] of v1 reports
    success, the one of v2 reports success too if [strptime] accepts the
    date under [%Y-%m-%d], and raises the [ValueError] of the parse
    without a request if it does not: v1 sends the date on unread.  The
    converse and the equality of the results are not promised. *)
Theorem C6_v1_success_carries_over_to_v2 :
  forall (e : env) (o : http_outcome) (c1 : V1.client) (c2 : V2.client)
         (location date : string) (sub_location : option string)
         (res1 : pyval),
    (forall n rq, vendor e n rq = o) ->
    result (run V2.is_logged_in e c2) = Returns true ->
    result (run (V1.get_available_slots location date sub_location) e c1)
    = Returns res1 ->
    success_of res1 = Some true ->
    (forall d : Datetime.date,
        Datetime.strptime date = Returns d ->
        exists res2,
          result (run (V2.get_available_slots location date sub_location) e c2)
          = Returns res2
          /\ success_of res2 = Some true)
    /\ (forall x : exn,
           Datetime.strptime date = Raises x ->
           run (V2.get_available_slots location date sub_location) e c2
           = (Raises x, (c2, []))).
Proof.
  intros e o c1 c2 location date sub_location res1 Hsame Hlog Hres Hok.
  destruct (v1_success_means_answer_200 e o Hsame c1 location date sub_location res1
              Hres Hok) as (product & r & data & Hmap & Ho & Hs & Hbody).
  destruct (known_to_both location product Hmap) as [product_id Hprod].
  split.
  - intros d Hdate.
    exact (v2_succeeds_on_answer_200 e o Hsame c2 location date sub_location d
             product_id r data Hlog Hdate Hprod Ho Hs Hbody).
  - intros x Hdate.
    exact (v2_raises_on_refused_date e c2 location date sub_location x product_id
             Hlog Hdate Hprod).
Qed.

(** The theorem at work: the vendor lists one slot for X1 A. *)
Lemma C6_witness :
  exists res2,
    result (run (V2.get_available_slots "X1" "2025-11-17" (Some "A"))
              (Sample.world
                 (Responds (Sample.answer 200
                              (Some (PDict [("slots", PList [Sample.listed_slot])])))))
              (Sample.member2 (PInt 2000)))
    = Returns res2
    /\ success_of res2 = Some true.
Proof.
  eapply (proj1 (C6_v1_success_carries_over_to_v2
                   (Sample.world
                      (Responds (Sample.answer 200
                                   (Some (PDict [("slots",
                                                  PList [Sample.listed_slot])])))))
                   (Responds (Sample.answer 200
                                (Some (PDict [("slots", PList [Sample.listed_slot])]))))
                   Sample.member1 (Sample.member2 (PInt 2000))
                   "X1" "2025-11-17" (Some "A") _
                   (fun n rq => eq_refl) eq_refl eq_refl eq_refl)
            (Datetime.mkDate 2025 11 17)).
  reflexivity.
Defined.

(** C6 as stated fails.  Given the same day and the same answer (status
    200, one slot listed under [slots]), v1 returns that slot reshaped and
    counts one, v2 returns no slot and counts none.  Given the same answer
    with status 201 and an empty list, v1 reports a failure and v2
    success.  Given 30 February and an answer with status 200, v1 reports
    success and v2 raises. *)
Lemma C6_counterexample :
  result (run (V1.get_available_slots "X1" "2025-11-17" (Some "A"))
               (Sample.world
                  (Responds (Sample.answer 200
                               (Some (PDict [("slots", PList [Sample.listed_slot])])))))
               Sample.member1)
     = Returns
         (PDict [("success", PBool true); ("location", PStr "X1");
                 ("sub_location", PStr "A"); ("date", PStr "2025-11-17");
                 ("slots",
                  PList [PDict [("time", PStr "06:00"); ("end_time", PStr "07:00");
                                ("available", PInt 3); ("total", PInt 20);
                                ("slot_id", PInt 9); ("resource_id", PInt 4)]]);
                 ("count", PInt 1)])
  /\ result (run (V2.get_available_slots "X1" "2025-11-17" (Some "A"))
               (Sample.world
                  (Responds (Sample.answer 200
                               (Some (PDict [("slots", PList [Sample.listed_slot])])))))
               (Sample.member2 (PInt 2000)))
     = Returns
         (PDict [("success", PBool true); ("slots", PList []); ("count", PInt 0);
                 ("message", PStr "Retrieved available slots")])
  /\ result (run (V1.get_available_slots "X1" "2025-11-17" (Some "A"))
               (Sample.world (Responds (Sample.answer 201 (Some (PList [])))))
               Sample.member1)
     = Returns (V1.failure (PStr "Failed to fetch available slots: 201"))
  /\ result (run (V2.get_available_slots "X1" "2025-11-17" (Some "A"))
               (Sample.world (Responds (Sample.answer 201 (Some (PList [])))))
               (Sample.member2 (PInt 2000)))
     = Returns
         (PDict [("success", PBool true); ("slots", PList []); ("count", PInt 0);
                 ("message", PStr "Retrieved available slots")])
  /\ result (run (V1.get_available_slots "X1" "2025-02-30" (Some "A"))
               (Sample.world (Responds (Sample.answer 200 (Some (PDict [])))))
               Sample.member1)
     = Returns
         (PDict [("success", PBool true); ("location", PStr "X1");
                 ("sub_location", PStr "A"); ("date", PStr "2025-02-30");
                 ("slots", PList []); ("count", PInt 0)])
  /\ result (run (V2.get_available_slots "X1" "2025-02-30" (Some "A"))
               (Sample.world (Responds (Sample.answer 200 (Some (PDict [])))))
               (Sample.member2 (PInt 2000)))
     = Raises (Exn ValueError "day is out of range for month").
Proof.
  repeat split; vm_compute; reflexivity.
Qed.

(* ================================================================= *)
(** ** A login that fails after it has written to the client *)

Section FailedLogin.
Variable e : env.

(** A failed [login] of v1 leaves the client as it was on every path but
    one: the vendor answered the credentials with 200 and a JSON body
    that is not an object, and then [is_authenticated] has been set. *)
Lemma v1_failed_login_state (c : V1.client) (username password : string)
  (res : pyval) :
  result (run (V1.login username password) e c) = Returns res ->
  success_of res = Some false ->
  client_after (run (V1.login username password) e c) = c
  \/ (exists rq r data,
         In (rq, Responds r) (exchanges (run (V1.login username password) e c))
         /\ meth rq = POST
         /\ status_code r = 200
         /\ json_body r = Some data
         /\ get data "userId" = Raises (no_attribute data "get")
         /\ client_after (run (V1.login username password) e c)
            = V1.set_is_authenticated true c).
Proof.
  unfold V1.login, V1.error_data_of, get, get_default. unfold_monad.
  split_run; intros Hres Hok; try (left; reflexivity);
    try (inversion Hres; subst; discriminate Hok);
    right; do 3 eexists; (split; [right; left; reflexivity |]);
    by_status; repeat split; try eassumption; reflexivity.
Qed.

(** A failed [login_and_get_token] of v2 leaves the client as it was
    unless the browser storage held a token, which has then been
    stored. *)
Lemma v2_failed_login_state (c : V2.client) (username password : string)
  (res : pyval) :
  result (run (V2.login_and_get_token username password) e c) = Returns res ->
  success_of res = Some false ->
  client_after (run (V2.login_and_get_token username password) e c) = c
  \/ (exists auth_data token_response token,
         browser e = LocalStorage (Some (JsonText auth_data))
         /\ item auth_data "tokenResponse" = Returns token_response
         /\ item token_response "accessToken" = Returns token
         /\ V2.access_token
              (client_after (run (V2.login_and_get_token username password) e c))
            = token).
Proof.
  unfold V2.login_and_get_token, V2.finally_quit, V2.read_token, V2.has_token,
    V2.loads, V2.print. unfold_monad.
  destruct (browser e) as [msg | msg | | [[auth_data | text] |]] eqn:Eb; cbn;
    try (destruct (quit_error e); cbn; intros Hres Hok; left; reflexivity);
    try (destruct (String.eqb text EmptyString); cbn;
         destruct (quit_error e); cbn; intros Hres Hok; left; reflexivity).
  destruct (contains "tokenResponse" auth_data) as [[|] | x]; cbn;
    try (destruct (quit_error e); cbn; intros Hres Hok; left; reflexivity).
  destruct (item auth_data "tokenResponse") as [token_response | x] eqn:Et; cbn;
    try (destruct (quit_error e); cbn; intros Hres Hok; left; reflexivity).
  destruct (contains "accessToken" token_response) as [[|] | x]; cbn;
    try (destruct (quit_error e); cbn; intros Hres Hok; left; reflexivity).
  destruct (item token_response "accessToken") as [token | x] eqn:Ea; cbn;
    try (destruct (quit_error e); cbn; intros Hres Hok; left; reflexivity).
  intros _ _. right. exists auth_data, token_response, token.
  split; [reflexivity |]. split; [exact Et |]. split; [exact Ea |].
  split_run; reflexivity.
Qed.

End FailedLogin.

(** C9: a login that returns a failure is to leave the authentication
    state as it was.  The code does not: it assigns the state before the
    last steps that can raise.  In v1 the vendor answers both requests of
    [login] with status 200 and the JSON body [[]]; the call returns a
    failure and the fresh client has become authenticated.  In v2 the
    browser storage holds a token and [null] for the member;
    [login_and_get_token] returns a failure and the fresh client holds
    the token, its expiry and the Authorization header. *)
Theorem C9_failed_login_has_written_state :
  (result (run (V1.login "u" "p")
             (Sample.world (Responds (Sample.answer 200 (Some (PList [])))))
             V1.init)
   = Returns (V1.failure (PStr "Login failed: 'list' object has no attribute 'get'"))
   /\ V1.is_authenticated V1.init = false
   /\ client_after (run (V1.login "u" "p")
                      (Sample.world (Responds (Sample.answer 200 (Some (PList [])))))
                      V1.init)
      = {| V1.is_authenticated := true; V1.current_account := PNone |})
  /\ (result (run (V2.login_and_get_token "u" "p")
                (Sample.login_world (Fails "offline")
                   (LocalStorage (Some Sample.no_member_item)))
                (V2.init "tudelft"))
      = Returns (V2.failure "Login failed: 'NoneType' object has no attribute 'get'")
      /\ V2.access_token (V2.init "tudelft") = PNone
      /\ client_after (run (V2.login_and_get_token "u" "p")
                         (Sample.login_world (Fails "offline")
                            (LocalStorage (Some Sample.no_member_item)))
                         (V2.init "tudelft"))
         = {| V2.institution := "tudelft";
              V2.access_token := PStr "T";
              V2.token_expires_at := PInt 87400;
              V2.user_data := PNone;
              V2.authorization := Some "Bearer T" |}
      /\ result (run V2.is_logged_in
                   (Sample.login_world (Fails "offline")
                      (LocalStorage (Some Sample.no_member_item)))
                   (client_after (run (V2.login_and_get_token "u" "p")
                                    (Sample.login_world (Fails "offline")
                                       (LocalStorage (Some Sample.no_member_item)))
                                    (V2.init "tudelft"))))
         = Returns true).
Proof.
  repeat split.
Qed.

(* ================================================================= *)
(** * Further properties of the two clients *)

(** Tests met along a run, read as facts. *)
Ltac read_tests :=
  repeat match goal with
         | H : negb _ = true |- _ => apply negb_true_iff in H
         | H : negb _ = false |- _ => apply negb_false_iff in H
         | H : String.eqb _ _ = true |- _ => apply String.eqb_eq in H
         | H : String.eqb _ _ = false |- _ => apply String.eqb_neq in H
         end;
  by_status.

(** Lookups met along a run, put back where the statement has them. *)
Ltac put_lookups :=
  repeat match goal with
         | H : lookup _ _ = _ |- _ => rewrite H in *; clear H
         end.

(* ================================================================= *)
(** ** Data calls read the client and ask the vendor once at most *)

Section Quiet.
Variable e : env.

Local Opaque each V1.parse_slot V1.parse_booking iterate get_default
  V2.bookings_of V2.slots_of V2.booking_payload V1.booking_data
  V1.slots_request V2.slots_request Datetime.strptime.

Ltac quiet_run :=
  unfold_monad; split_run; (split; [reflexivity | cbn; lia]).

Lemma v1_data_calls_quiet (c : V1.client) :
  (forall location date sub_location,
      client_after (run (V1.get_available_slots location date sub_location) e c) = c
      /\ (List.length (exchanges (run (V1.get_available_slots location date
                                         sub_location) e c)) <= 1)%nat)
  /\ (forall include_past,
         client_after (run (V1.get_current_bookings include_past) e c) = c
         /\ (List.length (exchanges (run (V1.get_current_bookings include_past) e c))
             <= 1)%nat)
  /\ (forall location date time_slot sub_location slot_id resource_id,
         client_after (run (V1.create_booking location date time_slot sub_location
                              slot_id resource_id) e c) = c
         /\ (List.length (exchanges (run (V1.create_booking location date time_slot
                                            sub_location slot_id resource_id) e c))
             <= 1)%nat)
  /\ (forall booking_id,
         client_after (run (V1.cancel_booking booking_id) e c) = c
         /\ (List.length (exchanges (run (V1.cancel_booking booking_id) e c)) <= 1)%nat).
Proof.
  repeat apply conj; intros;
    unfold V1.get_available_slots, V1.get_current_bookings, V1.create_booking,
      V1.cancel_booking, V1.error_data_of; quiet_run.
Qed.

Lemma v2_data_calls_quiet (c : V2.client) :
  (forall location date sub_location,
      client_after (run (V2.get_available_slots location date sub_location) e c) = c
      /\ (List.length (exchanges (run (V2.get_available_slots location date
                                         sub_location) e c)) <= 1)%nat)
  /\ (forall include_past,
         client_after (run (V2.get_current_bookings include_past) e c) = c
         /\ (List.length (exchanges (run (V2.get_current_bookings include_past) e c))
             <= 1)%nat)
  /\ (forall slot_id product_id resource_id start_time end_time linked_product_id,
         client_after (run (V2.create_booking slot_id product_id resource_id
                              start_time end_time linked_product_id) e c) = c
         /\ (List.length (exchanges (run (V2.create_booking slot_id product_id
                                            resource_id start_time end_time
                                            linked_product_id) e c))
             <= 1)%nat)
  /\ (forall booking_id,
         client_after (run (V2.cancel_booking booking_id) e c) = c
         /\ (List.length (exchanges (run (V2.cancel_booking booking_id) e c)) <= 1)%nat).
Proof.
  repeat apply conj; intros;
    unfold V2.get_available_slots, V2.get_current_bookings, V2.create_booking,
      V2.cancel_booking, V2.is_logged_in, V2.api_errors, V2.len, get; quiet_run.
Qed.

End Quiet.

(** X1: the data calls of the v1 client ([get_available_slots],
    [get_current_bookings], [create_booking], [cancel_booking]) never
    write to the client and make at most one exchange with the vendor,
    whatever the vendor answers: nothing is sent a second time. *)
Theorem X1_v1_data_calls_read_only_single_shot :
  forall (e : env) (c : V1.client),
    (forall location date sub_location,
        client_after (run (V1.get_available_slots location date sub_location) e c)
        = c
        /\ (List.length (exchanges (run (V1.get_available_slots location date
                                           sub_location) e c)) <= 1)%nat)
    /\ (forall include_past,
           client_after (run (V1.get_current_bookings include_past) e c) = c
           /\ (List.length (exchanges (run (V1.get_current_bookings include_past)
                                         e c)) <= 1)%nat)
    /\ (forall location date time_slot sub_location slot_id resource_id,
           client_after (run (V1.create_booking location date time_slot
                                sub_location slot_id resource_id) e c) = c
           /\ (List.length (exchanges (run (V1.create_booking location date
                                              time_slot sub_location slot_id
                                              resource_id) e c)) <= 1)%nat)
    /\ (forall booking_id,
           client_after (run (V1.cancel_booking booking_id) e c) = c
           /\ (List.length (exchanges (run (V1.cancel_booking booking_id) e c))
               <= 1)%nat).
Proof.
  intros e c. exact (v1_data_calls_quiet e c).
Qed.

(** X19: the data calls of the v2 client ([get_available_slots],
    [get_current_bookings], [create_booking], [cancel_booking]) never
    write to the client and make at most one exchange with the vendor,
    whatever the vendor answers and also when the call raises: nothing is
    sent a second time. *)
Theorem X19_v2_data_calls_read_only_single_shot :
  forall (e : env) (c : V2.client),
    (forall location date sub_location,
        client_after (run (V2.get_available_slots location date sub_location)
                        e c) = c
        /\ (List.length (exchanges (run (V2.get_available_slots location date
                                           sub_location) e c)) <= 1)%nat)
    /\ (forall include_past,
           client_after (run (V2.get_current_bookings include_past) e c) = c
           /\ (List.length (exchanges (run (V2.get_current_bookings
                                              include_past) e c)) <= 1)%nat)
    /\ (forall slot_id product_id resource_id start_time end_time
               linked_product_id,
           client_after (run (V2.create_booking slot_id product_id resource_id
                                start_time end_time linked_product_id) e c) = c
           /\ (List.length (exchanges (run (V2.create_booking slot_id product_id
                                              resource_id start_time end_time
                                              linked_product_id) e c))
               <= 1)%nat)
    /\ (forall booking_id,
           client_after (run (V2.cancel_booking booking_id) e c) = c
           /\ (List.length (exchanges (run (V2.cancel_booking booking_id) e c))
               <= 1)%nat).
Proof.
  intros e c. exact (v2_data_calls_quiet e c).
Qed.

(* ================================================================= *)
(** ** A location outside the table never reaches the vendor *)

Section UnknownLocation.
Import Shape.
Variable e : env.
Variable location : string.
Hypothesis unknown : unknown_location location.

Lemma unknown_to_v1 : V1.location_map location = None.
Proof.
  destruct unknown as (Hf & H1 & H3). unfold V1.location_map.
  rewrite (proj2 (String.eqb_neq _ _) Hf), (proj2 (String.eqb_neq _ _) H1),
    (proj2 (String.eqb_neq _ _) H3). reflexivity.
Qed.

Lemma unknown_to_v2 : V2.product_id_of location = None.
Proof.
  destruct unknown as (Hf & H1 & H3). unfold V2.product_id_of.
  rewrite (proj2 (String.eqb_neq _ _) Hf), (proj2 (String.eqb_neq _ _) H1),
    (proj2 (String.eqb_neq _ _) H3). reflexivity.
Qed.

Lemma v1_unknown_location (c : V1.client) :
  V1.is_authenticated c = true ->
  (forall date sub_location,
      run (V1.get_available_slots location date sub_location) e c
      = (Returns (V1.failure (PStr ("Invalid location: " ++ location))), (c, [])))
  /\ (forall date time_slot sub_location slot_id resource_id,
         run (V1.create_booking location date time_slot sub_location slot_id
                resource_id) e c
         = (Returns (V1.failure (PStr ("Invalid location: " ++ location))), (c, []))).
Proof.
  intros Hauth. split; intros;
    unfold V1.get_available_slots, V1.create_booking; unfold_monad; cbn;
    rewrite Hauth, unknown_to_v1; reflexivity.
Qed.

Lemma v2_unknown_location (c : V2.client) (date : string)
  (sub_location : option string) :
  result (run V2.is_logged_in e c) = Returns true ->
  run (V2.get_available_slots location date sub_location) e c
  = (Returns (V2.failure ("Unknown location: " ++ location)), (c, [])).
Proof.
  intros Hlog. unfold V2.get_available_slots. unfold run, bind.
  rewrite v2_is_logged_in_silent, Hlog, unknown_to_v2. reflexivity.
Qed.

End UnknownLocation.

(** X2: on a logged-in client, a location other than [Fitness], [X1] and
    [X3] is turned down before anything is sent: [get_available_slots]
    and [create_booking] of v1 return the failure [Invalid location: ...],
    [get_available_slots] of v2 returns [Unknown location: ...] whatever
    the date text is, and no exchange with the vendor takes place. *)
Theorem X2_unknown_location_sends_nothing :
  forall (e : env) (location : string),
    Shape.unknown_location location ->
    (forall c : V1.client,
        V1.is_authenticated c = true ->
        (forall date sub_location,
            run (V1.get_available_slots location date sub_location) e c
            = (Returns (V1.failure (PStr ("Invalid location: " ++ location))), (c, [])))
        /\ (forall date time_slot sub_location slot_id resource_id,
               run (V1.create_booking location date time_slot sub_location slot_id
                      resource_id) e c
               = (Returns (V1.failure (PStr ("Invalid location: " ++ location))),
                  (c, []))))
    /\ (forall (c : V2.client) date sub_location,
           result (run V2.is_logged_in e c) = Returns true ->
           run (V2.get_available_slots location date sub_location) e c
           = (Returns (V2.failure ("Unknown location: " ++ location)), (c, []))).
Proof.
  intros e location Hunknown. split.
  - intros c. exact (v1_unknown_location e location Hunknown c).
  - intros c date sub_location.
    exact (v2_unknown_location e location Hunknown c date sub_location).
Qed.

(** The theorem at work: the sauna, asked of both clients, the second one
    with a date that is no date. *)
Lemma X2_witness :
  run (V1.create_booking "Sauna" "2025-11-17" "06:00" None None None)
    (Sample.world (Responds (Sample.answer 201 None))) Sample.member1
  = (Returns (V1.failure (PStr "Invalid location: Sauna")), (Sample.member1, []))
  /\ run (V2.get_available_slots "Sauna" "tomorrow" None)
       (Sample.world (Responds (Sample.answer 200 None))) (Sample.member2 (PInt 2000))
     = (Returns (V2.failure "Unknown location: Sauna"), (Sample.member2 (PInt 2000), [])).
Proof.
  assert (H : Shape.unknown_location "Sauna") by (repeat split; discriminate).
  split.
  - apply (proj1 (X2_unknown_location_sends_nothing
                    (Sample.world (Responds (Sample.answer 201 None))) "Sauna" H)
             Sample.member1 eq_refl).
  - apply (proj2 (X2_unknown_location_sends_nothing
                    (Sample.world (Responds (Sample.answer 200 None))) "Sauna" H)
             (Sample.member2 (PInt 2000)) "tomorrow" None eq_refl).
Defined.

(* ================================================================= *)
(** ** Logging out *)

Section Logout.
Import Outcome.
Variable e : env.

Lemma v1_logout_spec (c : V1.client) :
  exists rq,
    meth rq = GET
    /\ exchanges (run V1.logout e c) = [(rq, vendor e 0%nat rq)]
    /\ (forall r, vendor e 0%nat rq = Responds r ->
                  result (run V1.logout e c) = Returns true
                  /\ client_after (run V1.logout e c) = V1.init)
    /\ (forall msg, vendor e 0%nat rq = Fails msg ->
                    result (run V1.logout e c) = Returns false
                    /\ client_after (run V1.logout e c) = c).
Proof.
  exists (mkRequest GET (V1.BASE_URL ++ "/api/auth/logout") PNone).
  unfold V1.logout. unfold_monad. cbn.
  destruct (vendor e 0%nat _) as [r | msg] eqn:E; cbn;
    repeat split; intros; try discriminate; try reflexivity.
Qed.

Lemma v2_logout_spec (c : V2.client) :
  run V2.logout e c = (Returns PNone, (V2.init (V2.institution c), [])).
Proof. reflexivity. Qed.

Lemma v2_fresh_is_logged_out (e' : env) (institution : string) :
  result (run V2.is_logged_in e' (V2.init institution)) = Returns false
  /\ result (run V2.get_current_user e' (V2.init institution)) = Returns PNone.
Proof. split; reflexivity. Qed.

End Logout.

(** X3: [logout] of v1 sends one GET.  When the vendor answers it,
    whatever the status, the call returns [True] and the client is back
    to its initial state, so that every later data call is refused
    without a request; when the request fails in transport the call
    returns [False] and the client stays as it was, still authenticated
    if it was. *)
Theorem X3_v1_logout :
  forall (e : env) (c : V1.client),
    exists rq,
      meth rq = GET
      /\ exchanges (run V1.logout e c) = [(rq, vendor e 0%nat rq)]
      /\ (forall r,
             vendor e 0%nat rq = Responds r ->
             result (run V1.logout e c) = Returns true
             /\ client_after (run V1.logout e c) = V1.init
             /\ (forall e' location date sub_location,
                    Outcome.refused "error" (client_after (run V1.logout e c))
                      (run (V1.get_available_slots location date sub_location) e'
                         (client_after (run V1.logout e c))))
             /\ (forall e' location date time_slot sub_location slot_id resource_id,
                    Outcome.refused "error" (client_after (run V1.logout e c))
                      (run (V1.create_booking location date time_slot sub_location
                              slot_id resource_id) e'
                         (client_after (run V1.logout e c)))))
      /\ (forall msg,
             vendor e 0%nat rq = Fails msg ->
             result (run V1.logout e c) = Returns false
             /\ client_after (run V1.logout e c) = c).
Proof.
  intros e c. destruct (v1_logout_spec e c) as (rq & Hm & Hx & Hok & Hfail).
  exists rq. split; [exact Hm |]. split; [exact Hx |]. split; [| exact Hfail].
  intros r Hr. destruct (Hok r Hr) as [Hres Hc].
  split; [exact Hres |]. split; [exact Hc |]. rewrite Hc. split.
  - intros e' location date sub_location.
    apply (proj1 (v1_logged_out e' V1.init eq_refl)).
  - intros e' location date time_slot sub_location slot_id resource_id.
    apply (proj1 (proj2 (proj2 (v1_logged_out e' V1.init eq_refl)))).
Qed.

(** The theorem at work: the vendor answers the logout of an
    authenticated client with status 500. *)
Lemma X3_witness :
  result (run V1.logout (Sample.world (Responds (Sample.answer 500 None)))
            Sample.member1)
  = Returns true
  /\ client_after (run V1.logout (Sample.world (Responds (Sample.answer 500 None)))
                     Sample.member1)
     = V1.init.
Proof.
  destruct (X3_v1_logout (Sample.world (Responds (Sample.answer 500 None)))
              Sample.member1) as (rq & _ & _ & Hok & _).
  destruct (Hok (Sample.answer 500 None) eq_refl) as (Hres & Hc & _).
  split; assumption.
Defined.

(** X4: [logout] of v2 sends nothing and clears the token, its expiry,
    the user data and the Authorization header, keeping the institution.
    From then on, at any time, [is_logged_in] is false,
    [get_current_user] returns [None] and every data call is refused
    without a request. *)
Theorem X4_v2_logout :
  forall (e : env) (c : V2.client),
    run V2.logout e c = (Returns PNone, (V2.init (V2.institution c), []))
    /\ (forall e' : env,
           result (run V2.is_logged_in e' (client_after (run V2.logout e c)))
           = Returns false
           /\ result (run V2.get_current_user e' (client_after (run V2.logout e c)))
              = Returns PNone
           /\ (forall location date sub_location,
                  Outcome.refused "message" (client_after (run V2.logout e c))
                    (run (V2.get_available_slots location date sub_location) e'
                       (client_after (run V2.logout e c))))
           /\ (forall include_past,
                  Outcome.refused "message" (client_after (run V2.logout e c))
                    (run (V2.get_current_bookings include_past) e'
                       (client_after (run V2.logout e c))))
           /\ (forall slot_id product_id resource_id start_time end_time
                      linked_product_id,
                  Outcome.refused "message" (client_after (run V2.logout e c))
                    (run (V2.create_booking slot_id product_id resource_id start_time
                            end_time linked_product_id) e'
                       (client_after (run V2.logout e c))))
           /\ (forall booking_id,
                  Outcome.refused "message" (client_after (run V2.logout e c))
                    (run (V2.cancel_booking booking_id) e'
                       (client_after (run V2.logout e c))))).
Proof.
  intros e c. split; [reflexivity |].
  intros e'. change (client_after (run V2.logout e c)) with (V2.init (V2.institution c)).
  split; [reflexivity |]. split; [reflexivity |].
  apply (v2_logged_out e' (V2.init (V2.institution c))). reflexivity.
Qed.

(* ================================================================= *)
(** ** Logging in *)

Section Login.
Import Shape.
Variable e : env.

Lemma v1_login_returns (c : V1.client) (username password : string) :
  exists res, result (run (V1.login username password) e c) = Returns res.
Proof.
  unfold V1.login, V1.error_data_of, get, get_default. unfold_monad.
  split_run; eexists; reflexivity.
Qed.

Lemma v1_login_success (c : V1.client) (username password : string) (res : pyval) :
  result (run (V1.login username password) e c) = Returns res ->
  success_of res = Some true ->
  exists rq1 r1 rq2 r2 kv,
    exchanges (run (V1.login username password) e c)
    = [(rq1, Responds r1); (rq2, Responds r2)]
    /\ status_code r1 = 200
    /\ status_code r2 = 200
    /\ json_body r2 = Some (PDict kv)
    /\ client_after (run (V1.login username password) e c)
       = {| V1.is_authenticated := true;
            V1.current_account :=
              PDict [("username", PStr username);
                     ("user_id", entry "userId" kv);
                     ("name", entry "name" kv)] |}
    /\ field "user" res
       = Some (V1.current_account (client_after (run (V1.login username password) e c))).
Proof.
  unfold V1.login, V1.error_data_of, get, get_default, entry. unfold_monad.
  split_run; intros Hres Hok; inversion Hres; subst; try discriminate Hok;
    read_tests; do 5 eexists; repeat split; try eassumption; try reflexivity;
    put_lookups; reflexivity.
Qed.

Lemma v1_login_succeeds (c : V1.client) (username password : string)
  (r1 r2 : response) (kv : list (string * pyval)) :
  vendor e 0%nat (mkRequest GET (V1.BASE_URL ++ "/login") PNone) = Responds r1 ->
  vendor e 1%nat (mkRequest POST (V1.BASE_URL ++ "/api/auth/login")
                    (PDict [("username", PStr username); ("password", PStr password)]))
  = Responds r2 ->
  status_code r1 = 200 ->
  status_code r2 = 200 ->
  json_body r2 = Some (PDict kv) ->
  exists res,
    result (run (V1.login username password) e c) = Returns res
    /\ success_of res = Some true.
Proof.
  intros H1 H2 Hs1 Hs2 Hb. unfold V1.login. unfold_monad. cbn in *.
  rewrite H1. cbn. rewrite Hs1. cbn. rewrite H2. cbn. rewrite Hs2. cbn.
  rewrite Hb. cbn. eexists. split; reflexivity.
Qed.

(** The credentials leave only after the login page was answered 200. *)
Lemma v1_login_credentials_gate (c : V1.client) (username password : string)
  (rq : request) (o : http_outcome) :
  In (rq, o) (exchanges (run (V1.login username password) e c)) ->
  meth rq = POST ->
  exists rq1 r1,
    exchanges (run (V1.login username password) e c) = [(rq1, Responds r1); (rq, o)]
    /\ meth rq1 = GET
    /\ status_code r1 = 200.
Proof.
  unfold V1.login, V1.error_data_of, get, get_default. unfold_monad.
  split_run; intros Hin Hm; cbn in Hin;
    repeat match goal with
           | H : _ \/ _ |- _ => destruct H
           | H : False |- _ => destruct H
           | H : (_, _) = (_, _) |- _ => inversion H; subst; clear H
           end;
    try discriminate Hm; read_tests;
    do 2 eexists; repeat split; try reflexivity; assumption.
Qed.

Lemma v1_login_page_refused (c : V1.client) (username password : string)
  (r1 : response) :
  vendor e 0%nat (mkRequest GET (V1.BASE_URL ++ "/login") PNone) = Responds r1 ->
  status_code r1 <> 200 ->
  run (V1.login username password) e c
  = (Returns (V1.failure (PStr ("Failed to access login page: "
                                ++ string_of_Z (status_code r1)))),
     (c, [(mkRequest GET (V1.BASE_URL ++ "/login") PNone, Responds r1)])).
Proof.
  intros H1 Hs. unfold V1.login. unfold_monad. cbn in *. rewrite H1. cbn.
  apply Z.eqb_neq in Hs. rewrite Hs. reflexivity.
Qed.

End Login.

(** X5: [login] of v1 always returns a result.  It reports success exactly
    when the vendor answered the login page with 200 and the credentials
    with 200 and a JSON object; the client is then authenticated, its
    account holds the user name given and the [userId] and [name] of
    that object ([None] where the object has none), and the result
    carries the same account under [user]. *)
Theorem X5_v1_login_success :
  forall (e : env) (c : V1.client) (username password : string),
    (exists res, result (run (V1.login username password) e c) = Returns res)
    /\ (forall res,
           result (run (V1.login username password) e c) = Returns res ->
           success_of res = Some true ->
           exists rq1 r1 rq2 r2 kv,
             exchanges (run (V1.login username password) e c)
             = [(rq1, Responds r1); (rq2, Responds r2)]
             /\ status_code r1 = 200
             /\ status_code r2 = 200
             /\ json_body r2 = Some (PDict kv)
             /\ client_after (run (V1.login username password) e c)
                = {| V1.is_authenticated := true;
                     V1.current_account :=
                       PDict [("username", PStr username);
                              ("user_id", Shape.entry "userId" kv);
                              ("name", Shape.entry "name" kv)] |}
             /\ field "user" res
                = Some (V1.current_account
                          (client_after (run (V1.login username password) e c))))
    /\ (forall r1 r2 kv,
           vendor e 0%nat (mkRequest GET (V1.BASE_URL ++ "/login") PNone)
           = Responds r1 ->
           vendor e 1%nat
             (mkRequest POST (V1.BASE_URL ++ "/api/auth/login")
                (PDict [("username", PStr username); ("password", PStr password)]))
           = Responds r2 ->
           status_code r1 = 200 ->
           status_code r2 = 200 ->
           json_body r2 = Some (PDict kv) ->
           exists res,
             result (run (V1.login username password) e c) = Returns res
             /\ success_of res = Some true).
Proof.
  intros e c username password. split; [| split].
  - apply v1_login_returns.
  - apply v1_login_success.
  - apply v1_login_succeeds.
Qed.

(** The theorem at work: the vendor answers both requests with 200 and an
    object that names the user. *)
Lemma X5_witness :
  exists res,
    result (run (V1.login "u" "p")
              (Sample.world
                 (Responds (Sample.answer 200
                              (Some (PDict [("userId", PInt 7); ("name", PStr "U")])))))
              V1.init)
    = Returns res
    /\ success_of res = Some true.
Proof.
  apply (proj2 (proj2 (X5_v1_login_success
                         (Sample.world
                            (Responds (Sample.answer 200
                                         (Some (PDict [("userId", PInt 7);
                                                       ("name", PStr "U")])))))
                         V1.init "u" "p"))
           (Sample.answer 200 (Some (PDict [("userId", PInt 7); ("name", PStr "U")])))
           (Sample.answer 200 (Some (PDict [("userId", PInt 7); ("name", PStr "U")])))
           [("userId", PInt 7); ("name", PStr "U")]);
    reflexivity.
Defined.

(** X6: [login] of v1 sends the credentials only after the login page was
    answered with status 200: a POST among the exchanges of the call is
    the second of two, after a GET answered 200.  When the login page is
    answered with another status the call stops there, returns the
    failure [Failed to access login page: ...] and leaves the client as
    it was. *)
Theorem X6_v1_login_credentials_gate :
  forall (e : env) (c : V1.client) (username password : string),
    (forall rq o,
        In (rq, o) (exchanges (run (V1.login username password) e c)) ->
        meth rq = POST ->
        exists rq1 r1,
          exchanges (run (V1.login username password) e c)
          = [(rq1, Responds r1); (rq, o)]
          /\ meth rq1 = GET
          /\ status_code r1 = 200)
    /\ (forall r1,
           vendor e 0%nat (mkRequest GET (V1.BASE_URL ++ "/login") PNone)
           = Responds r1 ->
           status_code r1 <> 200 ->
           run (V1.login username password) e c
           = (Returns (V1.failure (PStr ("Failed to access login page: "
                                         ++ string_of_Z (status_code r1)))),
              (c, [(mkRequest GET (V1.BASE_URL ++ "/login") PNone, Responds r1)]))).
Proof.
  intros e c username password. split.
  - apply v1_login_credentials_gate.
  - apply v1_login_page_refused.
Qed.

(** The theorem at work: the login page is answered with status 503. *)
Lemma X6_witness :
  run (V1.login "u" "p") (Sample.world (Responds (Sample.answer 503 None))) V1.init
  = (Returns (V1.failure (PStr "Failed to access login page: 503")),
     (V1.init, [(mkRequest GET (V1.BASE_URL ++ "/login") PNone,
                 Responds (Sample.answer 503 None))])).
Proof.
  apply (proj2 (X6_v1_login_credentials_gate
                  (Sample.world (Responds (Sample.answer 503 None))) V1.init "u" "p")
           (Sample.answer 503 None) eq_refl).
  cbn. lia.
Defined.

(* ================================================================= *)
(** ** The two clients name the same products and resources *)

Section Tables.

Lemma same_products (location : string) :
  V1.location_map location = option_map string_of_Z (V2.product_id_of location).
Proof.
  unfold V1.location_map, V2.product_id_of.
  destruct (String.eqb location "Fitness"); [reflexivity |].
  destruct (String.eqb location "X1"); [reflexivity |].
  destruct (String.eqb location "X3"); reflexivity.
Qed.

Lemma same_resources (location sub_location : string) :
  V1.resource_map location sub_location
  = match V2.resources_of location with
    | Some resources => option_map str (lookup sub_location resources)
    | None => None
    end.
Proof.
  unfold V1.resource_map, V2.resources_of.
  destruct (String.eqb location "X1").
  - cbn. destruct (String.eqb sub_location "A"); [reflexivity |].
    destruct (String.eqb sub_location "B"); reflexivity.
  - destruct (String.eqb location "X3"); [| reflexivity].
    cbn. destruct (String.eqb sub_location "A"); [reflexivity |].
    destruct (String.eqb sub_location "B"); reflexivity.
Qed.

(** The resource filter of a v1 request, and that of a v2 request *)
Lemma same_resource_filter (e : env) (product1 : string) (product2 : Z)
  (date : string) (d : Datetime.date) (location : string)
  (sub_location : option string) (resource : string) :
  field "resourceId" (V1.slots_params product1 date location sub_location)
  = Some (PStr resource)
  <-> exists id,
      field "resourceIds" (V2.search_query e product2 d location sub_location)
      = Some (PDict [("$in", PList [PInt id])])
      /\ resource = string_of_Z id.
Proof.
  unfold V1.slots_params, V2.search_query, V1.given, V2.truthy_opt.
  destruct sub_location as [sub |]; cbn.
  2: { split; [discriminate | intros (id & H & _); discriminate H]. }
  rewrite same_resources. unfold V2.resources_of.
  destruct (negb (String.eqb sub EmptyString)); cbn.
  2: { destruct (String.eqb location "X1"); cbn;
       [split; [discriminate | intros (id & H & _); discriminate H] |].
       destruct (String.eqb location "X3"); cbn;
         split; try discriminate; intros (id & H & _); discriminate H. }
  destruct (String.eqb location "X1"); cbn.
  - destruct (String.eqb sub "A"); cbn.
    + split; [intros H; inversion H; exists 4; split; reflexivity
             | intros (id & H & ->); inversion H; reflexivity].
    + destruct (String.eqb sub "B"); cbn.
      * split; [intros H; inversion H; exists 5; split; reflexivity
               | intros (id & H & ->); inversion H; reflexivity].
      * split; [discriminate | intros (id & H & _); discriminate H].
  - destruct (String.eqb location "X3"); cbn.
    + destruct (String.eqb sub "A"); cbn.
      * split; [intros H; inversion H; exists 16534; split; reflexivity
               | intros (id & H & ->); inversion H; reflexivity].
      * destruct (String.eqb sub "B"); cbn.
        -- split; [intros H; inversion H; exists 16535; split; reflexivity
                  | intros (id & H & ->); inversion H; reflexivity].
        -- split; [discriminate | intros (id & H & _); discriminate H].
    + split; [discriminate | intros (id & H & _); discriminate H].
Qed.

End Tables.

(** X7: the tables of the two clients agree.  A location has a product in
    v1 exactly when it has one in v2, and the v1 identifier is the decimal
    text of the v2 number; the same holds of the resource of a
    sub-location.  So the [resourceId] that [get_available_slots] of v1
    sends and the [resourceIds] filter that v2 sends name the same
    resource, and one is present exactly when the other is: only for
    sub-location A or B of X1 or X3.  Any other sub-location is dropped
    without an error. *)
Theorem X7_product_and_resource_tables_agree :
  (forall location,
      V1.location_map location = option_map string_of_Z (V2.product_id_of location))
  /\ (forall location sub_location,
         V1.resource_map location sub_location
         = match V2.resources_of location with
           | Some resources => option_map str (lookup sub_location resources)
           | None => None
           end)
  /\ (forall e product1 product2 date d location sub_location resource,
         field "resourceId" (V1.slots_params product1 date location sub_location)
         = Some (PStr resource)
         <-> exists id,
             field "resourceIds" (V2.search_query e product2 d location sub_location)
             = Some (PDict [("$in", PList [PInt id])])
             /\ resource = string_of_Z id)
  /\ (forall product date location sub_location resource,
         field "resourceId" (V1.slots_params product date location sub_location)
         = Some (PStr resource) ->
         (location = "X1" \/ location = "X3")
         /\ (sub_location = Some "A" \/ sub_location = Some "B")).
Proof.
  split; [exact same_products |]. split; [exact same_resources |].
  split; [exact same_resource_filter |].
  intros product date location sub_location resource.
  unfold V1.slots_params, V1.given, V1.resource_map.
  destruct sub_location as [sub |]; cbn; [| discriminate].
  destruct (negb (String.eqb sub EmptyString)); cbn; [| discriminate].
  destruct (String.eqb location "X1") eqn:E1; cbn.
  - apply String.eqb_eq in E1.
    destruct (String.eqb sub "A") eqn:Ea; cbn.
    + apply String.eqb_eq in Ea. subst. auto.
    + destruct (String.eqb sub "B") eqn:Eb; cbn; [| discriminate].
      apply String.eqb_eq in Eb. subst. auto.
  - destruct (String.eqb location "X3") eqn:E3; cbn; [| discriminate].
    apply String.eqb_eq in E3.
    destruct (String.eqb sub "A") eqn:Ea; cbn.
    + apply String.eqb_eq in Ea. subst. auto.
    + destruct (String.eqb sub "B") eqn:Eb; cbn; [| discriminate].
      apply String.eqb_eq in Eb. subst. auto.
Qed.

(** The theorem at work: the request for X3 B carries resource 16535. *)
Lemma X7_witness :
  field "resourceId" (V1.slots_params "20047" "2025-11-17" "X3" (Some "B"))
  = Some (PStr "16535")
  /\ ("X3" = "X1" \/ "X3" = "X3")
  /\ (Some "B" = Some "A" \/ Some "B" = Some "B").
Proof.
  split; [reflexivity |].
  apply (proj2 (proj2 (proj2 X7_product_and_resource_tables_agree))
           "20047" "2025-11-17" "X3" (Some "B") "16535").
  reflexivity.
Defined.

(* ================================================================= *)
(** ** Listing the bookings of an account (v1) *)

Section Bookings.
Import Outcome Shape.

Lemma each_length {A B : Type} (f : A -> outcome B) (l : list A) :
  forall l', each f l = Returns l' -> List.length l' = List.length l.
Proof.
  induction l as [| x rest IH]; intros l' H; cbn in H.
  - inversion H. reflexivity.
  - destruct (f x) as [y | x0]; cbn in H; [| discriminate].
    destruct (each f rest) as [ys | x0]; cbn in H; [| discriminate].
    inversion H. cbn. f_equal. apply IH. reflexivity.
Qed.

Lemma each_image {A B : Type} (f : A -> outcome B) (l : list A) :
  forall l' y, each f l = Returns l' -> In y l' -> exists x, In x l /\ f x = Returns y.
Proof.
  induction l as [| x rest IH]; intros l' y H Hy; cbn in H.
  - inversion H; subst. destruct Hy.
  - destruct (f x) as [y0 | x0] eqn:Ex; cbn in H; [| discriminate].
    destruct (each f rest) as [ys | x0]; cbn in H; [| discriminate].
    inversion H; subst. destruct Hy as [<- | Hy].
    + exists x. split; [left; reflexivity | exact Ex].
    + destruct (IH ys y eq_refl Hy) as (x' & Hin & Hx').
      exists x'. split; [right; exact Hin | exact Hx'].
Qed.

Lemma parse_sub_location_values (description v : pyval) :
  V1._parse_sub_location description = Returns v -> sub_location_value v.
Proof.
  unfold V1._parse_sub_location, sub_location_value.
  destruct (negb (truthy description)); [intros H; inversion H; auto |].
  destruct (contains " A" description) as [[|] | x]; cbn;
    [intros H; inversion H; auto | | discriminate].
  destruct (contains " B" description) as [[|] | x]; cbn;
    [intros H; inversion H; auto | intros H; inversion H; auto | discriminate].
Qed.

(** On a text, [_parse_sub_location] looks for [" A"] first. *)
Lemma parse_sub_location_text (s : string) :
  V1._parse_sub_location (PStr s)
  = Returns (if substring_of " A" s then PStr "A"
             else if substring_of " B" s then PStr "B"
             else PNone).
Proof.
  unfold V1._parse_sub_location. cbn.
  destruct s as [| a s'].
  - reflexivity.
  - cbn -[substring_of]. destruct (substring_of " A" (String a s')); [reflexivity |].
    cbn -[substring_of]. destruct (substring_of " B" (String a s')); reflexivity.
Qed.

Lemma parse_booking_shape (booking b : pyval) :
  V1.parse_booking booking = Returns b ->
  exists kv v,
    booking = PDict kv
    /\ field "status" b = Some (PStr "confirmed")
    /\ field "id" b = Some (entry "id" kv)
    /\ field "booking_id" b = Some (entry "id" kv)
    /\ field "location" b = Some (entry "productDescription" kv)
    /\ field "sub_location" b = Some v
    /\ sub_location_value v.
Proof.
  unfold V1.parse_booking, get, get_default, entry.
  destruct booking as [| | | | | kv]; cbn; try discriminate.
  destruct (V1._parse_sub_location
              match lookup "productDescription" kv with
              | Some x => x
              | None => PNone
              end) as [v | x] eqn:Ev; cbn; [| discriminate].
  intros H. inversion H; subst. exists kv, v. repeat split.
  exact (parse_sub_location_values _ v Ev).
Qed.

Variable e : env.
Local Opaque each V1.parse_booking iterate get_default.

Lemma v1_get_current_bookings_spec (c : V1.client) (include_past : bool) :
  exists res,
    result (run (V1.get_current_bookings include_past) e c) = Returns res
    /\ (reports_failure "error" res
        \/ (success_of res = Some true
            /\ exists r data listed items bookings,
                answered (exchanges (run (V1.get_current_bookings include_past) e c))
                  (mkRequest GET (V1.BASE_URL ++ "/api/bookings/my-bookings")
                     (PDict (if include_past then []
                             else [("from", PStr (today e))])))
                  r
                /\ status_code r = 200
                /\ json_body r = Some data
                /\ get_default data "bookings" (PList []) = Returns listed
                /\ iterate listed = Returns items
                /\ each V1.parse_booking items = Returns bookings
                /\ field "bookings" res = Some (PList bookings)
                /\ field "count" res = Some (PInt (Z.of_nat (List.length items))))).
Proof.
  unfold V1.get_current_bookings, answered, reports_failure. unfold_monad.
  split_run; by_status;
    (eexists; split; [reflexivity |]);
    try (left; split; [reflexivity | eexists; reflexivity]);
    right; (split; [reflexivity |]);
    match goal with
    | Hb : json_body ?r = Some ?data,
      Hl : get_default ?data _ _ = Returns ?listed,
      Hi : iterate ?listed = Returns ?items,
      He : each _ ?items = Returns ?bookings |- _ =>
        exists r, data, listed, items, bookings;
        repeat split; try assumption; try reflexivity;
        cbn; rewrite (each_length _ _ _ He); reflexivity
    end.
Qed.

End Bookings.

(** X8: [get_current_bookings] of v1 always returns a result.  It either
    reports a failure, or reports success after one GET of the bookings
    (with [from] set to today unless past bookings are asked for) that the
    vendor answered with 200 and a JSON body; [count] is then the number
    of entries the vendor listed under [bookings] (none when the key is
    missing), and every booking returned comes from a JSON object, is
    marked [confirmed], carries the vendor's [id] both as [id] and as
    [booking_id], and has [None], [A] or [B] as its sub-location. *)
Theorem X8_v1_get_current_bookings :
  forall (e : env) (c : V1.client) (include_past : bool),
    exists res,
      result (run (V1.get_current_bookings include_past) e c) = Returns res
      /\ (Outcome.reports_failure "error" res
          \/ (success_of res = Some true
              /\ exists r data listed items bookings,
                  Outcome.answered
                    (exchanges (run (V1.get_current_bookings include_past) e c))
                    (mkRequest GET (V1.BASE_URL ++ "/api/bookings/my-bookings")
                       (PDict (if include_past then []
                               else [("from", PStr (today e))])))
                    r
                  /\ status_code r = 200
                  /\ json_body r = Some data
                  /\ get_default data "bookings" (PList []) = Returns listed
                  /\ iterate listed = Returns items
                  /\ field "bookings" res = Some (PList bookings)
                  /\ field "count" res = Some (PInt (Z.of_nat (List.length items)))
                  /\ List.length bookings = List.length items
                  /\ (forall b,
                         In b bookings ->
                         exists booking kv v,
                           In booking items
                           /\ booking = PDict kv
                           /\ field "status" b = Some (PStr "confirmed")
                           /\ field "id" b = Some (Shape.entry "id" kv)
                           /\ field "booking_id" b = Some (Shape.entry "id" kv)
                           /\ field "sub_location" b = Some v
                           /\ Shape.sub_location_value v))).
Proof.
  intros e c include_past.
  destruct (v1_get_current_bookings_spec e c include_past)
    as (res & Hres & [Hfail | (Hok & r & data & listed & items & bookings & H)]).
  - exists res. split; [exact Hres |]. left. exact Hfail.
  - destruct H as (Hx & Hs & Hb & Hl & Hi & He & Hf & Hc).
    exists res. split; [exact Hres |]. right. split; [exact Hok |].
    exists r, data, listed, items, bookings.
    repeat (split; [assumption |]). split.
    + exact (each_length _ _ _ He).
    + intros b Hin.
      destruct (each_image _ _ _ b He Hin) as (booking & Hbin & Hp).
      destruct (parse_booking_shape booking b Hp)
        as (kv & v & -> & Hst & Hid & Hbid & _ & Hsub & Hv).
      exists (PDict kv), kv, v. repeat split; assumption.
Qed.

(* ================================================================= *)
(** ** When a booking counts as created *)

Section Created.
Import Outcome Shape.
Variable e : env.

Local Opaque V1.booking_data V2.booking_payload.

Lemma v1_create_booking_success (c : V1.client) (location date time_slot : string)
  (sub_location slot_id resource_id : option string) :
  exists res,
    result (run (V1.create_booking location date time_slot sub_location slot_id
                   resource_id) e c) = Returns res
    /\ (success_of res = Some true ->
        exists rq r kv,
          answered (exchanges (run (V1.create_booking location date time_slot
                                      sub_location slot_id resource_id) e c)) rq r
          /\ (status_code r = 200 \/ status_code r = 201)
          /\ json_body r = Some (PDict kv)
          /\ field "booking" res
             = Some (PDict [("id", entry "id" kv); ("booking_id", entry "id" kv);
                            ("date", PStr date); ("time", PStr time_slot);
                            ("location", PStr location);
                            ("sub_location", opt_str sub_location)]))
    /\ (forall rq r,
           In (rq, Responds r)
             (exchanges (run (V1.create_booking location date time_slot sub_location
                                slot_id resource_id) e c)) ->
           status_code r = 200 \/ status_code r = 201 ->
           (forall kv, json_body r = Some (PDict kv) -> success_of res = Some true)
           /\ ((forall kv, json_body r <> Some (PDict kv)) ->
               reports_failure "error" res)).
Proof.
  unfold V1.create_booking, V1.error_data_of, get, get_default, answered,
    reports_failure, entry. unfold_monad.
  split_run; read_tests;
    (eexists; split; [reflexivity |]; split);
    try (intros Hok; discriminate Hok);
    try (intros _; do 3 eexists; repeat split; try eassumption; try reflexivity;
         try (left; assumption); try (right; assumption);
         put_lookups; reflexivity);
    one_exchange; read_tests; try reflexivity; try congruence;
    try (eexists; reflexivity);
    try (exfalso; eauto; fail);
    try (split;
         [ intros ? Hkv; first [reflexivity | congruence]
         | intros Hno;
           first [ split; [reflexivity | eexists; reflexivity]
                 | exfalso; eapply Hno; eassumption ] ]).
Qed.

Lemma v2_create_booking_success (c : V2.client)
  (slot_id product_id resource_id start_time end_time linked_product_id res : pyval) :
  result (run (V2.create_booking slot_id product_id resource_id start_time end_time
                 linked_product_id) e c) = Returns res ->
  (success_of res = Some true ->
   exists rq r kv,
     answered (exchanges (run (V2.create_booking slot_id product_id resource_id
                                 start_time end_time linked_product_id) e c)) rq r
     /\ ~ http_error (status_code r)
     /\ json_body r = Some (PDict kv)
     /\ field "booking_id" res = Some (entry "id" kv)
     /\ field "data" res = Some (PDict kv)
     /\ field "memberId" (payload rq) = Some (entry "id" (match V2.user_data c with
                                                           | PDict u => u
                                                           | _ => []
                                                           end))
     /\ field "bookingId" (payload rq) = Some slot_id)
  /\ (forall rq r,
         In (rq, Responds r)
           (exchanges (run (V2.create_booking slot_id product_id resource_id
                              start_time end_time linked_product_id) e c)) ->
         ~ http_error (status_code r) ->
         (forall kv, json_body r = Some (PDict kv) -> success_of res = Some true)
         /\ ((forall kv, json_body r <> Some (PDict kv)) ->
             reports_failure "message" res)).
Proof.
  Local Transparent V2.booking_payload.
  unfold V2.create_booking, V2.is_logged_in, V2.api_errors, get, get_default,
    answered, reports_failure, http_error, entry, V2.booking_payload.
  unfold_monad.
  split_run; read_tests; intros Hres; inversion Hres; subst; clear Hres;
    split;
    try (intros Hok; discriminate Hok);
    try (intros _; do 3 eexists; repeat split; try eassumption; try reflexivity;
         try lia; put_lookups; reflexivity);
    one_exchange; read_tests; try reflexivity; try congruence;
    try (eexists; reflexivity);
    try (exfalso; eauto; fail);
    try (exfalso; match goal with H : ~ _ |- _ => apply H; lia end);
    try (split;
         [ intros ? Hkv; first [reflexivity | congruence]
         | intros Hno;
           first [ split; [reflexivity | eexists; reflexivity]
                 | exfalso; eapply Hno; eassumption ] ]).
Qed.

End Created.

(** X9: [create_booking] of v1 always returns a result, and reports
    success only after one exchange that the vendor answered with 200 or
    201 and a JSON object; the booking reference returned is the [id] of
    that object ([None] when it has none), with the date, time and
    location asked for.  An answer 200 or 201 whose body is not a JSON
    object is reported as a failure, although the vendor accepted the
    request. *)
Theorem X9_v1_create_booking_success :
  forall (e : env) (c : V1.client) (location date time_slot : string)
         (sub_location slot_id resource_id : option string),
    exists res,
      result (run (V1.create_booking location date time_slot sub_location slot_id
                     resource_id) e c) = Returns res
      /\ (success_of res = Some true ->
          exists rq r kv,
            Outcome.answered
              (exchanges (run (V1.create_booking location date time_slot
                                 sub_location slot_id resource_id) e c)) rq r
            /\ (status_code r = 200 \/ status_code r = 201)
            /\ json_body r = Some (PDict kv)
            /\ field "booking" res
               = Some (PDict [("id", Shape.entry "id" kv);
                              ("booking_id", Shape.entry "id" kv);
                              ("date", PStr date); ("time", PStr time_slot);
                              ("location", PStr location);
                              ("sub_location", opt_str sub_location)]))
      /\ (forall rq r,
             In (rq, Responds r)
               (exchanges (run (V1.create_booking location date time_slot
                                  sub_location slot_id resource_id) e c)) ->
             status_code r = 200 \/ status_code r = 201 ->
             (forall kv, json_body r = Some (PDict kv) -> success_of res = Some true)
             /\ ((forall kv, json_body r <> Some (PDict kv)) ->
                 Outcome.reports_failure "error" res)).
Proof.
  intros e c location date time_slot sub_location slot_id resource_id.
  exact (v1_create_booking_success e c location date time_slot sub_location slot_id
           resource_id).
Qed.

(** The theorem at work: the vendor answers the booking with 201 and no
    body. *)
Lemma X9_witness :
  exists res,
    result (run (V1.create_booking "Fitness" "2025-11-17" "06:00" None None None)
              (Sample.world (Responds (Sample.answer 201 None))) Sample.member1)
    = Returns res
    /\ Outcome.reports_failure "error" res.
Proof.
  destruct (X9_v1_create_booking_success
              (Sample.world (Responds (Sample.answer 201 None))) Sample.member1
              "Fitness" "2025-11-17" "06:00" None None None)
    as (res & Hres & _ & Hanswer).
  exists res. split; [exact Hres |].
  apply (Hanswer (mkRequest POST (V1.BASE_URL ++ "/api/bookings")
                    (V1.booking_data "20061" "2025-11-17" "06:00" None None))
           (Sample.answer 201 None)).
  - left. reflexivity.
  - right. reflexivity.
  - intros kv H. discriminate H.
Defined.

(** X10: when [create_booking] of v2 returns a success, it made one
    exchange that the vendor answered with a status outside 400-599 and a
    JSON object; the request carried the member's id as [memberId] and
    the slot as [bookingId], and the result gives the [id] of the object
    as [booking_id] and the object as [data].  An answer outside 400-599
    whose body is not a JSON object is reported as a failure. *)
Theorem X10_v2_create_booking_success :
  forall (e : env) (c : V2.client)
         (slot_id product_id resource_id start_time end_time linked_product_id
            res : pyval),
    result (run (V2.create_booking slot_id product_id resource_id start_time
                   end_time linked_product_id) e c) = Returns res ->
    (success_of res = Some true ->
     exists rq r kv,
       Outcome.answered
         (exchanges (run (V2.create_booking slot_id product_id resource_id
                            start_time end_time linked_product_id) e c)) rq r
       /\ ~ Outcome.http_error (status_code r)
       /\ json_body r = Some (PDict kv)
       /\ field "booking_id" res = Some (Shape.entry "id" kv)
       /\ field "data" res = Some (PDict kv)
       /\ field "memberId" (payload rq)
          = Some (Shape.entry "id" (match V2.user_data c with
                                    | PDict u => u
                                    | _ => []
                                    end))
       /\ field "bookingId" (payload rq) = Some slot_id)
    /\ (forall rq r,
           In (rq, Responds r)
             (exchanges (run (V2.create_booking slot_id product_id resource_id
                                start_time end_time linked_product_id) e c)) ->
           ~ Outcome.http_error (status_code r) ->
           (forall kv, json_body r = Some (PDict kv) -> success_of res = Some true)
           /\ ((forall kv, json_body r <> Some (PDict kv)) ->
               Outcome.reports_failure "message" res)).
Proof.
  intros e c slot_id product_id resource_id start_time end_time linked_product_id res.
  exact (v2_create_booking_success e c slot_id product_id resource_id start_time
           end_time linked_product_id res).
Qed.

(** The theorem at work: the vendor answers 201 with the new
    participation 77. *)
Lemma X10_witness :
  exists rq r kv,
    Outcome.answered
      (exchanges (run (V2.create_booking (PInt 42) (PInt 20061) PNone PNone PNone PNone)
                    (Sample.world (Responds (Sample.answer 201
                                               (Some (PDict [("id", PInt 77)])))))
                    (Sample.member2 (PInt 2000)))) rq r
    /\ ~ Outcome.http_error (status_code r)
    /\ json_body r = Some (PDict kv)
    /\ Shape.entry "id" kv = PInt 77
    /\ field "memberId" (payload rq) = Some (PInt 7).
Proof.
  destruct (proj1 (X10_v2_create_booking_success
                     (Sample.world (Responds (Sample.answer 201
                                                (Some (PDict [("id", PInt 77)])))))
                     (Sample.member2 (PInt 2000))
                     (PInt 42) (PInt 20061) PNone PNone PNone PNone
                     (PDict [("success", PBool true); ("booking_id", PInt 77);
                             ("message", PStr "Booking created successfully");
                             ("data", PDict [("id", PInt 77)])])
                     eq_refl) eq_refl)
    as (rq & r & kv & Hx & Hs & Hb & Hid & _ & Hm & _).
  exists rq, r, kv. repeat split; try assumption.
  - cbn in Hid. inversion Hid. reflexivity.
Defined.

(* ================================================================= *)
(** ** The member id of the v2 client *)

Section MemberId.
Import Outcome Shape.
Variable e : env.

Local Opaque V2.booking_payload.

Lemma v2_without_member_id (c : V2.client) (kv : list (string * pyval)) :
  result (run V2.is_logged_in e c) = Returns true ->
  V2.user_data c = PDict kv ->
  truthy (entry "id" kv) = false ->
  (forall include_past,
      run (V2.get_current_bookings include_past) e c
      = (Returns (V2.failure "User ID not available"), (c, [])))
  /\ (forall slot_id product_id resource_id start_time end_time linked_product_id,
         run (V2.create_booking slot_id product_id resource_id start_time end_time
                linked_product_id) e c
         = (Returns (V2.failure "User ID not available"), (c, []))).
Proof.
  intros Hlog Hu Hid. split; intros;
    unfold V2.get_current_bookings, V2.create_booking; unfold run, bind;
    rewrite v2_is_logged_in_silent, Hlog; unfold_monad; cbn; rewrite Hu; cbn;
    unfold entry in Hid; rewrite Hid; reflexivity.
Qed.

Lemma v2_without_user_object (c : V2.client) :
  result (run V2.is_logged_in e c) = Returns true ->
  ~ is_object (V2.user_data c) ->
  (forall include_past,
      run (V2.get_current_bookings include_past) e c
      = (Raises (no_attribute (V2.user_data c) "get"), (c, [])))
  /\ (forall slot_id product_id resource_id start_time end_time linked_product_id,
         run (V2.create_booking slot_id product_id resource_id start_time end_time
                linked_product_id) e c
         = (Raises (no_attribute (V2.user_data c) "get"), (c, []))).
Proof.
  intros Hlog Hu. split; intros;
    unfold V2.get_current_bookings, V2.create_booking; unfold run, bind;
    rewrite v2_is_logged_in_silent, Hlog; unfold_monad; cbn;
    destruct (V2.user_data c) eqn:E; try reflexivity;
    exfalso; apply Hu; eexists; reflexivity.
Qed.

End MemberId.

(** X11: [get_current_bookings] and [create_booking] of v2 need the
    member's id.  On a logged-in client whose user data is an object
    without [id], or with an [id] that is falsy (null, 0, empty), both
    return the failure [User ID not available] and send nothing.  On a
    logged-in client whose user data is not an object (a login that
    failed after storing a null member leaves one) both raise
    [AttributeError] to the caller, again without a request. *)
Theorem X11_v2_member_id_required :
  forall (e : env) (c : V2.client),
    result (run V2.is_logged_in e c) = Returns true ->
    (forall kv,
        V2.user_data c = PDict kv ->
        truthy (Shape.entry "id" kv) = false ->
        (forall include_past,
            run (V2.get_current_bookings include_past) e c
            = (Returns (V2.failure "User ID not available"), (c, [])))
        /\ (forall slot_id product_id resource_id start_time end_time
                   linked_product_id,
               run (V2.create_booking slot_id product_id resource_id start_time
                      end_time linked_product_id) e c
               = (Returns (V2.failure "User ID not available"), (c, []))))
    /\ (~ Shape.is_object (V2.user_data c) ->
        (forall include_past,
            run (V2.get_current_bookings include_past) e c
            = (Raises (no_attribute (V2.user_data c) "get"), (c, [])))
        /\ (forall slot_id product_id resource_id start_time end_time
                   linked_product_id,
               run (V2.create_booking slot_id product_id resource_id start_time
                      end_time linked_product_id) e c
               = (Raises (no_attribute (V2.user_data c) "get"), (c, [])))).
Proof.
  intros e c Hlog. split.
  - intros kv. exact (v2_without_member_id e c kv Hlog).
  - exact (v2_without_user_object e c Hlog).
Qed.

(** The theorem at work: the client a login leaves behind when the
    browser storage has a token and a null member, asked for its
    bookings. *)
Lemma X11_witness :
  run (V2.get_current_bookings false)
    (Sample.world (Responds (Sample.answer 200 None)))
    (client_after (run (V2.login_and_get_token "u" "p")
                     (Sample.login_world (Fails "offline")
                        (LocalStorage (Some Sample.no_member_item)))
                     (V2.init "tudelft")))
  = (Raises (Exn AttributeError "'NoneType' object has no attribute 'get'"),
     (client_after (run (V2.login_and_get_token "u" "p")
                      (Sample.login_world (Fails "offline")
                         (LocalStorage (Some Sample.no_member_item)))
                      (V2.init "tudelft")),
      [])).
Proof.
  apply (proj2 (X11_v2_member_id_required
                  (Sample.world (Responds (Sample.answer 200 None)))
                  (client_after (run (V2.login_and_get_token "u" "p")
                                   (Sample.login_world (Fails "offline")
                                      (LocalStorage (Some Sample.no_member_item)))
                                   (V2.init "tudelft")))
                  eq_refl)).
  intros [kv H]. discriminate H.
Defined.

(* ================================================================= *)
(** ** What a login of the v2 client leaves behind *)

Section TokenLogin.
Import Outcome Shape.
Variable e : env.

Lemma get_needs_object (v x : pyval) (k : string) :
  get v k = Returns x -> is_object v.
Proof.
  destruct v; cbn; try discriminate. intros _. eexists. reflexivity.
Qed.

Local Opaque item contains add get_default get str.

Lemma v2_login_success (c : V2.client) (username password : string) (res : pyval) :
  result (run (V2.login_and_get_token username password) e c) = Returns res ->
  success_of res = Some true ->
  exists auth_data token_response token issued_at expires_in expires_at member,
    browser e = LocalStorage (Some (JsonText auth_data))
    /\ item auth_data "tokenResponse" = Returns token_response
    /\ item token_response "accessToken" = Returns token
    /\ get_default token_response "issuedAt" (PInt 0) = Returns issued_at
    /\ get_default token_response "expiresIn" (PInt 86400) = Returns expires_in
    /\ add issued_at expires_in = Returns expires_at
    /\ get_default auth_data "member" (PDict []) = Returns member
    /\ is_object member
    /\ run (V2.login_and_get_token username password) e c
       = (Returns (PDict [("success", PBool true);
                          ("message", PStr "Successfully authenticated");
                          ("token", token);
                          ("user", member)]),
          ({| V2.institution := V2.institution c;
              V2.access_token := token;
              V2.token_expires_at := expires_at;
              V2.user_data := member;
              V2.authorization := Some ("Bearer " ++ str token) |},
           [])).
Proof.
  unfold V2.login_and_get_token, V2.finally_quit, V2.read_token, V2.has_token,
    V2.loads, V2.print, V2.no_text. unfold_monad.
  split_run; intros Hres Hok; inversion Hres; subst; clear Hres;
    try discriminate Hok;
    match goal with
    | Ht : item ?auth "tokenResponse" = Returns ?tr,
      Ha : item ?tr "accessToken" = Returns ?tok,
      Hi : get_default ?tr "issuedAt" _ = Returns ?issued,
      Hx : get_default ?tr "expiresIn" (PInt 86400) = Returns ?expires,
      Hs : add ?issued ?expires = Returns ?sum,
      Hm : get_default ?auth "member" _ = Returns ?member,
      Hf : get ?member "firstName" = Returns _ |- _ =>
        exists auth, tr, tok, issued, expires, sum, member;
        repeat split; try assumption; try reflexivity;
        exact (get_needs_object _ _ _ Hf)
    end.
Qed.

End TokenLogin.

(** X12: when [login_and_get_token] of v2 reports success, the browser
    storage held a JSON text with a [tokenResponse] that has an
    [accessToken]; the client then holds that token, the sum of
    [issuedAt] (0 when missing) and [expiresIn] (86400 when missing) as
    its expiry, the [member] object (an empty one when missing) as user
    data and, as Authorization header, [Bearer] followed by the token as an
    f-string writes it: a text as it is, any other value as its [repr];
    the result carries the same token and user, and no request was made
    through the session. *)
Theorem X12_v2_login_success :
  forall (e : env) (c : V2.client) (username password : string) (res : pyval),
    result (run (V2.login_and_get_token username password) e c) = Returns res ->
    success_of res = Some true ->
    exists auth_data token_response token issued_at expires_in expires_at member,
      browser e = LocalStorage (Some (JsonText auth_data))
      /\ item auth_data "tokenResponse" = Returns token_response
      /\ item token_response "accessToken" = Returns token
      /\ get_default token_response "issuedAt" (PInt 0) = Returns issued_at
      /\ get_default token_response "expiresIn" (PInt 86400) = Returns expires_in
      /\ add issued_at expires_in = Returns expires_at
      /\ get_default auth_data "member" (PDict []) = Returns member
      /\ Shape.is_object member
      /\ run (V2.login_and_get_token username password) e c
         = (Returns (PDict [("success", PBool true);
                            ("message", PStr "Successfully authenticated");
                            ("token", token);
                            ("user", member)]),
            ({| V2.institution := V2.institution c;
                V2.access_token := token;
                V2.token_expires_at := expires_at;
                V2.user_data := member;
                V2.authorization := Some ("Bearer " ++ str token) |},
             [])).
Proof.
  intros e c username password res. apply v2_login_success.
Qed.

(** The theorem at work: a login from a storage item whose token is a
    list; the header is written with the quotes of [repr]. *)
Lemma X12_witness :
  V2.authorization
    (client_after (run (V2.login_and_get_token "u" "p")
                     (Sample.login_world (Fails "offline")
                        (LocalStorage (Some Sample.list_token_item)))
                     (V2.init "tudelft")))
  = Some "Bearer ['a', 1]".
Proof.
  destruct (X12_v2_login_success
              (Sample.login_world (Fails "offline")
                 (LocalStorage (Some Sample.list_token_item)))
              (V2.init "tudelft") "u" "p"
              (PDict [("success", PBool true);
                      ("message", PStr "Successfully authenticated");
                      ("token", PList [PStr "a"; PInt 1]);
                      ("user", PDict [("id", PInt 7)])])
              eq_refl eq_refl)
    as (auth & tr & token & issued & expires & sum & member & Hb & Htr & Htok & _
        & _ & _ & _ & _ & Hrun).
  rewrite Hrun. cbn in Hb. injection Hb as <-. cbn in Htr. injection Htr as <-.
  cbn in Htok. injection Htok as <-. reflexivity.
Defined.

(* ================================================================= *)
(** ** A token response without [issuedAt] *)

Section EpochExpiry.
Import Outcome Shape.
Variable e : env.



End EpochExpiry.



(* ================================================================= *)
(** ** Which message a failure of v1 carries *)

Section Relay.
Import Outcome Shape.
Variable e : env.

Local Opaque V1.booking_data.

Lemma json_type_or_not (r : response) :
  (content_type r = Some "application/json"
   /\ V1.error_data_of r = json r)
  \/ (content_type r <> Some "application/json"
      /\ V1.error_data_of r = ret (PDict [])).
Proof.
  unfold V1.error_data_of. destruct (content_type r) as [ct |].
  - destruct (String.eqb ct "application/json") eqn:E.
    + apply String.eqb_eq in E. subst. left. split; reflexivity.
    + apply String.eqb_neq in E. right. split; [congruence | reflexivity].
  - right. split; [discriminate | reflexivity].
Qed.

Lemma v1_create_booking_asked (c : V1.client) (location date time_slot : string)
  (sub_location slot_id resource_id : option string) (rq : request)
  (o : http_outcome) :
  In (rq, o)
    (exchanges (run (V1.create_booking location date time_slot sub_location slot_id
                       resource_id) e c)) ->
  V1.is_authenticated c = true
  /\ exists product,
      V1.location_map location = Some product
      /\ rq = mkRequest POST (V1.BASE_URL ++ "/api/bookings")
                (V1.booking_data product date time_slot slot_id resource_id)
      /\ vendor e 0%nat rq = o.
Proof.
  unfold V1.create_booking, V1.error_data_of. unfold_monad.
  split_run; intros Hin; one_exchange; read_tests;
    (split; [assumption |]); eexists; repeat split; try eassumption; reflexivity.
Qed.

Lemma v1_cancel_booking_asked (c : V1.client) (booking_id : string) (rq : request)
  (o : http_outcome) :
  In (rq, o) (exchanges (run (V1.cancel_booking booking_id) e c)) ->
  V1.is_authenticated c = true
  /\ rq = mkRequest DELETE (V1.BASE_URL ++ "/api/bookings/" ++ booking_id) PNone
  /\ vendor e 0%nat rq = o.
Proof.
  unfold V1.cancel_booking, V1.error_data_of. unfold_monad.
  split_run; intros Hin; one_exchange; read_tests; repeat split;
    try assumption; reflexivity.
Qed.

Lemma v1_create_booking_relays (c : V1.client) (location date time_slot : string)
  (sub_location slot_id resource_id : option string) (rq : request) (r : response)
  (res : pyval) :
  result (run (V1.create_booking location date time_slot sub_location slot_id
                 resource_id) e c) = Returns res ->
  In (rq, Responds r)
    (exchanges (run (V1.create_booking location date time_slot sub_location slot_id
                       resource_id) e c)) ->
  status_code r <> 200 -> status_code r <> 201 -> status_code r <> 409 ->
  (exists msg, res = V1.failure msg
               /\ relayed r ("Booking failed: " ++ string_of_Z (status_code r)) msg)
  \/ (content_type r = Some "application/json"
      /\ (forall kv, json_body r <> Some (PDict kv))
      /\ reports_failure "error" res).
Proof.
  intros Hres Hin H200 H201 H409.
  destruct (v1_create_booking_asked c _ _ _ _ _ _ rq _ Hin)
    as (Hauth & product & Hloc & -> & Hv).
  revert Hres. clear Hin. unfold V1.create_booking. unfold_monad. cbn in *.
  rewrite Hauth, Hloc. cbn. rewrite Hv. cbn.
  apply Z.eqb_neq in H200, H201, H409. rewrite H200, H201, H409. cbn.
  unfold relayed, reports_failure.
  destruct (json_type_or_not r) as [[Hct ->] | [Hct ->]]; unfold json, ret, raise.
  - destruct (json_body r) as [[| | | | | kv] |] eqn:Hb; cbn;
      intros Hres; inversion Hres; subst; clear Hres;
      try (right; split; [exact Hct |]; split;
           [intros kv; discriminate | split; [reflexivity | eexists; reflexivity]]).
    left. eexists. split; [reflexivity |]. right. split; [exact Hct |].
    exists kv. split; reflexivity.
  - cbn. intros Hres; inversion Hres; subst. left. eexists.
    split; [reflexivity |]. left. split; [exact Hct | reflexivity].
Qed.

Lemma v1_cancel_booking_relays (c : V1.client) (booking_id : string) (rq : request)
  (r : response) (res : pyval) :
  result (run (V1.cancel_booking booking_id) e c) = Returns res ->
  In (rq, Responds r) (exchanges (run (V1.cancel_booking booking_id) e c)) ->
  status_code r = 400 ->
  (exists msg, res = V1.failure msg /\ relayed r "Cannot cancel this booking" msg)
  \/ (content_type r = Some "application/json"
      /\ (forall kv, json_body r <> Some (PDict kv))
      /\ reports_failure "error" res).
Proof.
  intros Hres Hin H400.
  destruct (v1_cancel_booking_asked c _ rq _ Hin) as (Hauth & -> & Hv).
  revert Hres. clear Hin. unfold V1.cancel_booking. unfold_monad. cbn in *.
  rewrite Hauth. cbn. rewrite Hv. cbn. rewrite H400. cbn.
  unfold relayed, reports_failure.
  destruct (json_type_or_not r) as [[Hct ->] | [Hct ->]]; unfold json, ret, raise.
  - destruct (json_body r) as [[| | | | | kv] |] eqn:Hb; cbn;
      intros Hres; inversion Hres; subst; clear Hres;
      try (right; split; [exact Hct |]; split;
           [intros kv; discriminate | split; [reflexivity | eexists; reflexivity]]).
    left. eexists. split; [reflexivity |]. right. split; [exact Hct |].
    exists kv. split; reflexivity.
  - cbn. intros Hres; inversion Hres; subst. left. eexists.
    split; [reflexivity |]. left. split; [exact Hct | reflexivity].
Qed.

Lemma v1_login_relays (c : V1.client) (username password : string)
  (r1 r2 : response) :
  vendor e 0%nat (mkRequest GET (V1.BASE_URL ++ "/login") PNone) = Responds r1 ->
  vendor e 1%nat (mkRequest POST (V1.BASE_URL ++ "/api/auth/login")
                    (PDict [("username", PStr username); ("password", PStr password)]))
  = Responds r2 ->
  status_code r1 = 200 ->
  status_code r2 <> 200 ->
  client_after (run (V1.login username password) e c) = c
  /\ exists res,
      result (run (V1.login username password) e c) = Returns res
      /\ ((exists msg, res = V1.failure msg /\ relayed r2 "Invalid credentials" msg)
          \/ (content_type r2 = Some "application/json"
              /\ (forall kv, json_body r2 <> Some (PDict kv))
              /\ reports_failure "error" res)).
Proof.
  intros H1 H2 Hs1 Hs2. unfold V1.login. unfold_monad. cbn in *.
  rewrite H1. cbn. rewrite Hs1. cbn. rewrite H2. cbn.
  apply Z.eqb_neq in Hs2. rewrite Hs2. cbn.
  unfold relayed, reports_failure.
  destruct (json_type_or_not r2) as [[Hct ->] | [Hct ->]]; unfold json, ret, raise.
  - destruct (json_body r2) as [[| | | | | kv] |] eqn:Hb; cbn;
      (split; [reflexivity |]); eexists; (split; [reflexivity |]);
      try (right; split; [exact Hct |]; split;
           [intros kv; discriminate | split; [reflexivity | eexists; reflexivity]]).
    left. eexists. split; [reflexivity |]. right. split; [exact Hct |].
    exists kv. split; reflexivity.
  - cbn. split; [reflexivity |]. eexists. split; [reflexivity |]. left. eexists.
    split; [reflexivity |]. left. split; [exact Hct | reflexivity].
Qed.

End Relay.

(** X14: the message of a v1 failure that the vendor answered.  For a
    [create_booking] answered with a status other than 200, 201 and 409,
    a [cancel_booking] answered with 400, and a [login] whose credentials
    were answered with a status other than 200: when the content type of
    the answer is not exactly [application/json] the error is the
    client's own text ([Booking failed: <status>],
    [Cannot cancel this booking], [Invalid credentials]); when it is and
    the body is a JSON object, the error is the [message] of that object,
    of whatever type, or the client's text if the object has none; when
    it is and the body is not a JSON object, the call still returns a
    failure.  The failed login leaves the client as it was. *)
Theorem X14_v1_failure_messages :
  forall e : env,
    (forall (c : V1.client) location date time_slot sub_location slot_id resource_id
            rq r res,
        result (run (V1.create_booking location date time_slot sub_location slot_id
                       resource_id) e c) = Returns res ->
        In (rq, Responds r)
          (exchanges (run (V1.create_booking location date time_slot sub_location
                             slot_id resource_id) e c)) ->
        status_code r <> 200 -> status_code r <> 201 -> status_code r <> 409 ->
        (exists msg,
            res = V1.failure msg
            /\ Shape.relayed r ("Booking failed: " ++ string_of_Z (status_code r)) msg)
        \/ (content_type r = Some "application/json"
            /\ (forall kv, json_body r <> Some (PDict kv))
            /\ Outcome.reports_failure "error" res))
    /\ (forall (c : V1.client) booking_id rq r res,
           result (run (V1.cancel_booking booking_id) e c) = Returns res ->
           In (rq, Responds r) (exchanges (run (V1.cancel_booking booking_id) e c)) ->
           status_code r = 400 ->
           (exists msg,
               res = V1.failure msg
               /\ Shape.relayed r "Cannot cancel this booking" msg)
           \/ (content_type r = Some "application/json"
               /\ (forall kv, json_body r <> Some (PDict kv))
               /\ Outcome.reports_failure "error" res))
    /\ (forall (c : V1.client) username password r1 r2,
           vendor e 0%nat (mkRequest GET (V1.BASE_URL ++ "/login") PNone)
           = Responds r1 ->
           vendor e 1%nat
             (mkRequest POST (V1.BASE_URL ++ "/api/auth/login")
                (PDict [("username", PStr username); ("password", PStr password)]))
           = Responds r2 ->
           status_code r1 = 200 ->
           status_code r2 <> 200 ->
           client_after (run (V1.login username password) e c) = c
           /\ exists res,
               result (run (V1.login username password) e c) = Returns res
               /\ ((exists msg,
                       res = V1.failure msg
                       /\ Shape.relayed r2 "Invalid credentials" msg)
                   \/ (content_type r2 = Some "application/json"
                       /\ (forall kv, json_body r2 <> Some (PDict kv))
                       /\ Outcome.reports_failure "error" res))).
Proof.
  intros e. split; [| split].
  - intros c location date time_slot sub_location slot_id resource_id rq r res.
    apply v1_create_booking_relays.
  - intros c booking_id rq r res. apply v1_cancel_booking_relays.
  - intros c username password r1 r2. apply v1_login_relays.
Qed.

(** The theorem at work: the vendor answers a cancellation with 400 and
    says why. *)
Lemma X14_witness :
  exists msg,
    result (run (V1.cancel_booking "5")
              (Sample.world
                 (Responds (Sample.answer 400
                              (Some (PDict [("message", PStr "Too late to cancel")])))))
              Sample.member1)
    = Returns (V1.failure msg)
    /\ Shape.relayed
         (Sample.answer 400 (Some (PDict [("message", PStr "Too late to cancel")])))
         "Cannot cancel this booking" msg.
Proof.
  destruct (proj1 (proj2 (X14_v1_failure_messages
                            (Sample.world
                               (Responds
                                  (Sample.answer 400
                                     (Some (PDict [("message",
                                                    PStr "Too late to cancel")])))))))
              Sample.member1 "5"
              (mkRequest DELETE (V1.BASE_URL ++ "/api/bookings/5") PNone)
              (Sample.answer 400 (Some (PDict [("message", PStr "Too late to cancel")])))
              (V1.failure (PStr "Too late to cancel"))
              eq_refl (or_introl eq_refl) eq_refl)
    as [(msg & Hres & Hrel) | (_ & Hno & _)].
  - exists msg. split; [rewrite <- Hres; reflexivity | exact Hrel].
  - exfalso. apply (Hno [("message", PStr "Too late to cancel")]). reflexivity.
Defined.


(* ================================================================= *)
(** ** Listing the bookings of a member (v2) *)

Section Participations.
Import Outcome Shape.
Variable e : env.

Local Opaque V2.bookings_of.

Lemma v2_get_current_bookings_success (c : V2.client) (include_past : bool)
  (res : pyval) :
  result (run (V2.get_current_bookings include_past) e c) = Returns res ->
  success_of res = Some true ->
  exists rq r body member_id,
    answered (exchanges (run (V2.get_current_bookings include_past) e c)) rq r
    /\ ~ http_error (status_code r)
    /\ json_body r = Some body
    /\ field "bookings" res = Some (V2.bookings_of body)
    /\ (forall l, V2.bookings_of body = PList l ->
                  field "count" res = Some (PInt (Z.of_nat (List.length l))))
    /\ get (V2.user_data c) "id" = Returns member_id
    /\ truthy member_id = true
    /\ meth rq = GET
    /\ field "s" (payload rq)
       = Some (PDict [("$or", PList [PDict [("memberId", member_id)];
                                     PDict [("invitedMemberId", member_id)]]);
                      ("booking.startDate", PDict [("$gte", PStr (range_start_iso e))]);
                      ("booking.endDate", PDict [("$lte", PStr (range_end_iso e))])]).
Proof.
  unfold V2.get_current_bookings, V2.is_logged_in, V2.api_errors, V2.len, get,
    get_default, answered, http_error. unfold_monad.
  split_run; read_tests; intros Hres Hok; inversion Hres; subst; clear Hres;
    try discriminate Hok;
    do 4 eexists; repeat split; try eassumption; try reflexivity; try lia;
    try (intros l Hl; congruence);
    try (intros l Hl; rewrite Hl in *; discriminate);
    try (apply negb_true_iff; assumption).
  all: try (cbn; congruence).
  all: intros l0 Hl;
    match goal with H : V2.bookings_of _ = _ |- _ => rewrite Hl in H; inversion H end;
    reflexivity.
Qed.

End Participations.

(** X15: when [get_current_bookings] of v2 reports success, it made one
    GET that the vendor answered with a status outside 400-599 and a JSON
    body.  The query asked for the participations in which the member's
    id (truthy, read from the user data) is the member or the invited
    member, within the range of the clock; it is the same whether past
    bookings were asked for or not.  The bookings returned are those of
    the body: the list under [data.bookings], a list under [data], the
    body itself when it is a list, none otherwise; and [count] is their
    number. *)
Theorem X15_v2_get_current_bookings_success :
  forall (e : env) (c : V2.client) (include_past : bool),
    run (V2.get_current_bookings include_past) e c
    = run (V2.get_current_bookings (negb include_past)) e c
    /\ (forall res,
           result (run (V2.get_current_bookings include_past) e c) = Returns res ->
           success_of res = Some true ->
           exists rq r body member_id,
             Outcome.answered
               (exchanges (run (V2.get_current_bookings include_past) e c)) rq r
             /\ ~ Outcome.http_error (status_code r)
             /\ json_body r = Some body
             /\ field "bookings" res = Some (V2.bookings_of body)
             /\ (forall l, V2.bookings_of body = PList l ->
                           field "count" res = Some (PInt (Z.of_nat (List.length l))))
             /\ get (V2.user_data c) "id" = Returns member_id
             /\ truthy member_id = true
             /\ meth rq = GET
             /\ field "s" (payload rq)
                = Some (PDict [("$or", PList [PDict [("memberId", member_id)];
                                              PDict [("invitedMemberId", member_id)]]);
                               ("booking.startDate",
                                PDict [("$gte", PStr (range_start_iso e))]);
                               ("booking.endDate",
                                PDict [("$lte", PStr (range_end_iso e))])])).
Proof.
  intros e c include_past. split; [reflexivity |].
  apply v2_get_current_bookings_success.
Qed.

(** The theorem at work: the vendor answers with two bookings nested
    under [data]. *)
Lemma X15_witness :
  exists body,
    field "bookings"
      (PDict [("success", PBool true);
              ("bookings", PList [PDict [("id", PInt 1)]; PDict [("id", PInt 2)]]);
              ("count", PInt 2);
              ("message", PStr "Retrieved bookings")])
    = Some (V2.bookings_of body).
Proof.
  destruct (proj2 (X15_v2_get_current_bookings_success
                     (Sample.world
                        (Responds
                           (Sample.answer 200
                              (Some (PDict [("data",
                                             PDict [("bookings",
                                                     PList [PDict [("id", PInt 1)];
                                                            PDict [("id", PInt 2)]])])])))))
                     (Sample.member2 (PInt 2000)) false)
              (PDict [("success", PBool true);
                      ("bookings", PList [PDict [("id", PInt 1)]; PDict [("id", PInt 2)]]);
                      ("count", PInt 2);
                      ("message", PStr "Retrieved bookings")])
              eq_refl eq_refl)
    as (rq & r & body & member_id & _ & _ & _ & Hb & _).
  exists body. exact Hb.
Defined.

(* ================================================================= *)
(** ** Reading the sub-location off a product description *)

Section SubLocation.

Lemma prefix_of_app (p s : string) : prefix_of p (p ++ s) = true.
Proof.
  induction p as [| a p IH]; cbn; [reflexivity |].
  rewrite Ascii.eqb_refl. exact IH.
Qed.

Lemma substring_of_later (p s : string) (a : ascii) :
  substring_of p s = true -> substring_of p (String a s) = true.
Proof.
  intros H. cbn. rewrite H. apply orb_true_r.
Qed.

Lemma substring_of_app (p before after : string) :
  substring_of p (before ++ p ++ after) = true.
Proof.
  assert (Hhead : forall s, prefix_of p s = true -> substring_of p s = true).
  { intros s H. destruct s; cbn in *; rewrite H; reflexivity. }
  induction before as [| a before IH].
  - change (substring_of p (p ++ after) = true). apply Hhead. apply prefix_of_app.
  - change (substring_of p (String a (before ++ p ++ after)) = true).
    apply substring_of_later. exact IH.
Qed.

Lemma substring_of_occurs (p s : string) :
  substring_of p s = true -> exists before after, s = before ++ p ++ after.
Proof.
  assert (Hpre : forall q t, prefix_of q t = true -> exists after, t = q ++ after).
  { induction q as [| a q IH]; intros t H.
    - exists t. reflexivity.
    - destruct t as [| b t]; [discriminate H |]. cbn in H.
      apply andb_true_iff in H as [Hab Hq]. apply Ascii.eqb_eq in Hab. subst.
      destruct (IH t Hq) as [after ->]. exists after. reflexivity. }
  induction s as [| a s IH]; intros H.
  - cbn in H. rewrite orb_false_r in H. destruct (Hpre _ _ H) as [after Ha].
    exists EmptyString, after. exact Ha.
  - cbn in H. apply orb_true_iff in H as [H | H].
    + destruct (Hpre p (String a s)) as [after Ha].
      { destruct p; [reflexivity | exact H]. }
      exists EmptyString, after. exact Ha.
    + destruct (IH H) as (before & after & ->).
      exists (String a before), after. reflexivity.
Qed.

End SubLocation.

(** X16: [_parse_sub_location] of v1 never raises on a text or on [None].
    It answers [A] for every description in which [" A"] occurs, also
    when [" B"] occurs in it as well; [B] when [" B"] occurs and [" A"]
    does not; and [None] otherwise, in particular for [None] and the
    empty text.  On a number other than zero it raises [TypeError]. *)
Theorem X16_parse_sub_location :
  (forall s : string,
      V1._parse_sub_location (PStr s)
      = Returns (if substring_of " A" s then PStr "A"
                 else if substring_of " B" s then PStr "B"
                 else PNone))
  /\ (forall before after : string,
         V1._parse_sub_location (PStr (before ++ " A" ++ after)) = Returns (PStr "A"))
  /\ (forall s : string,
         V1._parse_sub_location (PStr s) = Returns (PStr "B") ->
         (exists before after, s = before ++ " B" ++ after)
         /\ forall before after, s <> before ++ " A" ++ after)
  /\ V1._parse_sub_location PNone = Returns PNone
  /\ V1._parse_sub_location (PStr EmptyString) = Returns PNone
  /\ (forall n : Z,
         n <> 0 ->
         V1._parse_sub_location (PInt n)
         = Raises (Exn TypeError "argument of type 'int' is not iterable")).
Proof.
  split; [exact parse_sub_location_text |].
  split.
  { intros before after. rewrite parse_sub_location_text, substring_of_app.
    reflexivity. }
  split.
  { intros s. rewrite parse_sub_location_text.
    destruct (substring_of " A" s) eqn:Ea; [discriminate |].
    destruct (substring_of " B" s) eqn:Eb; [| discriminate].
    intros _. split.
    - exact (substring_of_occurs _ _ Eb).
    - intros before after ->. rewrite substring_of_app in Ea. discriminate Ea. }
  split; [reflexivity |]. split; [reflexivity |].
  intros n Hn. unfold V1._parse_sub_location. cbn.
  apply Z.eqb_neq in Hn. rewrite Hn. reflexivity.
Qed.

(** The theorem at work: a description that names court B. *)
Lemma X16_witness :
  (exists before after, "X1 B" = before ++ " B" ++ after)
  /\ forall before after, "X1 B" <> before ++ " A" ++ after.
Proof.
  apply (proj1 (proj2 (proj2 X16_parse_sub_location)) "X1 B"). reflexivity.
Defined.
(* ================================================================= *)
(** ** The day asked for and the day sent *)

Section Dates.
Import Shape Unicode.

Lemma in_upto (lo x n : Z) :
  lo <= x < lo + n -> In x (upto lo (Z.to_nat n)).
Proof.
  intros H. unfold upto. apply in_map_iff. exists (Z.to_nat (x - lo)). split.
  - lia.
  - apply in_seq. lia.
Qed.

Lemma years_read_back (y : Z) : 1 <= y <= 9999 -> year_reads_back y = true.
Proof.
  intros H.
  assert (Hall : forallb year_reads_back (upto 1 (Z.to_nat 9999)) = true)
    by (vm_compute; reflexivity).
  rewrite forallb_forall in Hall. apply Hall. apply in_upto. lia.
Qed.

Lemma months_and_days_read_back (m dd : Z) :
  1 <= m <= 12 -> 1 <= dd <= 31 -> month_day_read_back m dd = true.
Proof.
  intros Hm Hd.
  assert (Hall : forallb (fun m => forallb (month_day_read_back m)
                                        (upto 1 (Z.to_nat 31)))
                   (upto 1 (Z.to_nat 12)) = true) by (vm_compute; reflexivity).
  rewrite forallb_forall in Hall. specialize (Hall m (in_upto 1 m 12 ltac:(lia))).
  rewrite forallb_forall in Hall. apply Hall. apply in_upto. lia.
Qed.

Lemma days_in_month_le_31 (y m : Z) : Datetime.days_in_month y m <= 31.
Proof.
  unfold Datetime.days_in_month.
  destruct (m =? 2); [destruct (Datetime.is_leap y); lia |].
  destruct ((m =? 4) || (m =? 6) || (m =? 9) || (m =? 11)); lia.
Qed.

(** An ASCII character is one byte, whatever follows it. *)
Lemma chars_ascii_head (a : ascii) (s : string) :
  (byte a <? 128) = true ->
  chars (String a s) = mkChar (byte a) (String a EmptyString) :: chars s.
Proof.
  intros H. cbn [chars]. cbv zeta. rewrite H. reflexivity.
Qed.

Lemma chars_ascii_app (s t : string) :
  is_ascii s = true -> chars (s ++ t) = (chars s ++ chars t)%list.
Proof.
  unfold is_ascii. induction s as [| a s IH]; intros H; [reflexivity |].
  cbn [list_ascii_of_string forallb] in H. apply andb_true_iff in H as [Ha Hs].
  change (String a s ++ t) with (String a (s ++ t)).
  rewrite !(chars_ascii_head a _ Ha), (IH Hs). reflexivity.
Qed.

Lemma year_group_app (l rest : list character) (y : Z) :
  Datetime.year_group l = Some (y, []) ->
  Datetime.year_group (l ++ rest)%list = Some (y, rest).
Proof.
  unfold Datetime.year_group.
  destruct l as [| a [| b [| c [| d l']]]]; try discriminate.
  cbn [app].
  destruct (Datetime.any_digit a), (Datetime.any_digit b), (Datetime.any_digit c),
    (Datetime.any_digit d); try discriminate.
  intros [= <- ->]. reflexivity.
Qed.

Lemma strptime_isoformat (d : Datetime.date) :
  calendar_day d -> Datetime.strptime (Datetime.isoformat_day d) = Returns d.
Proof.
  destruct d as [y m dd]. unfold calendar_day.
  cbn [Datetime.year Datetime.month Datetime.day].
  intros (Hy & Hm & Hd).
  pose proof (days_in_month_le_31 y m) as Hle.
  pose proof (years_read_back y Hy) as Hyear.
  pose proof (months_and_days_read_back m dd Hm ltac:(lia)) as Hmd.
  unfold Datetime.strptime, Datetime.isoformat_day, Datetime.regex_match.
  cbn [Datetime.year Datetime.month Datetime.day].
  unfold year_reads_back in Hyear. apply andb_true_iff in Hyear as [Hascii Hyear].
  rewrite (chars_ascii_app _ _ Hascii).
  destruct (Datetime.year_group (chars (Datetime.pad4 y))) as [[y' [| ? ?]] |] eqn:Ey;
    try discriminate Hyear.
  apply Z.eqb_eq in Hyear. subst y'.
  rewrite (year_group_app _ _ _ Ey).
  change ("-" ++ Datetime.pad2 m ++ "-" ++ Datetime.pad2 dd)
    with (String "-" (Datetime.pad2 m ++ "-" ++ Datetime.pad2 dd)).
  rewrite (chars_ascii_head "-" _ eq_refl).
  change (Datetime.dash (mkChar (byte "-") "-"
                         :: chars (Datetime.pad2 m ++ "-" ++ Datetime.pad2 dd)))
    with (Some (chars (Datetime.pad2 m ++ "-" ++ Datetime.pad2 dd))).
  cbv beta iota.
  unfold month_day_read_back in Hmd.
  destruct (Datetime.month_and_day
              (chars (Datetime.pad2 m ++ "-" ++ Datetime.pad2 dd)))
    as [[[m' dd'] [| ? ?]] |]; try discriminate Hmd.
  apply andb_true_iff in Hmd as [Hm' Hdd']. apply Z.eqb_eq in Hm', Hdd'. subst m' dd'.
  assert (H1 : (y <? 1) = false) by (apply Z.ltb_ge; lia).
  assert (H2 : (Datetime.days_in_month y m <? dd) = false) by (apply Z.ltb_ge; lia).
  rewrite H1, H2. reflexivity.
Qed.

Local Opaque Z.mul Z.add.

Lemma decimal_range (cp x : Z) : decimal cp = Some x -> 0 <= x <= 9.
Proof.
  unfold decimal.
  destruct (find (fun zero => (zero <=? cp) && (cp <? zero + 10)) decimal_zeros)
    as [zero |] eqn:E; [| discriminate].
  intros [= <-]. apply find_some in E as [_ E].
  apply andb_true_iff in E as [E1 E2]. apply Z.leb_le in E1. apply Z.ltb_lt in E2.
  lia.
Qed.

Lemma within_range (lo hi : Z) (c : character) (x : Z) :
  Datetime.within lo hi c = Some x -> lo <= x <= hi.
Proof.
  unfold Datetime.within.
  destruct ((48 + lo <=? code c) && (code c <=? 48 + hi)) eqn:E; [| discriminate].
  intros [= <-]. apply andb_true_iff in E as [E1 E2].
  apply Z.leb_le in E1, E2. lia.
Qed.

Lemma blank_is_zero (c : character) (x : Z) : Datetime.blank c = Some x -> x = 0.
Proof.
  unfold Datetime.blank. destruct (code c =? 32); [| discriminate].
  intros [= <-]. reflexivity.
Qed.

(** What [first_match] returns comes from one of the alternatives. *)
Lemma first_match_some {A} (alternatives : list Datetime.group)
  (l : list character) (k : Z -> list character -> option A) (r : A) :
  Datetime.first_match alternatives l k = Some r ->
  exists alternative v rest,
    In alternative alternatives
    /\ alternative l = Some (v, rest)
    /\ k v rest = Some r.
Proof.
  induction alternatives as [| alternative others IH]; cbn; [discriminate |].
  destruct (alternative l) as [[v rest] |] eqn:Ea.
  - destruct (k v rest) as [r' |] eqn:Ek.
    + intros [= <-]. exists alternative, v, rest. auto.
    + intros H. destruct (IH H) as (a' & v' & rest' & Hin & H1 & H2).
      exists a', v', rest'. auto.
  - intros H. destruct (IH H) as (a' & v' & rest' & Hin & H1 & H2).
    exists a', v', rest'. auto.
Qed.

Lemma two_range (first second : character -> option Z) (l rest : list character)
  (v : Z) :
  Datetime.two first second l = Some (v, rest) ->
  exists a b x y, first a = Some x /\ second b = Some y /\ v = 10 * x + y.
Proof.
  unfold Datetime.two. destruct l as [| a [| b l']]; try discriminate.
  destruct (first a) as [x |] eqn:Ea; [| discriminate].
  destruct (second b) as [y |] eqn:Eb; [| discriminate].
  intros [= <- <-]. exists a, b, x, y. auto.
Qed.

Lemma one_range (first : character -> option Z) (l rest : list character) (v : Z) :
  Datetime.one first l = Some (v, rest) -> exists a, first a = Some v.
Proof.
  unfold Datetime.one. destruct l as [| a l']; try discriminate.
  destruct (first a) as [x |] eqn:Ea; [| discriminate].
  intros [= <- <-]. exists a. exact Ea.
Qed.

Lemma month_group_range (alternative : Datetime.group) (l rest : list character)
  (m : Z) :
  In alternative Datetime.month_group ->
  alternative l = Some (m, rest) ->
  1 <= m <= 12.
Proof.
  intros [<- | [<- | [<- | []]]] H.
  - apply two_range in H as (a & b & x & y & Hx & Hy & ->).
    apply within_range in Hx, Hy. lia.
  - apply two_range in H as (a & b & x & y & Hx & Hy & ->).
    apply within_range in Hx, Hy. lia.
  - apply one_range in H as (a & Hx). apply within_range in Hx. lia.
Qed.

Lemma day_group_range (alternative : Datetime.group) (l rest : list character)
  (dd : Z) :
  In alternative Datetime.day_group ->
  alternative l = Some (dd, rest) ->
  1 <= dd <= 31.
Proof.
  intros [<- | [<- | [<- | [<- | [<- | []]]]]] H.
  - apply two_range in H as (a & b & x & y & Hx & Hy & ->).
    apply within_range in Hx, Hy. lia.
  - apply two_range in H as (a & b & x & y & Hx & Hy & ->).
    apply within_range in Hx. apply decimal_range in Hy. lia.
  - apply two_range in H as (a & b & x & y & Hx & Hy & ->).
    apply within_range in Hx, Hy. lia.
  - apply one_range in H as (a & Hx). apply within_range in Hx. lia.
  - apply two_range in H as (a & b & x & y & Hx & Hy & ->).
    apply blank_is_zero in Hx. apply within_range in Hy. lia.
Qed.

Lemma year_group_range (l rest : list character) (y : Z) :
  Datetime.year_group l = Some (y, rest) -> 0 <= y <= 9999.
Proof.
  unfold Datetime.year_group.
  destruct l as [| a [| b [| c [| d l']]]]; try discriminate.
  destruct (Datetime.any_digit a) as [y1 |] eqn:Ea; [| discriminate].
  destruct (Datetime.any_digit b) as [y2 |] eqn:Eb; [| discriminate].
  destruct (Datetime.any_digit c) as [y3 |] eqn:Ec; [| discriminate].
  destruct (Datetime.any_digit d) as [y4 |] eqn:Ed; [| discriminate].
  intros [= <- <-]. apply decimal_range in Ea, Eb, Ec, Ed. lia.
Qed.

Lemma month_and_day_range (l rest : list character) (m dd : Z) :
  Datetime.month_and_day l = Some (m, dd, rest) -> 1 <= m <= 12 /\ 1 <= dd <= 31.
Proof.
  unfold Datetime.month_and_day. intros H.
  apply first_match_some in H as (am & m' & l1 & Hin & Ham & H).
  destruct (Datetime.dash l1) as [l2 |]; [| discriminate].
  apply first_match_some in H as (ad & dd' & l3 & Hind & Had & H).
  injection H as <- <- <-.
  split; [exact (month_group_range am l l1 m' Hin Ham)
         | exact (day_group_range ad l2 l3 dd' Hind Had)].
Qed.

Lemma strptime_calendar_day (text : string) (d : Datetime.date) :
  Datetime.strptime text = Returns d -> calendar_day d.
Proof.
  unfold Datetime.strptime, Datetime.regex_match, calendar_day.
  destruct (Datetime.year_group (chars text)) as [[y l1] |] eqn:Ey; [| discriminate].
  destruct (Datetime.dash l1) as [l2 |]; [| discriminate].
  destruct (Datetime.month_and_day l2) as [[[m dd] rest] |] eqn:Em; [| discriminate].
  destruct rest; [| discriminate].
  destruct (y <? 1) eqn:E1; [discriminate |].
  destruct (Datetime.days_in_month y m <? dd) eqn:E2; [discriminate |].
  intros [= <-]. cbn.
  apply Z.ltb_ge in E1, E2. apply year_group_range in Ey.
  apply month_and_day_range in Em. lia.
Qed.

Lemma append_assoc (s t u : string) : (s ++ t) ++ u = s ++ t ++ u.
Proof.
  induction s as [| a s IH]; cbn; [reflexivity |]. rewrite IH. reflexivity.
Qed.

Lemma search_query_day (e : env) (product_id : Z) (d : Datetime.date)
  (location : string) (sub_location : option string) :
  field "startDate" (V2.search_query e product_id d location sub_location)
  = Some (PStr (Datetime.isoformat_day d ++ "T00:00:00Z"))
  /\ field "endDate" (V2.search_query e product_id d location sub_location)
     = Some (PStr (Datetime.isoformat_day d ++ "T23:59:59.999999Z"))
  /\ field "productIds" (V2.search_query e product_id d location sub_location)
     = Some (PDict [("$in", PList [PInt product_id])]).
Proof.
  unfold V2.search_query, Datetime.start_of_day, Datetime.end_of_day.
  rewrite !append_assoc.
  change ("T00:00:00" ++ "Z") with "T00:00:00Z".
  change ("T23:59:59.999999" ++ "Z") with "T23:59:59.999999Z".
  destruct sub_location as [sub |]; [| repeat split].
  destruct (V2.resources_of location) as [resources |]; [| repeat split].
  destruct (V2.truthy_opt (Some sub)); [| repeat split].
  destruct (lookup sub resources) as [resource_id |]; [| repeat split].
  destruct (truthy resource_id); repeat split.
Qed.

Variable e : env.

Local Opaque V2.slots_request.

Lemma v2_slots_request_sent (c : V2.client) (location text : string)
  (product_id : Z) (d : Datetime.date) (sub_location : option string) :
  result (run V2.is_logged_in e c) = Returns true ->
  V2.product_id_of location = Some product_id ->
  Datetime.strptime text = Returns d ->
  exchanges (run (V2.get_available_slots location text sub_location) e c)
  = [(V2.slots_request e product_id d location sub_location,
      vendor e 0%nat (V2.slots_request e product_id d location sub_location))].
Proof.
  intros Hlog Hprod Hd. unfold V2.get_available_slots. unfold run, bind.
  rewrite v2_is_logged_in_silent, Hlog, Hprod. unfold lift. rewrite Hd.
  unfold V2.api_errors. unfold_monad. split_run; reflexivity.
Qed.

End Dates.

(** X17: the date text of [get_available_slots] of v2.  Whatever text
    [strptime] accepts under [%Y-%m-%d], in the digits of any script,
    names a day of the calendar (year 1 to 9999, month 1 to 12, a day
    that month has in that year), and the text that [isoformat] writes
    for a calendar day is read back as that day.  For a logged-in client,
    a known location and a text that is read as the day [d], the one
    request of the call asks for the product of the location from
    [T00:00:00Z] to [T23:59:59.999999Z] of [d] as [isoformat] writes it:
    a text such as [2025-1-5] is sent as [2025-01-05]. *)
Theorem X17_v2_slots_day :
  (forall (text : string) (d : Datetime.date),
      Datetime.strptime text = Returns d ->
      Shape.calendar_day d
      /\ Datetime.strptime (Datetime.isoformat_day d) = Returns d)
  /\ (forall d : Datetime.date,
         Shape.calendar_day d ->
         Datetime.strptime (Datetime.isoformat_day d) = Returns d)
  /\ (forall (e : env) (c : V2.client) (location text : string) (product_id : Z)
             (d : Datetime.date) (sub_location : option string),
         result (run V2.is_logged_in e c) = Returns true ->
         V2.product_id_of location = Some product_id ->
         Datetime.strptime text = Returns d ->
         exists rq,
           exchanges (run (V2.get_available_slots location text sub_location) e c)
           = [(rq, vendor e 0%nat rq)]
           /\ meth rq = GET
           /\ (exists query,
                  field "s" (payload rq) = Some query
                  /\ field "startDate" query
                     = Some (PStr (Datetime.isoformat_day d ++ "T00:00:00Z"))
                  /\ field "endDate" query
                     = Some (PStr (Datetime.isoformat_day d ++ "T23:59:59.999999Z"))
                  /\ field "productIds" query
                     = Some (PDict [("$in", PList [PInt product_id])]))).
Proof.
  split; [| split].
  - intros text d H. pose proof (strptime_calendar_day text d H) as Hd.
    split; [exact Hd | exact (strptime_isoformat d Hd)].
  - exact strptime_isoformat.
  - intros e c location text product_id d sub_location Hlog Hprod Hd.
    exists (V2.slots_request e product_id d location sub_location).
    split; [exact (v2_slots_request_sent e c location text product_id d
                     sub_location Hlog Hprod Hd) |].
    split; [reflexivity |].
    exists (V2.search_query e product_id d location sub_location).
    split; [reflexivity |].
    exact (search_query_day e product_id d location sub_location).
Qed.

(** The theorem at work: a day written with full-width digits for the
    year and without leading zeros is asked of the vendor as
    [2025-01-05]. *)
Lemma X17_witness :
  exists rq query,
    exchanges (run (V2.get_available_slots "Fitness" "２０２５-1-5" None)
                 (Sample.world (Fails "offline")) (Sample.member2 (PInt 2000)))
    = [(rq, Fails "offline")]
    /\ field "s" (payload rq) = Some query
    /\ field "startDate" query = Some (PStr "2025-01-05T00:00:00Z")
    /\ field "endDate" query = Some (PStr "2025-01-05T23:59:59.999999Z").
Proof.
  destruct (proj2 (proj2 X17_v2_slots_day)
              (Sample.world (Fails "offline")) (Sample.member2 (PInt 2000))
              "Fitness" "２０２５-1-5" 20061 (Datetime.mkDate 2025 1 5) None
              eq_refl eq_refl eq_refl)
    as (rq & Hsent & _ & query & Hquery & Hstart & Hend & _).
  exists rq, query. split; [exact Hsent |]. split; [exact Hquery |].
  split; [exact Hstart | exact Hend].
Defined.

(* ================================================================= *)
(** ** The slots of v1, entry by entry *)

Section SlotViews.
Import Outcome Shape.

Lemma parse_slot_object (kv : list (string * pyval)) :
  V1.parse_slot (PDict kv) = Returns (slot_view kv).
Proof. reflexivity. Qed.

Lemma parse_slot_needs_object (slot v : pyval) :
  V1.parse_slot slot = Returns v -> is_object slot.
Proof.
  destruct slot; cbn; try discriminate. intros _. eexists. reflexivity.
Qed.

Lemma each_parse_slot_objects (kvs : list (list (string * pyval))) :
  each V1.parse_slot (map PDict kvs) = Returns (map slot_view kvs).
Proof.
  induction kvs as [| kv rest IH]; [reflexivity |].
  cbn [map each]. rewrite parse_slot_object. cbn [and_then]. rewrite IH. reflexivity.
Qed.

Lemma each_parse_slot_returns (items : list pyval) (slots : list pyval) :
  each V1.parse_slot items = Returns slots -> Forall is_object items.
Proof.
  revert slots. induction items as [| x rest IH]; intros slots H; [constructor |].
  cbn [each] in H. destruct (V1.parse_slot x) as [y | x0] eqn:Ex; [| discriminate H].
  cbn [and_then] in H.
  destruct (each V1.parse_slot rest) as [ys | x0] eqn:Er; [| discriminate H].
  constructor; [exact (parse_slot_needs_object x y Ex) | exact (IH ys eq_refl)].
Qed.

Variable e : env.
Local Opaque each V1.parse_slot V1.slots_request.

Lemma v1_slots_entry_by_entry (c : V1.client) (location date : string)
  (sub_location : option string) (rq : request) (r : response)
  (kv : list (string * pyval)) (items : list pyval) (res : pyval) :
  result (run (V1.get_available_slots location date sub_location) e c) = Returns res ->
  In (rq, Responds r)
    (exchanges (run (V1.get_available_slots location date sub_location) e c)) ->
  status_code r = 200 ->
  json_body r = Some (PDict kv) ->
  iterate (entry_or "slots" (PList []) kv) = Returns items ->
  (forall kvs,
      items = map PDict kvs ->
      res = PDict [("success", PBool true);
                   ("location", PStr location);
                   ("sub_location", opt_str sub_location);
                   ("date", PStr date);
                   ("slots", PList (map slot_view kvs));
                   ("count", PInt (Z.of_nat (List.length kvs)))])
  /\ (~ Forall is_object items -> reports_failure "error" res).
Proof.
  unfold V1.get_available_slots, reports_failure, entry_or, get_default.
  unfold_monad. cbn.
  destruct (V1.is_authenticated c); cbn; [| intros _ []].
  destruct (V1.location_map location) as [product |]; cbn; [| intros _ []].
  destruct (vendor e 0%nat (V1.slots_request product date location sub_location))
    as [r0 | msg] eqn:Ev; cbn.
  2: { intros _ [H | []]. inversion H. }
  destruct (status_code r0 =? 200) eqn:Es; cbn.
  2: { intros _ [H | []]. inversion H; subst. intros Hs. apply Z.eqb_neq in Es.
       contradiction. }
  destruct (json_body r0) as [[| | | | | kv0] |] eqn:Eb; cbn;
    try (intros _ [H | []]; inversion H; subst; intros _ Hb; rewrite Eb in Hb;
         discriminate Hb).
  destruct (iterate match lookup "slots" kv0 with
                    | Some x => x
                    | None => PList []
                    end) as [items0 | x0] eqn:Ei; cbn.
  2: { intros _ [H | []]. inversion H; subst. intros _ Hb. rewrite Eb in Hb.
       inversion Hb; subst. intros Hi. rewrite Ei in Hi. discriminate Hi. }
  destruct (each V1.parse_slot items0) as [slots | x0] eqn:Ee; cbn;
    intros Hres [H | []]; inversion H; subst; clear H; intros _ Hb;
    rewrite Eb in Hb; inversion Hb; subst; clear Hb; intros Hi; rewrite Ei in Hi;
    inversion Hi; subst; clear Hi; inversion Hres; subst; clear Hres.
  - split.
    + intros kvs ->. rewrite each_parse_slot_objects in Ee. inversion Ee; subst.
      rewrite !length_map. reflexivity.
    + intros Hno. exfalso. apply Hno. exact (each_parse_slot_returns _ _ Ee).
  - split.
    + intros kvs ->. rewrite each_parse_slot_objects in Ee. discriminate Ee.
    + intros _. split; [reflexivity | eexists; reflexivity].
Qed.

End SlotViews.

(** X18: what [get_available_slots] of v1 makes of a 200 answer whose body
    is a JSON object.  The entries are those under [slots], none when the
    key is missing.  When every entry is a JSON object the call reports
    success with one slot per entry, in the vendor's order: [startTime],
    [endTime], [id] and [resourceId] are copied ([None] where missing),
    [availableSpots] and [totalSpots] default to 0, and [count] is the
    number of entries.  When some entry is not a JSON object the whole
    call reports a failure. *)
Theorem X18_v1_slots_entry_by_entry :
  forall (e : env) (c : V1.client) (location date : string)
         (sub_location : option string) (rq : request) (r : response)
         (kv : list (string * pyval)) (items : list pyval) (res : pyval),
    result (run (V1.get_available_slots location date sub_location) e c)
    = Returns res ->
    In (rq, Responds r)
      (exchanges (run (V1.get_available_slots location date sub_location) e c)) ->
    status_code r = 200 ->
    json_body r = Some (PDict kv) ->
    iterate (Shape.entry_or "slots" (PList []) kv) = Returns items ->
    (forall kvs,
        items = map PDict kvs ->
        res = PDict [("success", PBool true);
                     ("location", PStr location);
                     ("sub_location", opt_str sub_location);
                     ("date", PStr date);
                     ("slots", PList (map Shape.slot_view kvs));
                     ("count", PInt (Z.of_nat (List.length kvs)))])
    /\ (~ Forall Shape.is_object items -> Outcome.reports_failure "error" res).
Proof.
  intros e c location date sub_location rq r kv items res.
  apply v1_slots_entry_by_entry.
Qed.

(** The theorem at work: the vendor answers 200 with an object that says
    nothing of slots. *)
Lemma X18_witness :
  exists res,
    result (run (V1.get_available_slots "Fitness" "2025-11-17" None)
              (Sample.world (Responds (Sample.answer 200
                                         (Some (PDict [("error", PStr "closed")])))))
              Sample.member1)
    = Returns res
    /\ res = PDict [("success", PBool true);
                    ("location", PStr "Fitness");
                    ("sub_location", PNone);
                    ("date", PStr "2025-11-17");
                    ("slots", PList []);
                    ("count", PInt 0)].
Proof.
  eexists. split; [reflexivity |].
  apply (proj1 (X18_v1_slots_entry_by_entry
                  (Sample.world (Responds (Sample.answer 200
                                             (Some (PDict [("error", PStr "closed")])))))
                  Sample.member1 "Fitness" "2025-11-17" None
                  (V1.slots_request "20061" "2025-11-17" "Fitness" None)
                  (Sample.answer 200 (Some (PDict [("error", PStr "closed")])))
                  [("error", PStr "closed")] [] _
                  eq_refl (or_introl eq_refl) eq_refl eq_refl eq_refl) []).
  reflexivity.
Defined.
